(** * Cerberus input interception (examples/cerberus/input.cpp)

    A shallow embedding of the input layer of the Cerberus overlay: the
    deferred window-procedure queue, the cursor / clip-rectangle
    save-and-restore state machine, the raw-input redirection and the lazy
    cross-thread input attachment, together with the properties the
    specification states about them.

    The file-level statics of input.cpp and the part of the Win32 state the
    code reads and writes are the fields of one record, [World].  Functions
    that call into Win32 are written in a state-and-exception monad [M]:
    HADESMEM_DETAIL_THROW_EXCEPTION becomes [throw] and leaves the statics
    as they were at the throw.  The two cursor-counting loops carry a fuel
    argument and are shown never to exhaust it; the queue drain carries one
    because a subscriber may keep pushing entries for ever. *)

From Stdlib Require Import ZArith Lia.
From stdpp Require Import gmap list strings.

Local Open Scope Z_scope.

(** ** Win32 scalar types *)

Abbreviation HCURSOR := Z (only parsing).
Abbreviation HWND := Z (only parsing).
Abbreviation HANDLE := Z (only parsing).
Abbreviation HRAWINPUT := Z (only parsing).
Abbreviation DWORD := Z (only parsing).
Abbreviation UINT := Z (only parsing).
Abbreviation WPARAM := Z (only parsing).
Abbreviation LPARAM := Z (only parsing).
Abbreviation LONG := Z (only parsing).
Abbreviation SHORT := Z (only parsing).
Abbreviation BOOL := Z (only parsing).
Abbreviation LPVOID := Z (only parsing).

Definition TRUE : BOOL := 1.
Definition FALSE : BOOL := 0.
Definition nullptr : Z := 0.

(** [int] is 32 bits wide; [++] and [--] on it are written with their
    two's-complement wrap-around. *)
Definition INT_MIN : Z := - 2 ^ 31.
Definition INT_MAX : Z := 2 ^ 31 - 1.
Definition wrap_int (z : Z) : Z := (z + 2 ^ 31) mod 2 ^ 32 - 2 ^ 31.
Arguments wrap_int : simpl never.

(** [static_cast<UINT>(z)] *)
Definition to_UINT (z : Z) : UINT := z mod 2 ^ 32.

(** Message and key constants of the Windows SDK headers. *)
Definition WM_INPUT : UINT := 0x00FF.
Definition WM_KEYFIRST : UINT := 0x0100.
Definition WM_KEYDOWN : UINT := 0x0100.
Definition WM_KEYLAST : UINT := 0x0109.
Definition WM_MOUSEFIRST : UINT := 0x0200.
Definition WM_MOUSELAST : UINT := 0x020E.
Definition VK_SHIFT : Z := 0x10.
Definition VK_F9 : Z := 0x78.
Definition RIDEV_REMOVE : DWORD := 0x00000001.
Definition RIDEV_NOLEGACY : DWORD := 0x00000030.

(** ** Win32 structures *)

Module POINT.
Record t : Type := mk { x : LONG; y : LONG }.
Definition zero : t := mk 0 0.
End POINT.

Module RECT.
Record t : Type := mk { left : LONG; top : LONG; right : LONG; bottom : LONG }.
Definition zero : t := mk 0 0 0 0.
End RECT.

Record RAWINPUTDEVICE : Type := mkRAWINPUTDEVICE {
  usUsagePage : Z;
  usUsage : Z;
  dwFlags : DWORD;
  hwndTarget : HWND
}.

Definition RAWINPUTDEVICE_zero : RAWINPUTDEVICE := mkRAWINPUTDEVICE 0 0 0 0.

(** The HADESMEM_DETAIL_HID_USAGE_* macros come from
    hadesmem/detail/winternl.hpp; their values are parameters of the
    development. *)
Record HidUsage : Type := mkHidUsage {
  HADESMEM_DETAIL_HID_USAGE_PAGE_GENERIC : Z;
  HADESMEM_DETAIL_HID_USAGE_GENERIC_MOUSE : Z;
  HADESMEM_DETAIL_HID_USAGE_GENERIC_KEYBOARD : Z
}.

(** ** The queue entry *)

Record WndProcInputMsg : Type := mkWndProcInputMsg {
  hwnd_ : HWND;
  msg_ : UINT;
  wparam_ : WPARAM;
  lparam_ : LPARAM;
  tid_ : DWORD;
  thread_ : HANDLE
}.

(** ** Errors and trace output *)

Record Error : Type := mkError {
  ErrorString : string;
  ErrorCodeWinLast : DWORD
}.

(** One line of HADESMEM_DETAIL_TRACE_A / TRACE_FORMAT_A output: the format
    string and its arguments. *)
Record TraceEntry : Type := mkTrace {
  trace_format : string;
  trace_args : list Z
}.

(** ** The callback registry *)

(** A subscriber of the input queue, [void(HWND, UINT, WPARAM, LPARAM)].
    What it does with the message is its own business; what the queue sees
    of it is the entries it causes to be pushed while it runs (the queue
    mutex is recursive, so a subscriber may re-enter the window procedure
    hook on the draining thread). *)
Definition OnInputQueueEntry : Type :=
  HWND -> UINT -> WPARAM -> LPARAM -> list WndProcInputMsg.

(** One invocation of a subscriber: its registration id and the tuple it
    was called with. *)
Record Delivery : Type := mkDelivery {
  dl_id : nat;
  dl_hwnd : HWND;
  dl_msg : UINT;
  dl_wparam : WPARAM;
  dl_lparam : LPARAM
}.

Module Callbacks.

(** Modelled from the spec: callbacks.hpp (the [Callbacks<T>] template) is
    not part of the sources at hand.  Section 4.1 of the specification
    describes it: handles are issued monotonically, unregistering an unknown
    handle does nothing, and a broadcast calls every registered subscriber in
    registration order on the calling thread. *)
Record t : Type := mk {
  subscribers : list (nat * OnInputQueueEntry);
  next_id : nat
}.

Definition empty : t := mk [] 0%nat.

Definition Register (callback : OnInputQueueEntry) (c : t) : nat * t :=
  (next_id c, mk (subscribers c ++ [(next_id c, callback)]) (S (next_id c))).

Definition Unregister (id : nat) (c : t) : t :=
  mk (List.filter (fun s => negb (Nat.eqb (fst s) id)) (subscribers c))
     (next_id c).

(** The invocations a broadcast of one tuple makes, in order. *)
Definition Run_deliveries (c : t) (hwnd : HWND) (msg : UINT)
    (wparam : WPARAM) (lparam : LPARAM) : list Delivery :=
  map (fun s => mkDelivery (fst s) hwnd msg wparam lparam) (subscribers c).

(** The entries pushed by the subscribers during that broadcast, in order. *)
Definition Run_pushes (c : t) (hwnd : HWND) (msg : UINT)
    (wparam : WPARAM) (lparam : LPARAM) : list WndProcInputMsg :=
  flat_map (fun s => snd s hwnd msg wparam lparam) (subscribers c).

End Callbacks.

(** ** The state *)

Record World : Type := Build_World {
  (** the part of the window station the code talks to *)
  os_cursor : HCURSOR;
  os_cursor_pos : POINT.t;
  os_show_count : Z;
  os_clip_cursor : RECT.t;
  os_raw_input_devices : list RAWINPUTDEVICE;
  os_attached : gset (Z * Z);
  os_open_handles : gset Z;
  os_next_handle : HANDLE;
  (** the bytes of the process, by address *)
  memory : Z -> Z;
  (** GetGuiVisible() of render.cpp *)
  gui_visible : bool;
  (** the function-local statics of input.cpp *)
  show_cursor_count : Z;
  old_cursor : bool * HCURSOR;
  old_cursor_pos : bool * POINT.t;
  old_clip_cursor : RECT.t;
  old_raw_input_devices : list RAWINPUTDEVICE;
  wnd_proc_input_msg_queue : list WndProcInputMsg;
  on_input_queue_entry_callbacks : Callbacks.t;
  (** the two __declspec(thread) statics of LazyAttachThreadInput, one pair
      per calling thread; a thread that never ran it has (0, nullptr) *)
  last_attached : gmap Z (DWORD * HANDLE);
  (** what was traced, and which subscriber was called with what *)
  trace_log : list TraceEntry;
  delivered : list Delivery
}.

Definition set_os_cursor (v : HCURSOR) (w : World) : World :=
  Build_World v (os_cursor_pos w) (os_show_count w) (os_clip_cursor w)
    (os_raw_input_devices w) (os_attached w) (os_open_handles w)
    (os_next_handle w) (memory w) (gui_visible w) (show_cursor_count w)
    (old_cursor w) (old_cursor_pos w) (old_clip_cursor w)
    (old_raw_input_devices w) (wnd_proc_input_msg_queue w)
    (on_input_queue_entry_callbacks w) (last_attached w) (trace_log w)
    (delivered w).

Definition set_os_cursor_pos (v : POINT.t) (w : World) : World :=
  Build_World (os_cursor w) v (os_show_count w) (os_clip_cursor w)
    (os_raw_input_devices w) (os_attached w) (os_open_handles w)
    (os_next_handle w) (memory w) (gui_visible w) (show_cursor_count w)
    (old_cursor w) (old_cursor_pos w) (old_clip_cursor w)
    (old_raw_input_devices w) (wnd_proc_input_msg_queue w)
    (on_input_queue_entry_callbacks w) (last_attached w) (trace_log w)
    (delivered w).

Definition set_os_show_count (v : Z) (w : World) : World :=
  Build_World (os_cursor w) (os_cursor_pos w) v (os_clip_cursor w)
    (os_raw_input_devices w) (os_attached w) (os_open_handles w)
    (os_next_handle w) (memory w) (gui_visible w) (show_cursor_count w)
    (old_cursor w) (old_cursor_pos w) (old_clip_cursor w)
    (old_raw_input_devices w) (wnd_proc_input_msg_queue w)
    (on_input_queue_entry_callbacks w) (last_attached w) (trace_log w)
    (delivered w).

Definition set_os_clip_cursor (v : RECT.t) (w : World) : World :=
  Build_World (os_cursor w) (os_cursor_pos w) (os_show_count w) v
    (os_raw_input_devices w) (os_attached w) (os_open_handles w)
    (os_next_handle w) (memory w) (gui_visible w) (show_cursor_count w)
    (old_cursor w) (old_cursor_pos w) (old_clip_cursor w)
    (old_raw_input_devices w) (wnd_proc_input_msg_queue w)
    (on_input_queue_entry_callbacks w) (last_attached w) (trace_log w)
    (delivered w).

Definition set_os_raw_input_devices (v : list RAWINPUTDEVICE) (w : World) : World :=
  Build_World (os_cursor w) (os_cursor_pos w) (os_show_count w)
    (os_clip_cursor w) v (os_attached w) (os_open_handles w)
    (os_next_handle w) (memory w) (gui_visible w) (show_cursor_count w)
    (old_cursor w) (old_cursor_pos w) (old_clip_cursor w)
    (old_raw_input_devices w) (wnd_proc_input_msg_queue w)
    (on_input_queue_entry_callbacks w) (last_attached w) (trace_log w)
    (delivered w).

Definition set_os_attached (v : gset (Z * Z)) (w : World) : World :=
  Build_World (os_cursor w) (os_cursor_pos w) (os_show_count w)
    (os_clip_cursor w) (os_raw_input_devices w) v (os_open_handles w)
    (os_next_handle w) (memory w) (gui_visible w) (show_cursor_count w)
    (old_cursor w) (old_cursor_pos w) (old_clip_cursor w)
    (old_raw_input_devices w) (wnd_proc_input_msg_queue w)
    (on_input_queue_entry_callbacks w) (last_attached w) (trace_log w)
    (delivered w).

Definition set_os_open_handles (v : gset Z) (w : World) : World :=
  Build_World (os_cursor w) (os_cursor_pos w) (os_show_count w)
    (os_clip_cursor w) (os_raw_input_devices w) (os_attached w) v
    (os_next_handle w) (memory w) (gui_visible w) (show_cursor_count w)
    (old_cursor w) (old_cursor_pos w) (old_clip_cursor w)
    (old_raw_input_devices w) (wnd_proc_input_msg_queue w)
    (on_input_queue_entry_callbacks w) (last_attached w) (trace_log w)
    (delivered w).

Definition set_os_next_handle (v : HANDLE) (w : World) : World :=
  Build_World (os_cursor w) (os_cursor_pos w) (os_show_count w)
    (os_clip_cursor w) (os_raw_input_devices w) (os_attached w)
    (os_open_handles w) v (memory w) (gui_visible w) (show_cursor_count w)
    (old_cursor w) (old_cursor_pos w) (old_clip_cursor w)
    (old_raw_input_devices w) (wnd_proc_input_msg_queue w)
    (on_input_queue_entry_callbacks w) (last_attached w) (trace_log w)
    (delivered w).

Definition set_memory (v : Z -> Z) (w : World) : World :=
  Build_World (os_cursor w) (os_cursor_pos w) (os_show_count w)
    (os_clip_cursor w) (os_raw_input_devices w) (os_attached w)
    (os_open_handles w) (os_next_handle w) v (gui_visible w)
    (show_cursor_count w) (old_cursor w) (old_cursor_pos w)
    (old_clip_cursor w) (old_raw_input_devices w) (wnd_proc_input_msg_queue w)
    (on_input_queue_entry_callbacks w) (last_attached w) (trace_log w)
    (delivered w).

Definition set_gui_visible (v : bool) (w : World) : World :=
  Build_World (os_cursor w) (os_cursor_pos w) (os_show_count w)
    (os_clip_cursor w) (os_raw_input_devices w) (os_attached w)
    (os_open_handles w) (os_next_handle w) (memory w) v (show_cursor_count w)
    (old_cursor w) (old_cursor_pos w) (old_clip_cursor w)
    (old_raw_input_devices w) (wnd_proc_input_msg_queue w)
    (on_input_queue_entry_callbacks w) (last_attached w) (trace_log w)
    (delivered w).

Definition set_show_cursor_count (v : Z) (w : World) : World :=
  Build_World (os_cursor w) (os_cursor_pos w) (os_show_count w)
    (os_clip_cursor w) (os_raw_input_devices w) (os_attached w)
    (os_open_handles w) (os_next_handle w) (memory w) (gui_visible w) v
    (old_cursor w) (old_cursor_pos w) (old_clip_cursor w)
    (old_raw_input_devices w) (wnd_proc_input_msg_queue w)
    (on_input_queue_entry_callbacks w) (last_attached w) (trace_log w)
    (delivered w).

Definition set_old_cursor (v : bool * HCURSOR) (w : World) : World :=
  Build_World (os_cursor w) (os_cursor_pos w) (os_show_count w)
    (os_clip_cursor w) (os_raw_input_devices w) (os_attached w)
    (os_open_handles w) (os_next_handle w) (memory w) (gui_visible w)
    (show_cursor_count w) v (old_cursor_pos w) (old_clip_cursor w)
    (old_raw_input_devices w) (wnd_proc_input_msg_queue w)
    (on_input_queue_entry_callbacks w) (last_attached w) (trace_log w)
    (delivered w).

Definition set_old_cursor_pos (v : bool * POINT.t) (w : World) : World :=
  Build_World (os_cursor w) (os_cursor_pos w) (os_show_count w)
    (os_clip_cursor w) (os_raw_input_devices w) (os_attached w)
    (os_open_handles w) (os_next_handle w) (memory w) (gui_visible w)
    (show_cursor_count w) (old_cursor w) v (old_clip_cursor w)
    (old_raw_input_devices w) (wnd_proc_input_msg_queue w)
    (on_input_queue_entry_callbacks w) (last_attached w) (trace_log w)
    (delivered w).

Definition set_old_clip_cursor (v : RECT.t) (w : World) : World :=
  Build_World (os_cursor w) (os_cursor_pos w) (os_show_count w)
    (os_clip_cursor w) (os_raw_input_devices w) (os_attached w)
    (os_open_handles w) (os_next_handle w) (memory w) (gui_visible w)
    (show_cursor_count w) (old_cursor w) (old_cursor_pos w) v
    (old_raw_input_devices w) (wnd_proc_input_msg_queue w)
    (on_input_queue_entry_callbacks w) (last_attached w) (trace_log w)
    (delivered w).

Definition set_old_raw_input_devices (v : list RAWINPUTDEVICE) (w : World) : World :=
  Build_World (os_cursor w) (os_cursor_pos w) (os_show_count w)
    (os_clip_cursor w) (os_raw_input_devices w) (os_attached w)
    (os_open_handles w) (os_next_handle w) (memory w) (gui_visible w)
    (show_cursor_count w) (old_cursor w) (old_cursor_pos w)
    (old_clip_cursor w) v (wnd_proc_input_msg_queue w)
    (on_input_queue_entry_callbacks w) (last_attached w) (trace_log w)
    (delivered w).

Definition set_wnd_proc_input_msg_queue (v : list WndProcInputMsg) (w : World) : World :=
  Build_World (os_cursor w) (os_cursor_pos w) (os_show_count w)
    (os_clip_cursor w) (os_raw_input_devices w) (os_attached w)
    (os_open_handles w) (os_next_handle w) (memory w) (gui_visible w)
    (show_cursor_count w) (old_cursor w) (old_cursor_pos w)
    (old_clip_cursor w) (old_raw_input_devices w) v
    (on_input_queue_entry_callbacks w) (last_attached w) (trace_log w)
    (delivered w).

Definition set_on_input_queue_entry_callbacks (v : Callbacks.t) (w : World) : World :=
  Build_World (os_cursor w) (os_cursor_pos w) (os_show_count w)
    (os_clip_cursor w) (os_raw_input_devices w) (os_attached w)
    (os_open_handles w) (os_next_handle w) (memory w) (gui_visible w)
    (show_cursor_count w) (old_cursor w) (old_cursor_pos w)
    (old_clip_cursor w) (old_raw_input_devices w) (wnd_proc_input_msg_queue w)
    v (last_attached w) (trace_log w) (delivered w).

Definition set_last_attached (v : gmap Z (DWORD * HANDLE)) (w : World) : World :=
  Build_World (os_cursor w) (os_cursor_pos w) (os_show_count w)
    (os_clip_cursor w) (os_raw_input_devices w) (os_attached w)
    (os_open_handles w) (os_next_handle w) (memory w) (gui_visible w)
    (show_cursor_count w) (old_cursor w) (old_cursor_pos w)
    (old_clip_cursor w) (old_raw_input_devices w) (wnd_proc_input_msg_queue w)
    (on_input_queue_entry_callbacks w) v (trace_log w) (delivered w).

Definition set_trace_log (v : list TraceEntry) (w : World) : World :=
  Build_World (os_cursor w) (os_cursor_pos w) (os_show_count w)
    (os_clip_cursor w) (os_raw_input_devices w) (os_attached w)
    (os_open_handles w) (os_next_handle w) (memory w) (gui_visible w)
    (show_cursor_count w) (old_cursor w) (old_cursor_pos w)
    (old_clip_cursor w) (old_raw_input_devices w) (wnd_proc_input_msg_queue w)
    (on_input_queue_entry_callbacks w) (last_attached w) v (delivered w).

Definition set_delivered (v : list Delivery) (w : World) : World :=
  Build_World (os_cursor w) (os_cursor_pos w) (os_show_count w)
    (os_clip_cursor w) (os_raw_input_devices w) (os_attached w)
    (os_open_handles w) (os_next_handle w) (memory w) (gui_visible w)
    (show_cursor_count w) (old_cursor w) (old_cursor_pos w)
    (old_clip_cursor w) (old_raw_input_devices w) (wnd_proc_input_msg_queue w)
    (on_input_queue_entry_callbacks w) (last_attached w) (trace_log w) v.


(** What one call into the code finds outside itself and cannot change:
    the calling thread, the window module's current window, and which Win32
    calls succeed. *)
Record Env : Type := mkEnv {
  CurrentThreadId : DWORD;
  LastError : DWORD;
  ArrowCursor : HCURSOR;
  CurrentWindow : HWND;
  IsWindow : HWND -> bool;
  WindowRect : HWND -> option RECT.t;
  AsyncKeyState : Z -> SHORT;
  GetCursorPos_ok : bool;
  SetCursorPos_ok : bool;
  GetClipCursor_ok : bool;
  ClipCursor_ok : bool;
  GetRegisteredRawInputDevices_ok : bool;
  RegisterRawInputDevices_ok : RAWINPUTDEVICE -> bool;
  AttachThreadInput_ok : DWORD -> DWORD -> bool -> bool;
  OpenThread_ok : DWORD -> bool
}.

(** ** The monad *)

Inductive Outcome (A : Type) : Type :=
| Ret (a : A)
| Throw (e : Error)
| OutOfFuel.

Arguments Ret {A} a.
Arguments Throw {A} e.
Arguments OutOfFuel {A}.

Definition M (A : Type) : Type := World -> Outcome A * World.

Definition ret {A : Type} (a : A) : M A := fun w => (Ret a, w).

Definition bind {A B : Type} (m : M A) (k : A -> M B) : M B :=
  fun w =>
    match m w with
    | (Ret a, w') => k a w'
    | (Throw e, w') => (Throw e, w')
    | (OutOfFuel, w') => (OutOfFuel, w')
    end.

Definition throw {A : Type} (e : Error) : M A := fun w => (Throw e, w).
Definition out_of_fuel {A : Type} : M A := fun w => (OutOfFuel, w).
Definition gets {A : Type} (f : World -> A) : M A := fun w => (Ret (f w), w).
Definition modify (f : World -> World) : M unit := fun w => (Ret tt, f w).

Declare Scope M_scope.
Delimit Scope M_scope with M.
Bind Scope M_scope with M.

Notation "x <- m ;; k" := (bind m (fun x => k))
  (at level 100, m at next level, k at level 200, right associativity)
  : M_scope.
Notation "m ;; k" := (bind m (fun _ => k))
  (at level 100, k at level 200, right associativity) : M_scope.

Local Open Scope M_scope.

Definition when (b : bool) (m : M unit) : M unit := if b then m else ret tt.

Definition HADESMEM_DETAIL_TRACE (fmt : string) (args : list Z) : M unit :=
  modify (fun w => set_trace_log (trace_log w ++ [mkTrace fmt args]) w).

Definition HADESMEM_DETAIL_THROW_EXCEPTION {A : Type} (what : string)
    (last_error : DWORD) : M A :=
  throw (mkError what last_error).

(** ** The Win32 calls

    Each call acts on the [os_] fields the way the platform documents it;
    whether a fallible call succeeds is the environment's say.  The wrapped
    calls reach the system directly: the code makes them under a
    [HookDisabler], so its own hooks pass them through. *)

Module Win32.

Definition GetLastError (env : Env) : M DWORD := ret (LastError env).

Definition GetCurrentThreadId (env : Env) : M DWORD :=
  ret (CurrentThreadId env).

(** [LoadCursorW(nullptr, IDC_ARROW)] *)
Definition LoadCursorW_IDC_ARROW (env : Env) : M HCURSOR :=
  ret (ArrowCursor env).

(** returns the previous cursor *)
Definition SetCursor (cursor : HCURSOR) : M HCURSOR :=
  fun w => (Ret (os_cursor w), set_os_cursor cursor w).

Definition GetCursorPos (env : Env) : M (option POINT.t) :=
  fun w => (Ret (if GetCursorPos_ok env then Some (os_cursor_pos w) else None),
            w).

Definition SetCursorPos (env : Env) (x y : Z) : M bool :=
  fun w => if SetCursorPos_ok env
           then (Ret true, set_os_cursor_pos (POINT.mk x y) w)
           else (Ret false, w).

(** the display counter goes up or down by one; the new value is returned *)
Definition ShowCursor (show : bool) : M Z :=
  fun w => let c := if show then os_show_count w + 1 else os_show_count w - 1 in
           (Ret c, set_os_show_count c w).

Definition GetClipCursor (env : Env) : M (option RECT.t) :=
  fun w => (Ret (if GetClipCursor_ok env then Some (os_clip_cursor w)
                 else None), w).

Definition ClipCursor (env : Env) (rect : RECT.t) : M bool :=
  fun w => if ClipCursor_ok env
           then (Ret true, set_os_clip_cursor rect w)
           else (Ret false, w).

Definition GetWindowRect (env : Env) (wnd : HWND) : M (option RECT.t) :=
  ret (WindowRect env wnd).

Definition GetAsyncKeyState (env : Env) (vkey : Z) : M SHORT :=
  ret (AsyncKeyState env vkey).

(** [GetRegisteredRawInputDevices(nullptr, &num_devices, size)]: the number
    of registered devices is stored in [num_devices]. *)
Definition GetRegisteredRawInputDevices_count : M UINT :=
  gets (fun w => Z.of_nat (length (os_raw_input_devices w))).

(** [GetRegisteredRawInputDevices(buffer, &num_devices, size)]: the
    registered devices are written over the front of [buffer] and their
    number is returned, or (UINT)-1 on failure. *)
Definition GetRegisteredRawInputDevices (env : Env)
    (buffer : list RAWINPUTDEVICE) : M (UINT * list RAWINPUTDEVICE) :=
  fun w =>
    if GetRegisteredRawInputDevices_ok env then
      let devs := os_raw_input_devices w in
      (Ret (Z.of_nat (length devs), devs ++ drop (length devs) buffer), w)
    else (Ret (to_UINT (-1), buffer), w).

Definition same_usage (a b : RAWINPUTDEVICE) : bool :=
  (usUsagePage a =? usUsagePage b) && (usUsage a =? usUsage b).

(** A registration replaces the one of the same usage page and usage;
    RIDEV_REMOVE drops it. *)
Definition register (device : RAWINPUTDEVICE)
    (registered : list RAWINPUTDEVICE) : list RAWINPUTDEVICE :=
  let others :=
    List.filter (fun d => negb (same_usage d device)) registered in
  if Z.land (dwFlags device) RIDEV_REMOVE =? RIDEV_REMOVE
  then others else others ++ [device].

(** [RegisterRawInputDevices(&device, 1, size)] *)
Definition RegisterRawInputDevices (env : Env) (device : RAWINPUTDEVICE)
    : M bool :=
  fun w =>
    if RegisterRawInputDevices_ok env device then
      (Ret true,
       set_os_raw_input_devices (register device (os_raw_input_devices w)) w)
    else (Ret false, w).

Definition AttachThreadInput (env : Env) (id_attach id_attach_to : DWORD)
    (attach : bool) : M bool :=
  fun w =>
    if AttachThreadInput_ok env id_attach id_attach_to attach then
      (Ret true,
       set_os_attached
         (if attach then os_attached w ∪ {[ (id_attach, id_attach_to) ]}
          else os_attached w ∖ {[ (id_attach, id_attach_to) ]}) w)
    else (Ret false, w).

(** a fresh handle, or nullptr on failure *)
Definition OpenThread (env : Env) (tid : DWORD) : M HANDLE :=
  fun w =>
    if OpenThread_ok env tid then
      let h := Z.max 1 (os_next_handle w) in
      (Ret h, set_os_next_handle (h + 1)
                (set_os_open_handles (os_open_handles w ∪ {[ h ]}) w))
    else (Ret nullptr, w).

Definition CloseHandle (h : HANDLE) : M unit :=
  modify (fun w => set_os_open_handles (os_open_handles w ∖ {[ h ]}) w).

(** [ZeroMemory(data, size)]: the [size] bytes from [data] on become 0 *)
Definition ZeroMemory (data : LPVOID) (size : UINT) : M unit :=
  modify (fun w =>
    set_memory
      (fun a => if (data <=? a) && (a <? data + size) then 0 else memory w a)
      w).

End Win32.

(** ** input.cpp *)

Section Input.

Variable env : Env.
Variable hid : HidUsage.

(** Modelled from the spec: GetGuiVisible() is defined in render.cpp, which
    is not part of the sources at hand; it reads the process-wide visibility
    flag every hook consults. *)
Definition GetGuiVisible : M bool := gets gui_visible.

Definition RegisterOnInputQueueEntry (callback : OnInputQueueEntry) : M nat :=
  fun w =>
    let r := Callbacks.Register callback (on_input_queue_entry_callbacks w) in
    (Ret (fst r), set_on_input_queue_entry_callbacks (snd r) w).

Definition UnregisterOnInputQueueEntry (id : nat) : M unit :=
  modify (fun w =>
    set_on_input_queue_entry_callbacks
      (Callbacks.Unregister id (on_input_queue_entry_callbacks w)) w).

(** The constructor of [WndProcInputMsg]: it opens the originating thread
    and throws when that fails. *)
Definition WndProcInputMsg_ctor (hwnd : HWND) (msg : UINT) (wparam : WPARAM)
    (lparam : LPARAM) (tid : DWORD) : M WndProcInputMsg :=
  thread <- Win32.OpenThread env tid ;;
  if thread =? nullptr then
    last_error <- Win32.GetLastError env ;;
    HADESMEM_DETAIL_THROW_EXCEPTION "OpenThread failed." last_error
  else ret (mkWndProcInputMsg hwnd msg wparam lparam tid thread).

Definition SetOrRestoreCursor (visible : bool) : M unit :=
  (if visible then
     arrow_cursor <- Win32.LoadCursorW_IDC_ARROW env ;;
     if arrow_cursor =? nullptr then
       last_error <- Win32.GetLastError env ;;
       HADESMEM_DETAIL_THROW_EXCEPTION "LoadCursorW failed." last_error
     else
       HADESMEM_DETAIL_TRACE "Setting arrow cursor." [] ;;
       previous <- Win32.SetCursor arrow_cursor ;;
       modify (fun w => set_old_cursor (fst (old_cursor w), previous) w)
   else
     old_cursor_first <- gets (fun w => fst (old_cursor w)) ;;
     if old_cursor_first then
       HADESMEM_DETAIL_TRACE "Setting old cursor." [] ;;
       old_cursor_second <- gets (fun w => snd (old_cursor w)) ;;
       previous <- Win32.SetCursor old_cursor_second ;;
       modify (fun w => set_old_cursor (fst (old_cursor w), previous) w)
     else ret tt) ;;
  modify (fun w => set_old_cursor (true, snd (old_cursor w)) w).

Definition SaveCurrentCursorPos : M unit :=
  r <- Win32.GetCursorPos env ;;
  match r with
  | None =>
      last_error <- Win32.GetLastError env ;;
      HADESMEM_DETAIL_THROW_EXCEPTION "GetCursorPos failed." last_error
  | Some cur_cursor_pos =>
      modify (fun w => set_old_cursor_pos (true, snd (old_cursor_pos w)) w) ;;
      modify (fun w =>
        set_old_cursor_pos (fst (old_cursor_pos w), cur_cursor_pos) w)
  end.

Definition ClearOldCursorPos : M unit :=
  modify (fun w => set_old_cursor_pos (false, snd (old_cursor_pos w)) w) ;;
  modify (fun w => set_old_cursor_pos (fst (old_cursor_pos w), POINT.zero) w).

Definition RestoreOldCursorPos : M unit :=
  old_cursor_pos_first <- gets (fun w => fst (old_cursor_pos w)) ;;
  if negb old_cursor_pos_first then ret tt
  else
    pos <- gets (fun w => snd (old_cursor_pos w)) ;;
    ok <- Win32.SetCursorPos env (POINT.x pos) (POINT.y pos) ;;
    if negb ok then
      last_error <- Win32.GetLastError env ;;
      HADESMEM_DETAIL_THROW_EXCEPTION "SetCursorPos failed." last_error
    else ClearOldCursorPos.

(** [do { ++show_cursor_count; } while (::ShowCursor(TRUE) < 0);] with
    [fuel] further rounds allowed after the first. *)
Fixpoint ShowCursor_loop (fuel : nat) : M unit :=
  HADESMEM_DETAIL_TRACE "Showing cursor." [] ;;
  modify (fun w =>
    set_show_cursor_count (wrap_int (show_cursor_count w + 1)) w) ;;
  r <- Win32.ShowCursor true ;;
  if r <? 0 then
    match fuel with
    | O => out_of_fuel
    | S fuel' => ShowCursor_loop fuel'
    end
  else ret tt.

Definition ShowCursor : M unit :=
  c <- gets os_show_count ;;
  ShowCursor_loop (Z.to_nat (- c)).

(** [while (show_cursor_count > 0) { --show_cursor_count;
    ::ShowCursor(FALSE); }] with [fuel] rounds allowed. *)
Fixpoint HideCursor_loop (fuel : nat) : M unit :=
  c <- gets show_cursor_count ;;
  if c >? 0 then
    match fuel with
    | O => out_of_fuel
    | S fuel' =>
        HADESMEM_DETAIL_TRACE "Hiding cursor." [] ;;
        modify (fun w =>
          set_show_cursor_count (wrap_int (show_cursor_count w - 1)) w) ;;
        _ <- Win32.ShowCursor false ;;
        HideCursor_loop fuel'
    end
  else ret tt.

Definition HideCursor : M unit :=
  c <- gets show_cursor_count ;;
  HideCursor_loop (Z.to_nat c).

Definition trace_rect (fmt : string) (r : RECT.t) : M unit :=
  HADESMEM_DETAIL_TRACE fmt
    [RECT.left r; RECT.top r; RECT.right r; RECT.bottom r].

Definition SaveCurrentClipCursor : M unit :=
  r <- Win32.GetClipCursor env ;;
  match r with
  | None =>
      last_error <- Win32.GetLastError env ;;
      HADESMEM_DETAIL_THROW_EXCEPTION "GetClipCursor failed." last_error
  | Some clip_cursor =>
      trace_rect
        "Saving current clip cursor: Left [%ld] Top [%ld] Right [%ld] Bottom [%ld]"
        clip_cursor ;;
      modify (set_old_clip_cursor clip_cursor)
  end.

Definition ClipCursorWrap (clip_cursor : RECT.t) : M unit :=
  ok <- Win32.ClipCursor env clip_cursor ;;
  if negb ok then
    last_error <- Win32.GetLastError env ;;
    HADESMEM_DETAIL_THROW_EXCEPTION "ClipCursor failed." last_error
  else ret tt.

Definition SetNewClipCursor : M unit :=
  let wnd := CurrentWindow env in
  if negb (IsWindow env wnd) then
    HADESMEM_DETAIL_TRACE "WARNING! Invalid window." []
  else
    r <- Win32.GetWindowRect env wnd ;;
    match r with
    | None =>
        last_error <- Win32.GetLastError env ;;
        HADESMEM_DETAIL_THROW_EXCEPTION "GetWindowRect failed." last_error
    | Some new_clip_cursor =>
        old_clip_cursor <- gets old_clip_cursor ;;
        let new_clip_cursor :=
          RECT.mk
            (Z.min (RECT.left old_clip_cursor) (RECT.left new_clip_cursor))
            (Z.min (RECT.top old_clip_cursor) (RECT.top new_clip_cursor))
            (Z.max (RECT.right old_clip_cursor) (RECT.right new_clip_cursor))
            (Z.max (RECT.bottom old_clip_cursor)
                   (RECT.bottom new_clip_cursor)) in
        trace_rect
          "Setting new clip cursor: Left [%ld] Top [%ld] Right [%ld] Bottom [%ld]"
          new_clip_cursor ;;
        ClipCursorWrap new_clip_cursor
    end.

Definition RestoreOldClipCursor : M unit :=
  clip_cursor <- gets old_clip_cursor ;;
  trace_rect
    "Restoring old clip cursor: Left [%ld] Top [%ld] Right [%ld] Bottom [%ld]"
    clip_cursor ;;
  ClipCursorWrap clip_cursor.

(** *** The hooks

    A hook receives its out-parameters as arguments ([handled], [retval],
    and the pointee of a pointer as an [option], [None] for nullptr) and
    returns them as it leaves them. *)

Definition OnSetCursor (cursor : HCURSOR) (handled : bool) (retval : HCURSOR)
    : M (bool * HCURSOR) :=
  old_cursor_raw <- gets (fun w => snd (old_cursor w)) ;;
  modify (fun w => set_old_cursor (true, snd (old_cursor w)) w) ;;
  modify (fun w => set_old_cursor (fst (old_cursor w), cursor) w) ;;
  visible <- GetGuiVisible ;;
  if visible then ret (true, old_cursor_raw) else ret (handled, retval).

Definition OnDirectInput (handled : bool) : M bool :=
  visible <- GetGuiVisible ;;
  if visible then ret true else ret handled.

Definition OnGetCursorPos (point : option POINT.t) (handled : bool)
    : M (option POINT.t * bool) :=
  visible <- GetGuiVisible ;;
  match point with
  | Some _ =>
      if visible then
        old <- gets (fun w => snd (old_cursor_pos w)) ;;
        ret (Some (POINT.mk (POINT.x old) (POINT.y old)), true)
      else ret (point, handled)
  | None => ret (point, handled)
  end.

Definition OnSetCursorPos (x y : Z) (handled : bool) : M bool :=
  visible <- GetGuiVisible ;;
  if visible then
    modify (fun w => set_old_cursor_pos (true, snd (old_cursor_pos w)) w) ;;
    modify (fun w =>
      set_old_cursor_pos
        (fst (old_cursor_pos w), POINT.mk x (POINT.y (snd (old_cursor_pos w))))
        w) ;;
    modify (fun w =>
      set_old_cursor_pos
        (fst (old_cursor_pos w), POINT.mk (POINT.x (snd (old_cursor_pos w))) y)
        w) ;;
    ret true
  else ret handled.

Definition OnShowCursor (show : BOOL) (handled : bool) (retval : Z)
    : M (bool * Z) :=
  visible <- GetGuiVisible ;;
  if visible then
    (if negb (show =? 0) then
       modify (fun w =>
         set_show_cursor_count (wrap_int (show_cursor_count w + 1)) w)
     else
       modify (fun w =>
         set_show_cursor_count (wrap_int (show_cursor_count w - 1)) w)) ;;
    c <- gets show_cursor_count ;;
    ret (true, c)
  else ret (handled, retval).

Definition OnClipCursor (rect : option RECT.t) (handled : bool)
    (retval : BOOL) : M (bool * BOOL) :=
  visible <- GetGuiVisible ;;
  match rect with
  | Some r =>
      if visible then
        modify (set_old_clip_cursor r) ;;
        ret (true, TRUE)
      else ret (handled, retval)
  | None => ret (handled, retval)
  end.

Definition OnGetClipCursor (rect : option RECT.t) (handled : bool)
    (retval : BOOL) : M (option RECT.t * bool * BOOL) :=
  visible <- GetGuiVisible ;;
  match rect with
  | Some _ =>
      if visible then
        clip_cursor <- gets old_clip_cursor ;;
        ret (Some clip_cursor, true, TRUE)
      else ret (rect, handled, retval)
  | None => ret (rect, handled, retval)
  end.

(** [data] and [size] are not looked at (their names are commented out in
    the source). *)
Definition OnGetRawInputBuffer (data : LPVOID) (size : option UINT)
    (size_header : UINT) (handled : bool) (retval : UINT) : M (bool * UINT) :=
  visible <- GetGuiVisible ;;
  if visible then
    HADESMEM_DETAIL_TRACE "Fix me." [] ;;
    ret (true, to_UINT (-1))
  else ret (handled, retval).

(** [data] is an address into [memory]; [size] is the pointee of the PUINT,
    [None] for nullptr. *)
Definition OnGetRawInputData (raw_input : HRAWINPUT) (command : UINT)
    (data : LPVOID) (size : option UINT) (size_header : UINT)
    (handled : bool) (retval : UINT) : M (bool * UINT) :=
  visible <- GetGuiVisible ;;
  match size with
  | Some size_value =>
      if visible && negb (data =? nullptr) then
        Win32.ZeroMemory data size_value ;;
        ret (true, to_UINT (-1))
      else ret (handled, retval)
  | None => ret (handled, retval)
  end.

(** The body of the logging loop of OnRegisterRawInputDevices, for the
    indices [i], [i + 1], ... still to visit; reading past the end of the
    caller's array is not modelled ([nth] gives a zero device). *)
Fixpoint OnRegisterRawInputDevices_loop (r : list RAWINPUTDEVICE)
    (indices : list nat) : M unit :=
  match indices with
  | [] => ret tt
  | i :: rest =>
      let d := nth i r RAWINPUTDEVICE_zero in
      HADESMEM_DETAIL_TRACE
        "Device: [%u]. UsagePage: [%u]. Usage: [%u]. Flags: [%08X]. Target: [%p]."
        [Z.of_nat i; usUsagePage d; usUsage d; dwFlags d; hwndTarget d] ;;
      when (Z.land (dwFlags d) RIDEV_NOLEGACY =? RIDEV_NOLEGACY)
        (HADESMEM_DETAIL_TRACE
           "Raw input device %u registered with RIDEV_NOLEGACY."
           [Z.of_nat i]) ;;
      when (Z.land (dwFlags d) RIDEV_REMOVE =? RIDEV_REMOVE)
        (HADESMEM_DETAIL_TRACE "Raw input device %u removed." [Z.of_nat i]) ;;
      OnRegisterRawInputDevices_loop r rest
  end.

Definition OnRegisterRawInputDevices
    (raw_input_devices : option (list RAWINPUTDEVICE)) (num_devices : UINT)
    (size : UINT) (handled : bool) (retval : BOOL) : M (bool * BOOL) :=
  match raw_input_devices with
  | None => ret (handled, retval)
  | Some r =>
      OnRegisterRawInputDevices_loop r (seq 0 (Z.to_nat num_devices)) ;;
      visible <- GetGuiVisible ;;
      if visible then ret (true, FALSE) else ret (handled, retval)
  end.

(** *** Cross-thread input attachment *)

(** The calling thread's copy of [last_attached_tid] and
    [last_attached_thread]. *)
Definition thread_statics (w : World) : DWORD * HANDLE :=
  default (0, nullptr) (last_attached w !! CurrentThreadId env).

Definition set_last_attached_tid (v : DWORD) : M unit :=
  modify (fun w =>
    set_last_attached
      (<[CurrentThreadId env := (v, snd (thread_statics w))]>
         (last_attached w)) w).

Definition set_last_attached_thread (v : HANDLE) : M unit :=
  modify (fun w =>
    set_last_attached
      (<[CurrentThreadId env := (fst (thread_statics w), v)]>
         (last_attached w)) w).

Definition LazyAttachThreadInput (tid : DWORD) : M unit :=
  current_tid <- Win32.GetCurrentThreadId env ;;
  last_attached_tid <- gets (fun w => fst (thread_statics w)) ;;
  if negb (current_tid =? tid) && negb (last_attached_tid =? tid) then
    (if negb (last_attached_tid =? 0) then
       ok <- Win32.AttachThreadInput env current_tid last_attached_tid false ;;
       if negb ok then
         last_error <- Win32.GetLastError env ;;
         HADESMEM_DETAIL_THROW_EXCEPTION "AttachThreadInput failed." last_error
       else
         set_last_attached_tid 0 ;;
         last_attached_thread <- gets (fun w => snd (thread_statics w)) ;;
         if negb (last_attached_thread =? nullptr) then
           Win32.CloseHandle last_attached_thread ;;
           set_last_attached_thread nullptr
         else ret tt
     else ret tt) ;;
    HADESMEM_DETAIL_TRACE "Attaching thread input. TID: [%u]." [tid] ;;
    ok <- Win32.AttachThreadInput env current_tid tid true ;;
    if negb ok then
      last_error <- Win32.GetLastError env ;;
      HADESMEM_DETAIL_THROW_EXCEPTION "AttachThreadInput failed." last_error
    else
      set_last_attached_tid tid ;;
      thread <- Win32.OpenThread env tid ;;
      if thread =? nullptr then
        last_error <- Win32.GetLastError env ;;
        HADESMEM_DETAIL_THROW_EXCEPTION "OpenThread failed." last_error
      else set_last_attached_thread thread
  else ret tt.

(** *** Raw input *)

Definition RegisterRawInputDevicesWrapper (device : RAWINPUTDEVICE)
    : M unit :=
  ok <- Win32.RegisterRawInputDevices env device ;;
  if negb ok then
    last_error <- Win32.GetLastError env ;;
    HADESMEM_DETAIL_THROW_EXCEPTION "RegisterRawInputDevices failed."
      last_error
  else ret tt.

Definition LogRawInputDevice (device : RAWINPUTDEVICE) : M unit :=
  HADESMEM_DETAIL_TRACE
    "UsagePage: [%u]. Usage: [%u]. Flags: [%08X]. Target: [%p]."
    [usUsagePage device; usUsage device; dwFlags device; hwndTarget device].

Definition is_mouse_device (device : RAWINPUTDEVICE) : bool :=
  (usUsagePage device =? HADESMEM_DETAIL_HID_USAGE_PAGE_GENERIC hid) &&
  (usUsage device =? HADESMEM_DETAIL_HID_USAGE_GENERIC_MOUSE hid).

Definition is_keyboard_device (device : RAWINPUTDEVICE) : bool :=
  (usUsagePage device =? HADESMEM_DETAIL_HID_USAGE_PAGE_GENERIC hid) &&
  (usUsage device =? HADESMEM_DETAIL_HID_USAGE_GENERIC_KEYBOARD hid).

(** [iter != std::end(devices)] *)
Definition found {A : Type} (iter : option A) : bool :=
  match iter with
  | Some _ => true
  | None => false
  end.

(** returns [(has_mouse_device, has_keyboard_device)] *)
Definition DoesRawInputDeviceHaveMouseOrKeyboardDevice
    (devices : list RAWINPUTDEVICE) : bool * bool :=
  let mouse_iter := List.find is_mouse_device devices in
  let keyboard_iter := List.find is_keyboard_device devices in
  (found mouse_iter, found keyboard_iter).

Definition SetRawInputDevices : M unit :=
  HADESMEM_DETAIL_TRACE "Setting new raw input devices." [] ;;
  num_devices <- Win32.GetRegisteredRawInputDevices_count ;;
  if num_devices =? 0 then
    HADESMEM_DETAIL_TRACE "No registered raw input devices." []
  else
    let old_devices :=
      replicate (Z.to_nat num_devices) RAWINPUTDEVICE_zero in
    r <- Win32.GetRegisteredRawInputDevices env old_devices ;;
    let num_devices_written := fst r in
    let old_devices := snd r in
    if num_devices_written =? to_UINT (-1) then
      last_error <- Win32.GetLastError env ;;
      HADESMEM_DETAIL_THROW_EXCEPTION "GetRegisteredRawInputDevices failed."
        last_error
    else
      let old_devices :=
        resize (Z.to_nat num_devices_written) RAWINPUTDEVICE_zero
               old_devices in
      modify (set_old_raw_input_devices old_devices) ;;
      let has := DoesRawInputDeviceHaveMouseOrKeyboardDevice old_devices in
      let has_mouse_device := fst has in
      let has_keyboard_device := snd has in
      if negb has_mouse_device && negb has_keyboard_device then
        HADESMEM_DETAIL_TRACE
          "No registered mouse or keyboard raw input devices." []
      else
        when has_mouse_device
          (HADESMEM_DETAIL_TRACE "Setting new mouse device." [] ;;
           RegisterRawInputDevicesWrapper
             (mkRAWINPUTDEVICE
                (HADESMEM_DETAIL_HID_USAGE_PAGE_GENERIC hid)
                (HADESMEM_DETAIL_HID_USAGE_GENERIC_MOUSE hid)
                0 (CurrentWindow env))) ;;
        when has_keyboard_device
          (HADESMEM_DETAIL_TRACE "Setting new keyboard device." [] ;;
           RegisterRawInputDevicesWrapper
             (mkRAWINPUTDEVICE
                (HADESMEM_DETAIL_HID_USAGE_PAGE_GENERIC hid)
                (HADESMEM_DETAIL_HID_USAGE_GENERIC_KEYBOARD hid)
                0 (CurrentWindow env))).

(** The range-for of RestoreRawInputDevices over the devices still to
    visit. *)
Fixpoint RestoreRawInputDevices_loop (devices : list RAWINPUTDEVICE)
    : M unit :=
  match devices with
  | [] => ret tt
  | device :: rest =>
      LogRawInputDevice device ;;
      (if is_mouse_device device then
         HADESMEM_DETAIL_TRACE "Restoring old mouse device." [] ;;
         RegisterRawInputDevicesWrapper device
       else if is_keyboard_device device then
         HADESMEM_DETAIL_TRACE "Restoring old keyboard device." [] ;;
         RegisterRawInputDevicesWrapper device
       else HADESMEM_DETAIL_TRACE "Skipping unknown device." []) ;;
      RestoreRawInputDevices_loop rest
  end.

Definition RestoreRawInputDevices : M unit :=
  HADESMEM_DETAIL_TRACE "Restoring old raw input devices." [] ;;
  old_devices <- gets old_raw_input_devices ;;
  RestoreRawInputDevices_loop old_devices.

(** *** The visibility transition *)

Definition SetGuiVisibleForInput (visible old_visible : bool) : M unit :=
  if negb (eqb visible old_visible) then
    SetOrRestoreCursor visible ;;
    if visible then
      SaveCurrentCursorPos ;;
      ShowCursor ;;
      SaveCurrentClipCursor ;;
      SetNewClipCursor ;;
      SetRawInputDevices
    else
      RestoreOldCursorPos ;;
      HideCursor ;;
      RestoreOldClipCursor ;;
      RestoreRawInputDevices
  else
    ClearOldCursorPos ;;
    when visible SetNewClipCursor.

(** Modelled from the spec: SetGuiVisible() is defined in render.cpp, which
    is not part of the sources at hand.  It is the specification's
    SetOverlayVisible(visible, previousVisible), the single mode-transition
    entry point: it records the new value of the visibility flag and runs
    the input transition. *)
Definition SetGuiVisible (visible old_visible : bool) : M unit :=
  modify (set_gui_visible visible) ;;
  SetGuiVisibleForInput visible old_visible.

Definition ToggleGuiVisible : M unit :=
  gui_visible <- GetGuiVisible ;;
  let visible := negb gui_visible in
  HADESMEM_DETAIL_TRACE (if visible then "Showing GUI." else "Hiding GUI.")
    [] ;;
  SetGuiVisible visible (negb visible).

(** *** The deferred queue *)

Definition queue_push (entry : WndProcInputMsg) : M unit :=
  modify (fun w =>
    set_wnd_proc_input_msg_queue (wnd_proc_input_msg_queue w ++ [entry]) w).

(** [queue.pop()]: the front entry is destroyed, and with it its thread
    handle is closed. *)
Definition queue_pop : M unit :=
  q <- gets wnd_proc_input_msg_queue ;;
  match q with
  | [] => ret tt
  | front :: rest =>
      modify (set_wnd_proc_input_msg_queue rest) ;;
      Win32.CloseHandle (thread_ front)
  end.

Definition is_blocked_msg (msg : UINT) : bool :=
  (msg =? WM_INPUT) ||
  ((msg >=? WM_KEYFIRST) && (msg <=? WM_KEYLAST)) ||
  ((msg >=? WM_MOUSEFIRST) && (msg <=? WM_MOUSELAST)).

(** [msg == WM_KEYDOWN && !((lparam >> 30) & 1) && wparam == VK_F9 &&
    ::GetAsyncKeyState(VK_SHIFT) & 0x8000], with [shift] the key state *)
Definition is_toggle_hotkey (msg : UINT) (wparam : WPARAM) (lparam : LPARAM)
    (shift : SHORT) : bool :=
  (msg =? WM_KEYDOWN) &&
  (Z.land (Z.shiftr lparam 30) 1 =? 0) &&
  (wparam =? VK_F9) &&
  negb (Z.land shift 0x8000 =? 0).

Definition WindowProcCallback (hwnd : HWND) (msg : UINT) (wparam : WPARAM)
    (lparam : LPARAM) (handled : bool) : M bool :=
  current_tid <- Win32.GetCurrentThreadId env ;;
  entry <- WndProcInputMsg_ctor hwnd msg wparam lparam current_tid ;;
  queue_push entry ;;
  shift <- Win32.GetAsyncKeyState env VK_SHIFT ;;
  if is_toggle_hotkey msg wparam lparam shift then
    ToggleGuiVisible ;;
    ret true
  else
    visible <- GetGuiVisible ;;
    let blocked_msg := is_blocked_msg msg in
    if visible && blocked_msg then ret true else ret handled.

(** Modelled from the spec: [callbacks.Run(hwnd, msg, wparam, lparam)] of
    callbacks.hpp, which is not part of the sources at hand.  Every
    registered subscriber is called once, in registration order, with the
    tuple; the entries the subscribers push land at the back of the queue. *)
Definition Callbacks_Run (hwnd : HWND) (msg : UINT) (wparam : WPARAM)
    (lparam : LPARAM) : M unit :=
  modify (fun w =>
    let c := on_input_queue_entry_callbacks w in
    let pushed := Callbacks.Run_pushes c hwnd msg wparam lparam in
    set_delivered
      (delivered w ++ Callbacks.Run_deliveries c hwnd msg wparam lparam)
      (set_wnd_proc_input_msg_queue (wnd_proc_input_msg_queue w ++ pushed)
         (set_os_open_handles
            (os_open_handles w ∪ list_to_set (map thread_ pushed)) w))).

(** [while (!queue.empty()) { ... queue.pop(); }] with [fuel] rounds
    allowed. *)
Fixpoint HandleInputQueue_loop (fuel : nat) : M unit :=
  q <- gets wnd_proc_input_msg_queue ;;
  match q with
  | [] => ret tt
  | msg :: _ =>
      match fuel with
      | O => out_of_fuel
      | S fuel' =>
          LazyAttachThreadInput (tid_ msg) ;;
          Callbacks_Run (hwnd_ msg) (msg_ msg) (wparam_ msg) (lparam_ msg) ;;
          queue_pop ;;
          HandleInputQueue_loop fuel'
      end
  end.

Definition HandleInputQueue (fuel : nat) : M unit :=
  HandleInputQueue_loop fuel.

End Input.

(** ** What can happen to the state *)

(** The calls the overlay and the host make into this code, and the changes
    the rest of the system makes to the window station in between.  A hook
    is entered with [handled = false] and a zero return value. *)
Inductive Event : Type :=
| Call_SetGuiVisible (env : Env) (hid : HidUsage) (visible old_visible : bool)
| Call_WindowProcCallback (env : Env) (hid : HidUsage) (hwnd : HWND)
    (msg : UINT) (wparam : WPARAM) (lparam : LPARAM)
| Call_HandleInputQueue (env : Env) (fuel : nat)
| Hook_SetCursor (cursor : HCURSOR)
| Hook_DirectInput
| Hook_GetCursorPos (point : option POINT.t)
| Hook_SetCursorPos (x y : Z)
| Hook_ShowCursor (show : BOOL)
| Hook_ClipCursor (rect : option RECT.t)
| Hook_GetClipCursor (rect : option RECT.t)
| Hook_GetRawInputBuffer (data : LPVOID) (size : option UINT)
| Hook_GetRawInputData (data : LPVOID) (size : option UINT)
| Hook_RegisterRawInputDevices (devices : option (list RAWINPUTDEVICE))
    (num_devices : UINT)
| Os_CursorMoved (p : POINT.t)
| Os_CursorChanged (cursor : HCURSOR)
| Os_ShowCountChanged (c : Z)
| Os_ClipChanged (r : RECT.t)
| Os_RawInputDevicesChanged (devices : list RAWINPUTDEVICE).

Definition step (e : Event) (w : World) : World :=
  match e with
  | Call_SetGuiVisible env hid visible old_visible =>
      snd (SetGuiVisible env hid visible old_visible w)
  | Call_WindowProcCallback env hid hwnd msg wparam lparam =>
      snd (WindowProcCallback env hid hwnd msg wparam lparam false w)
  | Call_HandleInputQueue env fuel => snd (HandleInputQueue env fuel w)
  | Hook_SetCursor cursor => snd (OnSetCursor cursor false 0 w)
  | Hook_DirectInput => snd (OnDirectInput false w)
  | Hook_GetCursorPos point => snd (OnGetCursorPos point false w)
  | Hook_SetCursorPos x y => snd (OnSetCursorPos x y false w)
  | Hook_ShowCursor show => snd (OnShowCursor show false 0 w)
  | Hook_ClipCursor rect => snd (OnClipCursor rect false 0 w)
  | Hook_GetClipCursor rect => snd (OnGetClipCursor rect false 0 w)
  | Hook_GetRawInputBuffer data size =>
      snd (OnGetRawInputBuffer data size 0 false 0 w)
  | Hook_GetRawInputData data size =>
      snd (OnGetRawInputData 0 0 data size 0 false 0 w)
  | Hook_RegisterRawInputDevices devices num_devices =>
      snd (OnRegisterRawInputDevices devices num_devices 0 false 0 w)
  | Os_CursorMoved p => set_os_cursor_pos p w
  | Os_CursorChanged cursor => set_os_cursor cursor w
  | Os_ShowCountChanged c => set_os_show_count c w
  | Os_ClipChanged r => set_os_clip_cursor r w
  | Os_RawInputDevicesChanged devices => set_os_raw_input_devices devices w
  end.

(** the events are run from left to right *)
Definition run (events : list Event) (w : World) : World :=
  fold_left (fun w e => step e w) events w.

(** ** When the system cooperates *)

(** Every Win32 call the visibility transition makes succeeds. *)
Record transition_succeeds (env : Env) : Prop := {
  ok_arrow : ArrowCursor env <> nullptr;
  ok_get_cursor_pos : GetCursorPos_ok env = true;
  ok_set_cursor_pos : SetCursorPos_ok env = true;
  ok_get_clip_cursor : GetClipCursor_ok env = true;
  ok_clip_cursor : ClipCursor_ok env = true;
  ok_window_rect :
    IsWindow env (CurrentWindow env) = true ->
    WindowRect env (CurrentWindow env) <> None;
  ok_get_registered : GetRegisteredRawInputDevices_ok env = true;
  ok_register : forall d, RegisterRawInputDevices_ok env d = true
}.

(** Attaching to and opening any thread succeeds. *)
Record attach_succeeds (env : Env) : Prop := {
  ok_attach : forall a b c, AttachThreadInput_ok env a b c = true;
  ok_open_thread : forall tid, OpenThread_ok env tid = true
}.

(** The count of registered raw-input devices is not the value
    [(UINT)-1], which GetRegisteredRawInputDevices uses for failure. *)
Definition device_count_fits (w : World) : Prop :=
  Z.of_nat (length (os_raw_input_devices w)) < 2 ^ 32 - 1.

(** ** Vocabulary of the properties *)

(** [m] leaves the observation [f] of the state alone, however it ends. *)
Definition preserves {A B : Type} (f : World -> B) (m : M A) : Prop :=
  forall w, f (snd (m w)) = f w.

(** What a setter does not reach, [f] does not see. *)
Definition blind_to {B V : Type} (f : World -> B)
    (set : V -> World -> World) : Prop :=
  forall v w, f (set v w) = f w.

(** The count is an [int] that is not negative. *)
Definition count_ok (w : World) : Prop :=
  0 <= show_cursor_count w <= INT_MAX.

(** Counting up by one more for every round the display counter needs does
    not leave [int]. *)
Definition count_has_room (w : World) : Prop :=
  show_cursor_count w + Z.max 1 (- os_show_count w) <= INT_MAX.

(** The rectangle SetNewClipCursor applies: the smallest one holding both
    the saved clip rectangle and the window. *)
Definition union_rect (a b : RECT.t) : RECT.t :=
  RECT.mk (Z.min (RECT.left a) (RECT.left b))
          (Z.min (RECT.top a) (RECT.top b))
          (Z.max (RECT.right a) (RECT.right b))
          (Z.max (RECT.bottom a) (RECT.bottom b)).

(** Events that neither switch the overlay nor write the saved cursor
    position: everything but a visibility call, the toggle hotkey and the
    set-cursor-position hook. *)
Definition leaves_saved_position (e : Event) : bool :=
  match e with
  | Call_SetGuiVisible _ _ _ _ => false
  | Call_WindowProcCallback env _ _ msg wparam lparam =>
      negb (is_toggle_hotkey msg wparam lparam (AsyncKeyState env VK_SHIFT))
  | Hook_SetCursorPos _ _ => false
  | _ => true
  end.

(** Events that neither switch the overlay nor write the saved clip
    rectangle: everything but a visibility call with [visible] different
    from [old_visible], the toggle hotkey and the clip-cursor hook. *)
Definition leaves_saved_clip (e : Event) : bool :=
  match e with
  | Call_SetGuiVisible _ _ visible old_visible => eqb visible old_visible
  | Call_WindowProcCallback env _ _ msg wparam lparam =>
      negb (is_toggle_hotkey msg wparam lparam (AsyncKeyState env VK_SHIFT))
  | Hook_ClipCursor _ => false
  | _ => true
  end.

(** The stored show count and the display counter together. *)
Definition counters (w : World) : Z * Z :=
  (show_cursor_count w, os_show_count w).

(** The show-cursor hook asked to hide while the overlay is visible. *)
Definition hides_while_visible (e : Event) (w : World) : bool :=
  match e with
  | Hook_ShowCursor show => (show =? FALSE) && gui_visible w
  | _ => false
  end.

(** Along [events] from [w], no hide request reaches the hook while the
    overlay is visible, and the count has room before every event. *)
Fixpoint never_hides_nor_overflows (events : list Event) (w : World)
    : Prop :=
  match events with
  | [] => True
  | e :: rest =>
      hides_while_visible e w = false /\
      count_has_room w /\
      never_hides_nor_overflows rest (step e w)
  end.

(** The devices RestoreRawInputDevices registers again. *)
Definition is_recognised_device (hid : HidUsage) (d : RAWINPUTDEVICE)
    : bool :=
  is_mouse_device hid d || is_keyboard_device hid d.

(** The registrations after each device of [devices] has been registered in
    turn. *)
Definition register_all (devices registered : list RAWINPUTDEVICE)
    : list RAWINPUTDEVICE :=
  fold_left (fun registered d => Win32.register d registered) devices
    registered.

(** What OnRegisterRawInputDevices traces for the device at index [i]. *)
Definition device_trace (r : list RAWINPUTDEVICE) (i : nat)
    : list TraceEntry :=
  let d := nth i r RAWINPUTDEVICE_zero in
  [mkTrace
     "Device: [%u]. UsagePage: [%u]. Usage: [%u]. Flags: [%08X]. Target: [%p]."
     [Z.of_nat i; usUsagePage d; usUsage d; dwFlags d; hwndTarget d]] ++
  (if Z.land (dwFlags d) RIDEV_NOLEGACY =? RIDEV_NOLEGACY
   then [mkTrace "Raw input device %u registered with RIDEV_NOLEGACY."
           [Z.of_nat i]]
   else []) ++
  (if Z.land (dwFlags d) RIDEV_REMOVE =? RIDEV_REMOVE
   then [mkTrace "Raw input device %u removed." [Z.of_nat i]]
   else []).

(** The invocations a broadcast of entry [e] makes, and the entries the
    subscribers push during it. *)
Definition deliveries_of (c : Callbacks.t) (e : WndProcInputMsg)
    : list Delivery :=
  Callbacks.Run_deliveries c (hwnd_ e) (msg_ e) (wparam_ e) (lparam_ e).

Definition pushes_of (c : Callbacks.t) (e : WndProcInputMsg)
    : list WndProcInputMsg :=
  Callbacks.Run_pushes c (hwnd_ e) (msg_ e) (wparam_ e) (lparam_ e).

(** [Drains c queue processed]: a drain that starts with [queue] comes to an
    end, having gone through the entries [processed] in this order. *)
Inductive Drains (c : Callbacks.t)
    : list WndProcInputMsg -> list WndProcInputMsg -> Prop :=
| Drains_empty : Drains c [] []
| Drains_front (e : WndProcInputMsg) (rest processed : list WndProcInputMsg) :
    Drains c (rest ++ pushes_of c e) processed ->
    Drains c (e :: rest) (e :: processed).

(** The queue, the record of invocations and the registry together. *)
Definition queue_state (w : World)
    : list WndProcInputMsg * list Delivery * Callbacks.t :=
  (wnd_proc_input_msg_queue w, delivered w, on_input_queue_entry_callbacks w).

(** ** A concrete system, for the examples *)

Module Sample.

(** HID usage page 1 (generic desktop), usages 2 (mouse) and 6 (keyboard) *)
Definition hid : HidUsage := mkHidUsage 0x01 0x02 0x06.

(** Thread 1 calls; window 100 is the current window, at (10,10)-(50,50);
    shift is held; every Win32 call succeeds. *)
Definition env : Env :=
  mkEnv 1 5 77 100 (fun h => h =? 100)
    (fun h => Some (RECT.mk 10 10 50 50))
    (fun k => if k =? VK_SHIFT then -32768 else 0)
    true true true true true (fun _ => true) (fun _ _ _ => true)
    (fun _ => true).

Definition mouse : RAWINPUTDEVICE := mkRAWINPUTDEVICE 1 2 0 9.
Definition keyboard : RAWINPUTDEVICE := mkRAWINPUTDEVICE 1 6 0 9.
Definition joystick : RAWINPUTDEVICE := mkRAWINPUTDEVICE 1 4 0 9.

(** The host owns input: cursor 3 at (4,5), shown, clipped to
    (20,0)-(40,60), a mouse and a joystick registered for raw input. *)
Definition host : World :=
  Build_World 3 (POINT.mk 4 5) 0 (RECT.mk 20 0 40 60) [mouse; joystick]
    ∅ ∅ 1 (fun _ => 0xCC)
    false 0 (false, 0) (false, POINT.zero) RECT.zero [] []
    Callbacks.empty ∅ [] [].

(** The same system once the overlay has been turned on. *)
Definition overlay : World :=
  Eval vm_compute in snd (SetGuiVisible env hid true false host).

(** The host with no raw-input device registered any more, while the
    snapshot of an earlier cycle is still stored. *)
Definition host_with_stale_snapshot : World :=
  set_old_raw_input_devices [mouse] (set_os_raw_input_devices [] host).

(** The host after thread 1 has drained an entry that came from thread 2:
    thread 1 is attached to thread 2 and holds a handle to it. *)
Definition attached : World :=
  Eval vm_compute in snd (LazyAttachThreadInput env 2 host).

(** Two subscribers: one answers every key-down with a key-up it has the
    window procedure see (so the entry is pushed while the drain runs), the
    other only listens. *)
Definition echo : OnInputQueueEntry :=
  fun hwnd msg wparam lparam =>
    if msg =? WM_KEYDOWN
    then [mkWndProcInputMsg hwnd 0x0101 wparam lparam 1 9]
    else [].

Definition silent : OnInputQueueEntry := fun _ _ _ _ => [].

Definition key_down : WndProcInputMsg :=
  mkWndProcInputMsg 100 WM_KEYDOWN 0x41 0 2 7.
Definition mouse_move : WndProcInputMsg :=
  mkWndProcInputMsg 100 WM_MOUSEFIRST 0 0 1 8.
Definition key_up : WndProcInputMsg :=
  mkWndProcInputMsg 100 0x0101 0x41 0 1 9.

(** The host with both subscribers registered and two entries queued. *)
Definition busy : World :=
  set_wnd_proc_input_msg_queue [key_down; mouse_move]
    (set_on_input_queue_entry_callbacks
       (Callbacks.mk [(0%nat, echo); (1%nat, silent)] 2) host).

End Sample.

(** ** Further vocabulary *)

(** Events that neither switch the overlay nor write the saved cursor
    handle: everything but a visibility call with [visible] different from
    [old_visible], the toggle hotkey and the set-cursor hook. *)
Definition leaves_saved_cursor (e : Event) : bool :=
  match e with
  | Call_SetGuiVisible _ _ visible old_visible => eqb visible old_visible
  | Call_WindowProcCallback env _ _ msg wparam lparam =>
      negb (is_toggle_hotkey msg wparam lparam (AsyncKeyState env VK_SHIFT))
  | Hook_SetCursor _ => false
  | _ => true
  end.


(** [inner] lies within [outer]. *)
Definition rect_within (inner outer : RECT.t) : Prop :=
  RECT.left outer <= RECT.left inner /\
  RECT.top outer <= RECT.top inner /\
  RECT.right inner <= RECT.right outer /\
  RECT.bottom inner <= RECT.bottom outer.

(** The show-cursor hook called once for every element of [shows], in
    order. *)
Definition show_cursor_calls (shows : list BOOL) : list Event :=
  map Hook_ShowCursor shows.

(** How many of the calls ask to show, less how many ask to hide. *)
Definition net_shows (shows : list BOOL) : Z :=
  fold_right (fun show n => (if show =? FALSE then -1 else 1) + n) 0 shows.

(** The devices the overlay registers in SetRawInputDevices. *)
Definition overlay_mouse (env : Env) (hid : HidUsage) : RAWINPUTDEVICE :=
  mkRAWINPUTDEVICE (HADESMEM_DETAIL_HID_USAGE_PAGE_GENERIC hid)
    (HADESMEM_DETAIL_HID_USAGE_GENERIC_MOUSE hid) 0 (CurrentWindow env).

Definition overlay_keyboard (env : Env) (hid : HidUsage) : RAWINPUTDEVICE :=
  mkRAWINPUTDEVICE (HADESMEM_DETAIL_HID_USAGE_PAGE_GENERIC hid)
    (HADESMEM_DETAIL_HID_USAGE_GENERIC_KEYBOARD hid) 0 (CurrentWindow env).

Module Failing.

(** [Sample.env] with some of the Win32 calls failing: no arrow cursor when
    [arrow] is false, and so on. *)
Definition env_with (arrow get_cursor_pos set_cursor_pos attach open_thread
    : bool) : Env :=
  mkEnv 1 5 (if arrow then 77 else 0) 100 (fun h => h =? 100)
    (fun h => Some (RECT.mk 10 10 50 50))
    (fun k => if k =? VK_SHIFT then -32768 else 0)
    get_cursor_pos set_cursor_pos true true true (fun _ => true)
    (fun _ _ _ => attach) (fun _ => open_thread).

(** [Sample.env] where RegisterRawInputDevices fails for the devices
    [rejected] picks. *)
Definition env_rejecting (rejected : RAWINPUTDEVICE -> bool) : Env :=
  mkEnv 1 5 77 100 (fun h => h =? 100)
    (fun h => Some (RECT.mk 10 10 50 50))
    (fun k => if k =? VK_SHIFT then -32768 else 0)
    true true true true true (fun d => negb (rejected d))
    (fun _ _ _ => true) (fun _ => true).

(** The overlay visible with a joystick, a mouse and a keyboard in the
    snapshot. *)
Definition three_saved : World :=
  set_old_raw_input_devices
    [Sample.joystick; Sample.mouse; Sample.keyboard] Sample.overlay.

End Failing.

(** Events that neither call SetGuiVisible nor write the saved clip
    rectangle: everything but a visibility call, the toggle hotkey and the
    clip-cursor hook. *)
Definition leaves_visibility_and_clip (e : Event) : bool :=
  match e with
  | Call_SetGuiVisible _ _ _ _ => false
  | Call_WindowProcCallback env _ _ msg wparam lparam =>
      negb (is_toggle_hotkey msg wparam lparam (AsyncKeyState env VK_SHIFT))
  | Hook_ClipCursor _ => false
  | _ => true
  end.

(** The registrations SetRawInputDevices leaves behind: the overlay's mouse
    in place of a registered mouse, the overlay's keyboard in place of a
    registered keyboard. *)
Definition redirected (env : Env) (hid : HidUsage)
    (registered : list RAWINPUTDEVICE) : list RAWINPUTDEVICE :=
  let has := DoesRawInputDeviceHaveMouseOrKeyboardDevice hid registered in
  let with_mouse :=
    if fst has then Win32.register (overlay_mouse env hid) registered
    else registered in
  if snd has then Win32.register (overlay_keyboard env hid) with_mouse
  else with_mouse.

(** No two registrations are for the same usage page and usage, and none
    carries RIDEV_REMOVE: what GetRegisteredRawInputDevices can report. *)
Definition well_registered (registered : list RAWINPUTDEVICE) : Prop :=
  (forall a b, In a registered -> In b registered ->
               Win32.same_usage a b = true -> a = b) /\
  (forall d, In d registered ->
             Z.land (dwFlags d) RIDEV_REMOVE <> RIDEV_REMOVE).

(** ** Reasoning about [M] *)

Lemma bind_Ret_inv {A B : Type} (m : M A) (k : A -> M B) w b w' :
  bind m k w = (Ret b, w') ->
  exists a w1, m w = (Ret a, w1) /\ k a w1 = (Ret b, w').
Proof.
  unfold bind. destruct (m w) as [[a | e |] w1]; intros H; try discriminate.
  exists a, w1. split; [reflexivity | exact H].
Qed.

Lemma bind_Ret {A B : Type} (m : M A) (k : A -> M B) w a w1 :
  m w = (Ret a, w1) -> bind m k w = k a w1.
Proof. intros H. unfold bind. rewrite H. reflexivity. Qed.

Section Preserves.

Context {B : Type} (f : World -> B).

Lemma preserves_ret {A : Type} (a : A) : preserves f (ret a).
Proof. intros w. reflexivity. Qed.

Lemma preserves_throw {A : Type} (e : Error) : preserves f (@throw A e).
Proof. intros w. reflexivity. Qed.

Lemma preserves_out_of_fuel {A : Type} : preserves f (@out_of_fuel A).
Proof. intros w. reflexivity. Qed.

Lemma preserves_gets {A : Type} (g : World -> A) : preserves f (gets g).
Proof. intros w. reflexivity. Qed.

Lemma preserves_modify (g : World -> World) :
  (forall w, f (g w) = f w) -> preserves f (modify g).
Proof. intros H w. apply H. Qed.

Lemma preserves_bind {A C : Type} (m : M A) (k : A -> M C) :
  preserves f m -> (forall a, preserves f (k a)) -> preserves f (bind m k).
Proof.
  intros Hm Hk w. unfold bind.
  specialize (Hm w). destruct (m w) as [[a | e |] w1]; simpl in *;
    try exact Hm.
  rewrite Hk. exact Hm.
Qed.

End Preserves.

Create HintDb frame discriminated.

(** A leaf: a Win32 call or a setter, decided by computation. *)
Ltac frame_leaf :=
  let w := fresh "w" in
  intro w;
  cbv [Win32.GetLastError Win32.GetCurrentThreadId Win32.LoadCursorW_IDC_ARROW
       Win32.SetCursor Win32.GetCursorPos Win32.SetCursorPos Win32.ShowCursor
       Win32.GetClipCursor Win32.ClipCursor Win32.GetWindowRect
       Win32.GetAsyncKeyState Win32.GetRegisteredRawInputDevices_count
       Win32.GetRegisteredRawInputDevices Win32.RegisterRawInputDevices
       Win32.AttachThreadInput Win32.OpenThread Win32.CloseHandle
       Win32.ZeroMemory HADESMEM_DETAIL_TRACE HADESMEM_DETAIL_THROW_EXCEPTION
       modify gets ret throw out_of_fuel];
  repeat case_match; simpl;
  first
    [ reflexivity
    | solve [auto]
    | solve [repeat match goal with
                    | H : forall v w, _ = _ |- _ => rewrite H
                    end; reflexivity] ].

Ltac head_of t :=
  lazymatch t with
  | ?g _ => head_of g
  | _ => t
  end.

(** Walks the structure of a computation down to its leaves. *)
Ltac frame :=
  cbv zeta;
  lazymatch goal with
  | |- preserves _ (bind _ _) =>
      apply preserves_bind; [frame | intro; frame]
  | |- preserves _ (ret _) => apply preserves_ret
  | |- preserves _ (throw _) => apply preserves_throw
  | |- preserves _ out_of_fuel => apply preserves_out_of_fuel
  | |- preserves _ (gets _) => apply preserves_gets
  | |- preserves _ (if ?c then _ else _) => destruct c; frame
  | |- preserves _ (match ?x with _ => _ end) => destruct x; frame
  | |- preserves _ ?m =>
      first
        [ solve [auto with frame]
        | frame_leaf
        | let h := head_of m in unfold h; frame ]
  end.

(** ** The loops *)

Lemma ShowCursor_loop_preserves {B : Type} (f : World -> B) fuel :
  blind_to f set_show_cursor_count ->
  blind_to f set_os_show_count ->
  blind_to f set_trace_log ->
  preserves f (ShowCursor_loop fuel).
Proof.
  unfold blind_to. intros H1 H2 H3.
  induction fuel as [| fuel IH]; simpl; frame.
Qed.

Lemma HideCursor_loop_preserves {B : Type} (f : World -> B) fuel :
  blind_to f set_show_cursor_count ->
  blind_to f set_os_show_count ->
  blind_to f set_trace_log ->
  preserves f (HideCursor_loop fuel).
Proof.
  unfold blind_to. intros H1 H2 H3.
  induction fuel as [| fuel IH]; simpl; frame.
Qed.

Lemma RestoreRawInputDevices_loop_preserves {B : Type} (f : World -> B)
    env hid devices :
  blind_to f set_os_raw_input_devices ->
  blind_to f set_trace_log ->
  preserves f (RestoreRawInputDevices_loop env hid devices).
Proof.
  unfold blind_to. intros H1 H2.
  induction devices as [| d devices IH]; simpl; frame.
Qed.

Lemma OnRegisterRawInputDevices_loop_preserves {B : Type} (f : World -> B)
    r indices :
  blind_to f set_trace_log ->
  preserves f (OnRegisterRawInputDevices_loop r indices).
Proof.
  unfold blind_to. intros H1.
  induction indices as [| i indices IH]; simpl; frame.
Qed.

Ltac blind := unfold blind_to; intros; reflexivity.

#[local] Hint Extern 1 (preserves _ (ShowCursor_loop _)) =>
  apply ShowCursor_loop_preserves; blind : frame.
#[local] Hint Extern 1 (preserves _ (HideCursor_loop _)) =>
  apply HideCursor_loop_preserves; blind : frame.
#[local] Hint Extern 1 (preserves _ (RestoreRawInputDevices_loop _ _ _)) =>
  apply RestoreRawInputDevices_loop_preserves; blind : frame.
#[local] Hint Extern 1 (preserves _ (OnRegisterRawInputDevices_loop _ _)) =>
  apply OnRegisterRawInputDevices_loop_preserves; blind : frame.

(** *** Arithmetic of [int] *)

Lemma wrap_int_id z : INT_MIN <= z <= INT_MAX -> wrap_int z = z.
Proof.
  unfold wrap_int, INT_MIN, INT_MAX. intros H.
  rewrite Z.mod_small; lia.
Qed.

Lemma wrap_int_range z : INT_MIN <= wrap_int z <= INT_MAX.
Proof.
  unfold wrap_int, INT_MIN, INT_MAX.
  pose proof (Z.mod_pos_bound (z + 2 ^ 31) (2 ^ 32) ltac:(lia)). lia.
Qed.

Lemma wrap_int_le z : INT_MIN <= z -> wrap_int z <= z.
Proof.
  unfold wrap_int, INT_MIN. intros H.
  pose proof (Z.mod_le (z + 2 ^ 31) (2 ^ 32) ltac:(lia) ltac:(lia)). lia.
Qed.

(** *** The two cursor loops end, and what they do to the count *)

Lemma ShowCursor_loop_returns fuel : forall w,
  - os_show_count w <= Z.of_nat fuel ->
  exists w', ShowCursor_loop fuel w = (Ret tt, w').
Proof.
  induction fuel as [| fuel IH]; intros w Hc; simpl;
    unfold bind, HADESMEM_DETAIL_TRACE, modify, Win32.ShowCursor, ret,
      out_of_fuel; simpl.
  - destruct (os_show_count w + 1 <? 0) eqn:E; [lia | eauto].
  - destruct (os_show_count w + 1 <? 0) eqn:E; [| eauto].
    apply IH. simpl. lia.
Qed.

Lemma ShowCursor_returns w : exists w', ShowCursor w = (Ret tt, w').
Proof.
  unfold ShowCursor, bind, gets. apply ShowCursor_loop_returns. lia.
Qed.

Lemma HideCursor_loop_returns fuel : forall w,
  show_cursor_count w <= Z.of_nat fuel ->
  exists w', HideCursor_loop fuel w = (Ret tt, w').
Proof.
  induction fuel as [| fuel IH]; intros w Hc; simpl;
    unfold bind, gets, HADESMEM_DETAIL_TRACE, modify, Win32.ShowCursor, ret,
      out_of_fuel; simpl.
  - destruct (show_cursor_count w >? 0) eqn:E; [lia | eauto].
  - destruct (show_cursor_count w >? 0) eqn:E; [| eauto].
    apply IH. simpl.
    pose proof (wrap_int_le (show_cursor_count w - 1)).
    unfold INT_MIN in *. lia.
Qed.

Lemma HideCursor_returns w : exists w', HideCursor w = (Ret tt, w').
Proof.
  unfold HideCursor, bind, gets. apply HideCursor_loop_returns. lia.
Qed.

Lemma ShowCursor_loop_count_ok fuel : forall w,
  count_ok w -> count_has_room w -> count_ok (snd (ShowCursor_loop fuel w)).
Proof.
  unfold count_ok, count_has_room.
  induction fuel as [| fuel IH]; intros w H0 H1; simpl;
    unfold bind, HADESMEM_DETAIL_TRACE, modify, Win32.ShowCursor, ret,
      out_of_fuel; simpl;
    (rewrite wrap_int_id by (unfold INT_MIN, INT_MAX in *; lia));
    destruct (os_show_count w + 1 <? 0) eqn:E; simpl; try lia.
  apply IH; simpl; lia.
Qed.

Lemma HideCursor_loop_count_ok fuel : forall w,
  count_ok w -> count_ok (snd (HideCursor_loop fuel w)).
Proof.
  unfold count_ok.
  induction fuel as [| fuel IH]; intros w H0; simpl;
    unfold bind, gets, HADESMEM_DETAIL_TRACE, modify, Win32.ShowCursor, ret,
      out_of_fuel; simpl;
    destruct (show_cursor_count w >? 0) eqn:E; simpl; try lia.
  apply IH; simpl. rewrite wrap_int_id by (unfold INT_MIN, INT_MAX in *; lia).
  lia.
Qed.

(** ** The steps of the transition, one by one *)

Lemma preserves_eq {A B : Type} (f : World -> B) (m : M A) w r w' :
  preserves f m -> m w = (r, w') -> f w' = f w.
Proof. intros H E. specialize (H w). rewrite E in H. exact H. Qed.

(** Proves [f (snd (m w)) = f w] by walking [m]. *)
Ltac by_frame :=
  lazymatch goal with
  | |- ?f (snd (?m ?w)) = ?f ?w =>
      let H := fresh "H" in
      assert (H : preserves f m) by frame; apply H
  end.

(** Proves [f w' = f w] from a hypothesis [m w = (_, w')] by walking [m]. *)
Ltac frame_from E :=
  lazymatch type of E with
  | ?m ?w = (_, ?w') =>
      lazymatch goal with
      | |- ?f w' = _ =>
          let H := fresh "H" in
          assert (H : preserves f m) by frame;
          exact (preserves_eq f m _ _ _ H E)
      end
  end.

Lemma SetOrRestoreCursor_true env w :
  ArrowCursor env <> nullptr ->
  SetOrRestoreCursor env true w =
  (Ret tt,
   set_old_cursor (true, os_cursor w)
     (set_os_cursor (ArrowCursor env)
        (set_trace_log (trace_log w ++ [mkTrace "Setting arrow cursor." []])
           w))).
Proof.
  intros H. apply Z.eqb_neq in H.
  unfold SetOrRestoreCursor, bind, Win32.LoadCursorW_IDC_ARROW, ret.
  rewrite H. reflexivity.
Qed.

Lemma SetOrRestoreCursor_false_saved env w :
  fst (old_cursor w) = true ->
  SetOrRestoreCursor env false w =
  (Ret tt,
   set_old_cursor (true, os_cursor w)
     (set_os_cursor (snd (old_cursor w))
        (set_trace_log (trace_log w ++ [mkTrace "Setting old cursor." []])
           w))).
Proof.
  intros H. unfold SetOrRestoreCursor, bind, gets. rewrite H. reflexivity.
Qed.

Lemma SetOrRestoreCursor_false_unsaved env w :
  fst (old_cursor w) = false ->
  SetOrRestoreCursor env false w =
  (Ret tt, set_old_cursor (true, snd (old_cursor w)) w).
Proof.
  intros H. unfold SetOrRestoreCursor, bind, gets. rewrite H. reflexivity.
Qed.

Lemma SetOrRestoreCursor_returns env visible w :
  ArrowCursor env <> nullptr ->
  exists w', SetOrRestoreCursor env visible w = (Ret tt, w').
Proof.
  intros H. destruct visible.
  - rewrite SetOrRestoreCursor_true by exact H. eauto.
  - destruct (fst (old_cursor w)) eqn:E.
    + rewrite SetOrRestoreCursor_false_saved by exact E. eauto.
    + rewrite SetOrRestoreCursor_false_unsaved by exact E. eauto.
Qed.

Lemma SaveCurrentCursorPos_ok env w :
  GetCursorPos_ok env = true ->
  SaveCurrentCursorPos env w =
  (Ret tt, set_old_cursor_pos (true, os_cursor_pos w) w).
Proof.
  intros H. unfold SaveCurrentCursorPos, bind, Win32.GetCursorPos.
  rewrite H. reflexivity.
Qed.

Lemma SaveCurrentCursorPos_saves env w w' :
  SaveCurrentCursorPos env w = (Ret tt, w') ->
  old_cursor_pos w' = (true, os_cursor_pos w).
Proof.
  unfold SaveCurrentCursorPos, bind, Win32.GetCursorPos.
  destruct (GetCursorPos_ok env); simpl; intros H; inversion H.
  reflexivity.
Qed.

Lemma ClearOldCursorPos_eq w :
  ClearOldCursorPos w = (Ret tt, set_old_cursor_pos (false, POINT.zero) w).
Proof. reflexivity. Qed.

Lemma RestoreOldCursorPos_unsaved env w :
  fst (old_cursor_pos w) = false -> RestoreOldCursorPos env w = (Ret tt, w).
Proof.
  intros H. unfold RestoreOldCursorPos, bind, gets. rewrite H. reflexivity.
Qed.

Lemma RestoreOldCursorPos_saved env w :
  fst (old_cursor_pos w) = true ->
  SetCursorPos_ok env = true ->
  RestoreOldCursorPos env w =
  (Ret tt,
   set_old_cursor_pos (false, POINT.zero)
     (set_os_cursor_pos (snd (old_cursor_pos w)) w)).
Proof.
  intros H Hok.
  unfold RestoreOldCursorPos, bind, gets, Win32.SetCursorPos.
  rewrite H, Hok. simpl. destruct (snd (old_cursor_pos w)). reflexivity.
Qed.

Lemma RestoreOldCursorPos_returns env w :
  SetCursorPos_ok env = true ->
  exists w', RestoreOldCursorPos env w = (Ret tt, w').
Proof.
  intros H. destruct (fst (old_cursor_pos w)) eqn:E.
  - rewrite RestoreOldCursorPos_saved by assumption. eauto.
  - rewrite RestoreOldCursorPos_unsaved by assumption. eauto.
Qed.

Lemma SaveCurrentClipCursor_ok env w :
  GetClipCursor_ok env = true ->
  exists w',
    SaveCurrentClipCursor env w = (Ret tt, w') /\
    old_clip_cursor w' = os_clip_cursor w.
Proof.
  intros H. unfold SaveCurrentClipCursor, bind, Win32.GetClipCursor.
  rewrite H. simpl. eexists. split; reflexivity.
Qed.

Lemma SaveCurrentClipCursor_saves env w w' :
  SaveCurrentClipCursor env w = (Ret tt, w') ->
  old_clip_cursor w' = os_clip_cursor w.
Proof.
  unfold SaveCurrentClipCursor, bind, Win32.GetClipCursor.
  destruct (GetClipCursor_ok env); simpl; intros H; inversion H.
  reflexivity.
Qed.

Lemma ClipCursorWrap_sets env r w w' :
  ClipCursorWrap env r w = (Ret tt, w') -> os_clip_cursor w' = r.
Proof.
  unfold ClipCursorWrap, bind, Win32.ClipCursor.
  destruct (ClipCursor_ok env); simpl; intros H; inversion H.
  reflexivity.
Qed.

Lemma ClipCursorWrap_ok env r w :
  ClipCursor_ok env = true ->
  ClipCursorWrap env r w = (Ret tt, set_os_clip_cursor r w).
Proof.
  intros H. unfold ClipCursorWrap, bind, Win32.ClipCursor. rewrite H.
  reflexivity.
Qed.

Lemma SetNewClipCursor_valid env w window_rect :
  IsWindow env (CurrentWindow env) = true ->
  WindowRect env (CurrentWindow env) = Some window_rect ->
  ClipCursor_ok env = true ->
  exists w',
    SetNewClipCursor env w = (Ret tt, w') /\
    os_clip_cursor w' = union_rect (old_clip_cursor w) window_rect.
Proof.
  intros H1 H2 H3.
  unfold SetNewClipCursor, bind, gets, Win32.GetWindowRect, ret, trace_rect,
    HADESMEM_DETAIL_TRACE, modify.
  rewrite H1, H2. simpl. rewrite ClipCursorWrap_ok by exact H3.
  eexists. split; reflexivity.
Qed.

Lemma SetNewClipCursor_invalid env w :
  IsWindow env (CurrentWindow env) = false ->
  SetNewClipCursor env w =
  (Ret tt,
   set_trace_log (trace_log w ++ [mkTrace "WARNING! Invalid window." []]) w).
Proof.
  intros H. unfold SetNewClipCursor. rewrite H. reflexivity.
Qed.

Lemma SetNewClipCursor_returns env w :
  transition_succeeds env ->
  exists w', SetNewClipCursor env w = (Ret tt, w').
Proof.
  intros H. destruct (IsWindow env (CurrentWindow env)) eqn:E.
  - destruct (WindowRect env (CurrentWindow env)) as [r |] eqn:Er.
    + destruct (SetNewClipCursor_valid env w r E Er (ok_clip_cursor _ H))
        as (w' & Hw & _).
      eauto.
    + exfalso. exact (ok_window_rect _ H E Er).
  - rewrite SetNewClipCursor_invalid by exact E. eauto.
Qed.

Lemma RestoreOldClipCursor_ok env w :
  ClipCursor_ok env = true ->
  exists w',
    RestoreOldClipCursor env w = (Ret tt, w') /\
    os_clip_cursor w' = old_clip_cursor w.
Proof.
  intros H.
  unfold RestoreOldClipCursor, bind, gets, trace_rect, HADESMEM_DETAIL_TRACE,
    modify.
  rewrite ClipCursorWrap_ok by exact H. eexists. split; reflexivity.
Qed.

Lemma RestoreOldClipCursor_restores env w w' :
  RestoreOldClipCursor env w = (Ret tt, w') ->
  os_clip_cursor w' = old_clip_cursor w.
Proof.
  unfold RestoreOldClipCursor. intros H.
  apply bind_Ret_inv in H as (r & w1 & H1 & H).
  apply bind_Ret_inv in H as (u & w2 & H2 & H).
  apply ClipCursorWrap_sets in H. unfold gets in H1.
  injection H1 as Hr Hw. rewrite H, <- Hr. reflexivity.
Qed.

(** ** Raw input *)

Lemma RegisterRawInputDevicesWrapper_registers env d w w' :
  RegisterRawInputDevicesWrapper env d w = (Ret tt, w') ->
  os_raw_input_devices w' = Win32.register d (os_raw_input_devices w) /\
  old_raw_input_devices w' = old_raw_input_devices w.
Proof.
  unfold RegisterRawInputDevicesWrapper, bind, Win32.RegisterRawInputDevices.
  destruct (RegisterRawInputDevices_ok env d); simpl; intros H; inversion H.
  split; reflexivity.
Qed.

Lemma RegisterRawInputDevicesWrapper_ok env d w :
  RegisterRawInputDevices_ok env d = true ->
  RegisterRawInputDevicesWrapper env d w =
  (Ret tt,
   set_os_raw_input_devices (Win32.register d (os_raw_input_devices w)) w).
Proof.
  intros H.
  unfold RegisterRawInputDevicesWrapper, bind, Win32.RegisterRawInputDevices.
  rewrite H. reflexivity.
Qed.

Lemma SetRawInputDevices_none env hid w :
  os_raw_input_devices w = [] ->
  SetRawInputDevices env hid w =
  (Ret tt,
   set_trace_log
     (trace_log w ++ [mkTrace "Setting new raw input devices." [];
                      mkTrace "No registered raw input devices." []]) w).
Proof.
  intros H.
  unfold SetRawInputDevices, bind, HADESMEM_DETAIL_TRACE, modify,
    Win32.GetRegisteredRawInputDevices_count, gets.
  simpl. rewrite H. simpl. rewrite <- app_assoc. reflexivity.
Qed.

Lemma snapshot_buffer (devs : list RAWINPUTDEVICE) :
  resize (Z.to_nat (Z.of_nat (length devs))) RAWINPUTDEVICE_zero
    (devs ++
     drop (length devs)
       (replicate (Z.to_nat (Z.of_nat (length devs))) RAWINPUTDEVICE_zero)) =
  devs.
Proof.
  rewrite Nat2Z.id, drop_replicate, Nat.sub_diag. simpl.
  rewrite app_nil_r. apply resize_all.
Qed.

Lemma SetRawInputDevices_snapshot env hid w w' :
  SetRawInputDevices env hid w = (Ret tt, w') ->
  os_raw_input_devices w <> [] ->
  old_raw_input_devices w' = os_raw_input_devices w.
Proof.
  unfold SetRawInputDevices. intros H Hne.
  apply bind_Ret_inv in H as ([] & w1 & H1 & H).
  apply bind_Ret_inv in H as (n & w2 & H2 & H).
  unfold HADESMEM_DETAIL_TRACE, modify in H1. injection H1 as <-.
  unfold Win32.GetRegisteredRawInputDevices_count, gets in H2. simpl in H2.
  injection H2 as <- <-.
  destruct (Z.of_nat (length (os_raw_input_devices w)) =? 0) eqn:E.
  { apply Z.eqb_eq in E. destruct (os_raw_input_devices w);
      [congruence | simpl in E; lia]. }
  cbv zeta in H.
  apply bind_Ret_inv in H as (r & w3 & H3 & H).
  unfold Win32.GetRegisteredRawInputDevices in H3. simpl in H3.
  destruct (GetRegisteredRawInputDevices_ok env).
  2:{ injection H3 as <- <-. simpl in H. discriminate. }
  injection H3 as <- <-. cbn [fst snd] in H.
  destruct (Z.of_nat (length (os_raw_input_devices w)) =? to_UINT (-1));
    [apply bind_Ret_inv in H as (? & ? & _ & H); discriminate |].
  rewrite snapshot_buffer in H.
  apply bind_Ret_inv in H as ([] & w4 & H4 & H).
  unfold modify in H4. injection H4 as <-.
  match type of H with
  | ?m ?w0 = _ =>
      assert (Hp : preserves old_raw_input_devices m) by frame;
      rewrite (preserves_eq _ _ _ _ _ Hp H)
  end.
  reflexivity.
Qed.

Lemma SetRawInputDevices_returns env hid w :
  transition_succeeds env ->
  device_count_fits w ->
  exists w', SetRawInputDevices env hid w = (Ret tt, w').
Proof.
  intros Hok Hfit. unfold device_count_fits in Hfit.
  unfold SetRawInputDevices, bind, HADESMEM_DETAIL_TRACE, modify,
    Win32.GetRegisteredRawInputDevices_count, gets,
    Win32.GetRegisteredRawInputDevices, when.
  simpl.
  destruct (Z.of_nat (length (os_raw_input_devices w)) =? 0); [eauto |].
  rewrite (ok_get_registered _ Hok). simpl.
  replace (Z.of_nat (length (os_raw_input_devices w)) =? to_UINT (-1))
    with false
    by (symmetry; apply Z.eqb_neq; unfold to_UINT;
        change ((-1) mod 2 ^ 32) with (2 ^ 32 - 1); lia).
  simpl.
  rewrite snapshot_buffer.
  destruct (found (find (is_mouse_device hid) (os_raw_input_devices w))),
    (found (find (is_keyboard_device hid) (os_raw_input_devices w)));
    simpl; unfold ret;
    rewrite ?RegisterRawInputDevicesWrapper_ok by apply (ok_register _ Hok);
    eauto.
Qed.

(** A device RestoreRawInputDevices registers again. *)
Lemma RestoreRawInputDevices_loop_restores env hid devices : forall w w',
  RestoreRawInputDevices_loop env hid devices w = (Ret tt, w') ->
  os_raw_input_devices w' =
  register_all (List.filter (is_recognised_device hid) devices)
    (os_raw_input_devices w).
Proof.
  unfold register_all, is_recognised_device.
  induction devices as [| d devices IH]; intros w w' H; simpl in H.
  - injection H as <-. reflexivity.
  - apply bind_Ret_inv in H as ([] & w1 & H1 & H).
    apply bind_Ret_inv in H as ([] & w2 & H2 & H).
    unfold LogRawInputDevice, HADESMEM_DETAIL_TRACE, modify in H1.
    injection H1 as <-.
    apply IH in H. rewrite H. simpl.
    destruct (is_mouse_device hid d); simpl.
    + apply bind_Ret_inv in H2 as ([] & w3 & H3 & H2).
      apply RegisterRawInputDevicesWrapper_registers in H2 as [-> _].
      unfold HADESMEM_DETAIL_TRACE, modify in H3. injection H3 as <-.
      reflexivity.
    + destruct (is_keyboard_device hid d); simpl.
      * apply bind_Ret_inv in H2 as ([] & w3 & H3 & H2).
        apply RegisterRawInputDevicesWrapper_registers in H2 as [-> _].
        unfold HADESMEM_DETAIL_TRACE, modify in H3. injection H3 as <-.
        reflexivity.
      * unfold HADESMEM_DETAIL_TRACE, modify in H2. injection H2 as <-.
        reflexivity.
Qed.

Lemma RestoreRawInputDevices_loop_returns env hid devices : forall w,
  (forall d, RegisterRawInputDevices_ok env d = true) ->
  exists w', RestoreRawInputDevices_loop env hid devices w = (Ret tt, w').
Proof.
  induction devices as [| d devices IH]; intros w Hok; simpl.
  - unfold ret. eauto.
  - unfold bind at 1. unfold LogRawInputDevice, HADESMEM_DETAIL_TRACE, modify.
    unfold bind at 1.
    destruct (is_mouse_device hid d);
      [| destruct (is_keyboard_device hid d)];
      unfold bind, HADESMEM_DETAIL_TRACE, modify;
      rewrite ?RegisterRawInputDevicesWrapper_ok by apply Hok;
      apply IH; exact Hok.
Qed.

Lemma RestoreRawInputDevices_returns env hid w :
  (forall d, RegisterRawInputDevices_ok env d = true) ->
  exists w', RestoreRawInputDevices env hid w = (Ret tt, w').
Proof.
  intros Hok. unfold RestoreRawInputDevices, bind, HADESMEM_DETAIL_TRACE,
    modify, gets.
  apply RestoreRawInputDevices_loop_returns. exact Hok.
Qed.

(** ** The transition as a whole *)

Lemma HandleInputQueue_loop_preserves {B : Type} (f : World -> B) env fuel :
  blind_to f set_wnd_proc_input_msg_queue ->
  blind_to f set_delivered ->
  blind_to f set_os_open_handles ->
  blind_to f set_os_next_handle ->
  blind_to f set_os_attached ->
  blind_to f set_last_attached ->
  blind_to f set_trace_log ->
  preserves f (HandleInputQueue_loop env fuel).
Proof.
  unfold blind_to. intros H1 H2 H3 H4 H5 H6 H7.
  induction fuel as [| fuel IH]; simpl; frame.
Qed.

#[local] Hint Extern 1 (preserves _ (HandleInputQueue_loop _ _)) =>
  apply HandleInputQueue_loop_preserves; blind : frame.

(** Runs the next step of a chain of binds whose first computation is known
    to return. *)
Ltac run_step L :=
  let w' := fresh "w" in
  let E := fresh "E" in
  destruct L as [w' E]; rewrite (bind_Ret _ _ _ _ _ E).

Lemma turn_on_returns env hid w :
  transition_succeeds env ->
  device_count_fits w ->
  exists w', SetGuiVisibleForInput env hid true false w = (Ret tt, w').
Proof.
  intros Hok Hfit. unfold SetGuiVisibleForInput. simpl.
  run_step (SetOrRestoreCursor_returns env true w (ok_arrow _ Hok)).
  rewrite (bind_Ret _ _ _ _ _
             (SaveCurrentCursorPos_ok env _ (ok_get_cursor_pos _ Hok))).
  run_step (ShowCursor_returns
              (set_old_cursor_pos (true, os_cursor_pos w0) w0)).
  destruct (SaveCurrentClipCursor_ok env w1 (ok_get_clip_cursor _ Hok))
    as (w2 & E2 & _).
  rewrite (bind_Ret _ _ _ _ _ E2).
  run_step (SetNewClipCursor_returns env w2 Hok).
  apply SetRawInputDevices_returns; [exact Hok |].
  unfold device_count_fits in *.
  replace (os_raw_input_devices w3) with (os_raw_input_devices w);
    [exact Hfit |].
  symmetry.
  transitivity (os_raw_input_devices w2); [frame_from E1 |].
  transitivity (os_raw_input_devices w1); [frame_from E2 |].
  transitivity (os_raw_input_devices w0); [| frame_from E].
  change (os_raw_input_devices w0)
    with (os_raw_input_devices
            (set_old_cursor_pos (true, os_cursor_pos w0) w0)).
  frame_from E0.
Qed.

Lemma turn_off_returns env hid w :
  transition_succeeds env ->
  exists w', SetGuiVisibleForInput env hid false true w = (Ret tt, w').
Proof.
  intros Hok. unfold SetGuiVisibleForInput. simpl.
  run_step (SetOrRestoreCursor_returns env false w (ok_arrow _ Hok)).
  run_step (RestoreOldCursorPos_returns env w0 (ok_set_cursor_pos _ Hok)).
  run_step (HideCursor_returns w1).
  destruct (RestoreOldClipCursor_ok env w2 (ok_clip_cursor _ Hok))
    as (w3 & E3 & _).
  rewrite (bind_Ret _ _ _ _ _ E3).
  apply RestoreRawInputDevices_returns. apply (ok_register _ Hok).
Qed.

Lemma no_transition_returns env hid visible w :
  transition_succeeds env ->
  exists w', SetGuiVisibleForInput env hid visible visible w = (Ret tt, w').
Proof.
  intros Hok. unfold SetGuiVisibleForInput.
  rewrite eqb_reflx. simpl.
  rewrite (bind_Ret _ _ _ _ _ (ClearOldCursorPos_eq w)).
  destruct visible; simpl.
  - apply SetNewClipCursor_returns. exact Hok.
  - unfold ret. eauto.
Qed.

Lemma SetGuiVisible_flag env hid visible old_visible w :
  gui_visible (snd (SetGuiVisible env hid visible old_visible w)) = visible.
Proof.
  unfold SetGuiVisible. unfold bind at 1. unfold modify.
  assert (H : preserves gui_visible
                (SetGuiVisibleForInput env hid visible old_visible))
    by frame.
  specialize (H (set_gui_visible visible w)).
  destruct (SetGuiVisibleForInput env hid visible old_visible
              (set_gui_visible visible w)) as [[[] | e |] w'];
    simpl in *; exact H.
Qed.

Lemma SetGuiVisible_unfold env hid visible old_visible w :
  SetGuiVisible env hid visible old_visible w =
  SetGuiVisibleForInput env hid visible old_visible
    (set_gui_visible visible w).
Proof. reflexivity. Qed.

Lemma turn_on_saved_position env hid w w' :
  SetGuiVisibleForInput env hid true false w = (Ret tt, w') ->
  old_cursor_pos w' = (true, os_cursor_pos w).
Proof.
  unfold SetGuiVisibleForInput. simpl. intros H.
  apply bind_Ret_inv in H as ([] & w1 & H1 & H).
  apply bind_Ret_inv in H as ([] & w2 & H2 & H).
  apply SaveCurrentCursorPos_saves in H2.
  transitivity (old_cursor_pos w2); [frame_from H |].
  rewrite H2. f_equal. frame_from H1.
Qed.

(** *** Events that leave the saved position alone *)

Lemma WindowProcCallback_not_hotkey env hid hwnd msg wparam lparam handled w :
  is_toggle_hotkey msg wparam lparam (AsyncKeyState env VK_SHIFT) = false ->
  WindowProcCallback env hid hwnd msg wparam lparam handled w =
  (entry <- WndProcInputMsg_ctor env hwnd msg wparam lparam
              (CurrentThreadId env) ;;
   queue_push entry ;;
   visible <- GetGuiVisible ;;
   if visible && is_blocked_msg msg then ret true else ret handled) w.
Proof.
  intros H. unfold WindowProcCallback, bind, Win32.GetCurrentThreadId,
    Win32.GetAsyncKeyState, ret.
  destruct (WndProcInputMsg_ctor env hwnd msg wparam lparam
              (CurrentThreadId env) w) as [[entry | e |] w1];
    try reflexivity.
  destruct (queue_push entry w1) as [[[] | e |] w2]; try reflexivity.
  rewrite H. reflexivity.
Qed.

Lemma leaves_saved_position_step e w :
  leaves_saved_position e = true ->
  old_cursor_pos (step e w) = old_cursor_pos w /\
  gui_visible (step e w) = gui_visible w.
Proof.
  destruct e; simpl; intros H; try discriminate;
    try (split; [by_frame | by_frame]);
    try (split; reflexivity).
  apply negb_true_iff in H.
  rewrite WindowProcCallback_not_hotkey by exact H.
  split; by_frame.
Qed.

Lemma leaves_saved_position_run events : forall w,
  forallb leaves_saved_position events = true ->
  old_cursor_pos (run events w) = old_cursor_pos w /\
  gui_visible (run events w) = gui_visible w.
Proof.
  unfold run.
  induction events as [| e events IH]; intros w H; simpl in *.
  - split; reflexivity.
  - apply andb_true_iff in H as [He H].
    destruct (IH (step e w) H) as [-> ->].
    apply leaves_saved_position_step. exact He.
Qed.

(** ** The cursor position served while the overlay is visible *)

(** C1 (as amended).  Starting with the overlay hidden,
    SetGuiVisible(true, false) returns, and from then on every call of the
    get-cursor-position hook with an output point writes the position the
    cursor had when the overlay was turned on and reports the call handled,
    however the real cursor moved in between, and whatever else happened in
    between that is neither a call of the set-cursor-position hook nor
    another call of SetGuiVisible (made directly or by the toggle
    hotkey). *)
Theorem get_cursor_pos_serves_saved_position env hid w0 :
  gui_visible w0 = false ->
  transition_succeeds env ->
  device_count_fits w0 ->
  exists w1,
    SetGuiVisible env hid true false w0 = (Ret tt, w1) /\
    forall events point handled,
      forallb leaves_saved_position events = true ->
      OnGetCursorPos (Some point) handled (run events w1) =
      (Ret (Some (os_cursor_pos w0), true), run events w1).
Proof.
  intros _ Hok Hfit.
  destruct (turn_on_returns env hid (set_gui_visible true w0) Hok Hfit)
    as [w1 E].
  exists w1. split; [exact E |].
  intros events point handled Hev.
  destruct (leaves_saved_position_run events w1 Hev) as [Hpos Hvis].
  pose proof (SetGuiVisible_flag env hid true false w0) as Hflag.
  rewrite SetGuiVisible_unfold, E in Hflag. simpl in Hflag.
  apply turn_on_saved_position in E. simpl in E.
  unfold OnGetCursorPos, bind, GetGuiVisible, gets, ret.
  rewrite Hvis, Hflag, Hpos, E. simpl.
  destruct (os_cursor_pos w0). reflexivity.
Qed.

Lemma get_cursor_pos_serves_saved_position_witness :
  gui_visible Sample.host = false /\
  exists w1,
    SetGuiVisible Sample.env Sample.hid true false Sample.host =
    (Ret tt, w1) /\
    forall events point handled,
      forallb leaves_saved_position events = true ->
      OnGetCursorPos (Some point) handled (run events w1) =
      (Ret (Some (os_cursor_pos Sample.host), true), run events w1).
Proof.
  split; [reflexivity |].
  apply (get_cursor_pos_serves_saved_position Sample.env Sample.hid
           Sample.host).
  - reflexivity.
  - constructor; simpl; intros; try reflexivity; discriminate.
  - unfold device_count_fits. simpl. lia.
Defined.


(** C1 as stated fails: the overlay has been turned on with the cursor at
    (4,5) and stays visible.  After the host calls the set-cursor-position
    hook with (100,100), the get-cursor-position hook serves (100,100);
    after a call of SetGuiVisible(true, true) it serves (0,0). *)
Lemma saved_position_replaced_counterexample :
  gui_visible Sample.host = false /\
  os_cursor_pos Sample.host = POINT.mk 4 5 /\
  SetGuiVisible Sample.env Sample.hid true false Sample.host =
  (Ret tt, Sample.overlay) /\
  gui_visible (step (Hook_SetCursorPos 100 100) Sample.overlay) = true /\
  fst (OnGetCursorPos (Some POINT.zero) false
         (step (Hook_SetCursorPos 100 100) Sample.overlay)) =
  Ret (Some (POINT.mk 100 100), true) /\
  gui_visible
    (step (Call_SetGuiVisible Sample.env Sample.hid true true)
       Sample.overlay) = true /\
  fst (OnGetCursorPos (Some (POINT.mk 1 1)) false
         (step (Call_SetGuiVisible Sample.env Sample.hid true true)
            Sample.overlay)) =
  Ret (Some (POINT.mk 0 0), true).
Proof. vm_compute. repeat split. Qed.

(** ** The clip rectangle round trip *)

Lemma turn_on_saved_clip env hid w w' :
  SetGuiVisibleForInput env hid true false w = (Ret tt, w') ->
  old_clip_cursor w' = os_clip_cursor w.
Proof.
  unfold SetGuiVisibleForInput. simpl. intros H.
  apply bind_Ret_inv in H as ([] & w1 & H1 & H).
  apply bind_Ret_inv in H as ([] & w2 & H2 & H).
  apply bind_Ret_inv in H as ([] & w3 & H3 & H).
  apply bind_Ret_inv in H as ([] & w4 & H4 & H).
  apply SaveCurrentClipCursor_saves in H4.
  transitivity (old_clip_cursor w4); [frame_from H |].
  rewrite H4.
  transitivity (os_clip_cursor w2); [frame_from H3 |].
  transitivity (os_clip_cursor w1); [frame_from H2 | frame_from H1].
Qed.

Lemma turn_off_restored_clip env hid w w' :
  SetGuiVisibleForInput env hid false true w = (Ret tt, w') ->
  os_clip_cursor w' = old_clip_cursor w.
Proof.
  unfold SetGuiVisibleForInput. simpl. intros H.
  apply bind_Ret_inv in H as ([] & w1 & H1 & H).
  apply bind_Ret_inv in H as ([] & w2 & H2 & H).
  apply bind_Ret_inv in H as ([] & w3 & H3 & H).
  apply bind_Ret_inv in H as ([] & w4 & H4 & H).
  apply RestoreOldClipCursor_restores in H4.
  transitivity (os_clip_cursor w4); [frame_from H |].
  rewrite H4.
  transitivity (old_clip_cursor w2); [frame_from H3 |].
  transitivity (old_clip_cursor w1); [frame_from H2 | frame_from H1].
Qed.

Lemma leaves_saved_clip_step e w :
  leaves_saved_clip e = true -> old_clip_cursor (step e w) = old_clip_cursor w.
Proof.
  destruct e; simpl; intros H; try discriminate;
    try by_frame; try reflexivity.
  - apply eqb_prop in H. subst old_visible.
    unfold SetGuiVisible, SetGuiVisibleForInput. rewrite eqb_reflx. simpl.
    by_frame.
  - apply negb_true_iff in H.
    rewrite WindowProcCallback_not_hotkey by exact H. by_frame.
Qed.

Lemma leaves_saved_clip_run events : forall w,
  forallb leaves_saved_clip events = true ->
  old_clip_cursor (run events w) = old_clip_cursor w.
Proof.
  unfold run.
  induction events as [| e events IH]; intros w H; simpl in *.
  - reflexivity.
  - apply andb_true_iff in H as [He H].
    rewrite (IH (step e w) H). apply leaves_saved_clip_step. exact He.
Qed.

(** C7.  For every starting clip rectangle, SetGuiVisible(true, false)
    followed by SetGuiVisible(false, true) puts the clip rectangle back to
    what it was before the first call: both calls return, and the final
    rectangle is the initial one.  In between anything may happen that
    neither switches the overlay nor calls the clip-cursor hook. *)
Theorem clip_rectangle_round_trip env1 env2 hid1 hid2 w0 events :
  transition_succeeds env1 ->
  transition_succeeds env2 ->
  device_count_fits w0 ->
  forallb leaves_saved_clip events = true ->
  exists w1 w2,
    SetGuiVisible env1 hid1 true false w0 = (Ret tt, w1) /\
    SetGuiVisible env2 hid2 false true (run events w1) = (Ret tt, w2) /\
    os_clip_cursor w2 = os_clip_cursor w0.
Proof.
  intros Hok1 Hok2 Hfit Hev.
  destruct (turn_on_returns env1 hid1 (set_gui_visible true w0) Hok1 Hfit)
    as [w1 E1].
  destruct (turn_off_returns env2 hid2
              (set_gui_visible false (run events w1)) Hok2) as [w2 E2].
  exists w1, w2. repeat split; [exact E1 | exact E2 |].
  apply turn_off_restored_clip in E2. apply turn_on_saved_clip in E1.
  rewrite E2. simpl. rewrite leaves_saved_clip_run by exact Hev.
  exact E1.
Qed.

Lemma clip_rectangle_round_trip_witness :
  forallb leaves_saved_clip
    [Os_CursorMoved (POINT.mk 30 30); Hook_GetCursorPos (Some POINT.zero);
     Call_SetGuiVisible Sample.env Sample.hid true true] = true /\
  exists w1 w2,
    SetGuiVisible Sample.env Sample.hid true false Sample.host =
    (Ret tt, w1) /\
    SetGuiVisible Sample.env Sample.hid false true
      (run [Os_CursorMoved (POINT.mk 30 30);
            Hook_GetCursorPos (Some POINT.zero);
            Call_SetGuiVisible Sample.env Sample.hid true true] w1) =
    (Ret tt, w2) /\
    os_clip_cursor w2 = os_clip_cursor Sample.host.
Proof.
  split; [reflexivity |].
  apply (clip_rectangle_round_trip Sample.env Sample.env Sample.hid
           Sample.hid Sample.host).
  - constructor; simpl; intros; try reflexivity; discriminate.
  - constructor; simpl; intros; try reflexivity; discriminate.
  - unfold device_count_fits. simpl. lia.
  - reflexivity.
Defined.

(** ** The saved cursor position across calls of SetGuiVisible *)

Lemma bind_snd {A B C : Type} (f : World -> C) (m : M A) (k : A -> M B)
    w a w1 :
  m w = (Ret a, w1) ->
  preserves f (k a) ->
  f (snd (bind m k w)) = f w1.
Proof.
  intros E H. rewrite (bind_Ret _ _ _ _ _ E). apply H.
Qed.

Lemma no_transition_clears env hid visible w :
  old_cursor_pos (snd (SetGuiVisibleForInput env hid visible visible w)) =
  (false, POINT.zero) /\
  os_cursor_pos (snd (SetGuiVisibleForInput env hid visible visible w)) =
  os_cursor_pos w.
Proof.
  unfold SetGuiVisibleForInput. rewrite eqb_reflx. simpl.
  split.
  - erewrite bind_snd; [| apply ClearOldCursorPos_eq | frame]. reflexivity.
  - by_frame.
Qed.

Lemma no_transition_visible_clip env hid w window_rect :
  IsWindow env (CurrentWindow env) = true ->
  WindowRect env (CurrentWindow env) = Some window_rect ->
  ClipCursor_ok env = true ->
  exists w',
    SetGuiVisibleForInput env hid true true w = (Ret tt, w') /\
    os_clip_cursor w' = union_rect (old_clip_cursor w) window_rect.
Proof.
  intros H1 H2 H3. unfold SetGuiVisibleForInput. simpl.
  rewrite (bind_Ret _ _ _ _ _ (ClearOldCursorPos_eq w)). simpl.
  destruct (SetNewClipCursor_valid env
              (set_old_cursor_pos (false, POINT.zero) w) window_rect H1 H2 H3)
    as (w' & E & Hc).
  exists w'. split; [exact E | exact Hc].
Qed.

Lemma no_transition_hidden_clip env hid w :
  os_clip_cursor (snd (SetGuiVisibleForInput env hid false false w)) =
  os_clip_cursor w.
Proof. reflexivity. Qed.

Lemma SetOrRestoreCursor_false_position env w :
  exists w0,
    SetOrRestoreCursor env false w = (Ret tt, w0) /\
    old_cursor_pos w0 = old_cursor_pos w /\
    os_cursor_pos w0 = os_cursor_pos w.
Proof.
  destruct (fst (old_cursor w)) eqn:Ec.
  - rewrite SetOrRestoreCursor_false_saved by exact Ec.
    eexists. repeat split.
  - rewrite SetOrRestoreCursor_false_unsaved by exact Ec.
    eexists. repeat split.
Qed.

Lemma turn_off_position_unsaved env hid w :
  fst (old_cursor_pos w) = false ->
  os_cursor_pos (snd (SetGuiVisibleForInput env hid false true w)) =
  os_cursor_pos w.
Proof.
  intros H. unfold SetGuiVisibleForInput. simpl.
  destruct (SetOrRestoreCursor_false_position env w) as (w0 & E0 & Hp & Ho).
  rewrite (bind_Ret _ _ _ _ _ E0). rewrite <- Hp in H.
  erewrite bind_snd;
    [| apply RestoreOldCursorPos_unsaved; exact H | frame].
  exact Ho.
Qed.

Lemma turn_off_position_saved env hid w :
  fst (old_cursor_pos w) = true ->
  SetCursorPos_ok env = true ->
  os_cursor_pos (snd (SetGuiVisibleForInput env hid false true w)) =
  snd (old_cursor_pos w) /\
  old_cursor_pos (snd (SetGuiVisibleForInput env hid false true w)) =
  (false, POINT.zero).
Proof.
  intros H Hok. unfold SetGuiVisibleForInput. simpl.
  destruct (SetOrRestoreCursor_false_position env w) as (w0 & E0 & Hp & _).
  rewrite (bind_Ret _ _ _ _ _ E0).
  assert (E1 := RestoreOldCursorPos_saved env w0).
  rewrite Hp in E1. specialize (E1 H Hok).
  split.
  - erewrite bind_snd; [| exact E1 | frame]. reflexivity.
  - erewrite bind_snd; [| exact E1 | frame]. reflexivity.
Qed.

(** C8 (as amended).  A call of SetGuiVisible with [visible = old_visible]
    clears the saved cursor position, flag and point, without restoring it,
    whether the overlay is visible or not; when it is visible and the
    current window is a window, the call also applies the union of the
    saved clip rectangle and the window rectangle, and when it is not
    visible the clip rectangle stays.  A turn-off restores the saved cursor
    position only when one is flagged as saved. *)
Theorem no_transition_clears_and_turn_off_restores_if_saved env hid w :
  (forall visible,
     old_cursor_pos (snd (SetGuiVisible env hid visible visible w)) =
     (false, POINT.zero) /\
     os_cursor_pos (snd (SetGuiVisible env hid visible visible w)) =
     os_cursor_pos w) /\
  (forall window_rect,
     IsWindow env (CurrentWindow env) = true ->
     WindowRect env (CurrentWindow env) = Some window_rect ->
     ClipCursor_ok env = true ->
     exists w',
       SetGuiVisible env hid true true w = (Ret tt, w') /\
       os_clip_cursor w' = union_rect (old_clip_cursor w) window_rect) /\
  os_clip_cursor (snd (SetGuiVisible env hid false false w)) =
  os_clip_cursor w /\
  (fst (old_cursor_pos w) = false ->
   os_cursor_pos (snd (SetGuiVisible env hid false true w)) =
   os_cursor_pos w) /\
  (fst (old_cursor_pos w) = true ->
   SetCursorPos_ok env = true ->
   os_cursor_pos (snd (SetGuiVisible env hid false true w)) =
   snd (old_cursor_pos w)).
Proof.
  repeat split.
  - rewrite SetGuiVisible_unfold.
    apply (no_transition_clears env hid visible (set_gui_visible visible w)).
  - rewrite SetGuiVisible_unfold.
    apply (no_transition_clears env hid visible (set_gui_visible visible w)).
  - intros window_rect H1 H2 H3. rewrite SetGuiVisible_unfold.
    apply (no_transition_visible_clip env hid (set_gui_visible true w)
             window_rect H1 H2 H3).
  - intros H. rewrite SetGuiVisible_unfold.
    apply (turn_off_position_unsaved env hid (set_gui_visible false w) H).
  - intros H Hok. rewrite SetGuiVisible_unfold.
    apply (turn_off_position_saved env hid (set_gui_visible false w) H Hok).
Qed.

Lemma no_transition_clears_and_turn_off_restores_if_saved_witness :
  (exists w',
     SetGuiVisible Sample.env Sample.hid true true Sample.overlay =
     (Ret tt, w') /\
     os_clip_cursor w' =
     union_rect (old_clip_cursor Sample.overlay) (RECT.mk 10 10 50 50)) /\
  os_cursor_pos
    (snd (SetGuiVisible Sample.env Sample.hid false true Sample.host)) =
  os_cursor_pos Sample.host /\
  os_cursor_pos
    (snd (SetGuiVisible Sample.env Sample.hid false true
            (set_os_cursor_pos (POINT.mk 30 30) Sample.overlay))) =
  snd (old_cursor_pos Sample.overlay).
Proof.
  split; [| split].
  - apply (no_transition_clears_and_turn_off_restores_if_saved Sample.env
             Sample.hid Sample.overlay); reflexivity.
  - apply (no_transition_clears_and_turn_off_restores_if_saved Sample.env
             Sample.hid Sample.host); reflexivity.
  - apply (no_transition_clears_and_turn_off_restores_if_saved Sample.env
             Sample.hid
             (set_os_cursor_pos (POINT.mk 30 30) Sample.overlay));
      reflexivity.
Defined.

(** C8 as stated fails: with the overlay visible and a position saved, a
    call with [visible = old_visible = true] clears the saved-position flag
    (and zeroes the point, which the get-cursor-position hook then
    serves). *)
Lemma no_transition_clears_while_visible_counterexample :
  gui_visible Sample.overlay = true /\
  old_cursor_pos Sample.overlay = (true, POINT.mk 4 5) /\
  old_cursor_pos
    (snd (SetGuiVisible Sample.env Sample.hid true true Sample.overlay)) =
  (false, POINT.zero) /\
  fst (OnGetCursorPos (Some (POINT.mk 1 1)) false
         (snd (SetGuiVisible Sample.env Sample.hid true true
                 Sample.overlay))) =
  Ret (Some POINT.zero, true).
Proof. vm_compute. repeat split. Qed.

(** ** The cursor handle *)

(** C10.  Whatever the visibility, the set-cursor hook records the new
    cursor and flags it as saved; only when the overlay is visible does it
    also report the call handled, with the cursor recorded before as return
    value.  A turn-off right after it makes the recorded cursor the
    current one, however that call ends. *)
Theorem set_cursor_hook_records_cursor env hid cursor handled retval w :
  OnSetCursor cursor handled retval w =
  (Ret (if gui_visible w then (true, snd (old_cursor w))
        else (handled, retval)),
   set_old_cursor (true, cursor) w) /\
  os_cursor
    (snd (SetGuiVisible env hid false true
            (snd (OnSetCursor cursor handled retval w)))) = cursor.
Proof.
  assert (E : OnSetCursor cursor handled retval w =
              (Ret (if gui_visible w then (true, snd (old_cursor w))
                    else (handled, retval)),
               set_old_cursor (true, cursor) w)).
  { unfold OnSetCursor, bind, gets, modify, GetGuiVisible, ret. simpl.
    destruct (gui_visible w); reflexivity. }
  split; [exact E |].
  rewrite E. simpl. rewrite SetGuiVisible_unfold.
  unfold SetGuiVisibleForInput. simpl.
  erewrite bind_snd;
    [| apply SetOrRestoreCursor_false_saved; reflexivity | frame].
  reflexivity.
Qed.

(** ** The show count *)

Lemma bind_snd_cases {A B : Type} (P : World -> Prop) (m : M A)
    (k : A -> M B) w :
  P (snd (m w)) ->
  (forall a w1, m w = (Ret a, w1) -> P (snd (k a w1))) ->
  P (snd (bind m k w)).
Proof.
  intros H1 H2. unfold bind.
  destruct (m w) as [[a | e |] w1]; simpl in *; auto.
Qed.

Lemma counters_count_ok w w' :
  counters w' = counters w -> count_ok w -> count_ok w'.
Proof. unfold counters, count_ok. intros H. injection H as -> _. auto. Qed.

Lemma counters_count_has_room w w' :
  counters w' = counters w -> count_has_room w -> count_has_room w'.
Proof.
  unfold counters, count_has_room. intros H. injection H as -> ->. auto.
Qed.

Lemma ShowCursor_count_ok w :
  count_ok w -> count_has_room w -> count_ok (snd (ShowCursor w)).
Proof.
  intros H1 H2. unfold ShowCursor, bind, gets.
  apply ShowCursor_loop_count_ok; assumption.
Qed.

Lemma HideCursor_count_ok w : count_ok w -> count_ok (snd (HideCursor w)).
Proof.
  intros H. unfold HideCursor, bind, gets.
  apply HideCursor_loop_count_ok. exact H.
Qed.

Lemma SetGuiVisibleForInput_count_ok env hid visible old_visible w :
  count_ok w -> count_has_room w ->
  count_ok (snd (SetGuiVisibleForInput env hid visible old_visible w)).
Proof.
  intros Hc Hr. unfold SetGuiVisibleForInput.
  destruct visible, old_visible; simpl.
  - (* already visible *)
    apply (counters_count_ok w); [| exact Hc].
    unfold counters. f_equal; by_frame.
  - (* turn on *)
    assert (F1 : preserves counters (SetOrRestoreCursor env true))
      by (unfold counters; frame).
    assert (F2 : preserves counters (SaveCurrentCursorPos env))
      by (unfold counters; frame).
    apply bind_snd_cases.
    { apply (counters_count_ok w); [apply F1 | exact Hc]. }
    intros [] w1 E1. apply (preserves_eq _ _ _ _ _ F1) in E1.
    apply bind_snd_cases.
    { apply (counters_count_ok w); [rewrite F2; exact E1 | exact Hc]. }
    intros [] w2 E2. apply (preserves_eq _ _ _ _ _ F2) in E2.
    rewrite E1 in E2.
    assert (Hc2 : count_ok (snd (ShowCursor w2))).
    { apply ShowCursor_count_ok.
      - apply (counters_count_ok w); [exact E2 | exact Hc].
      - apply (counters_count_has_room w); [exact E2 | exact Hr]. }
    apply bind_snd_cases; [exact Hc2 |].
    intros [] w3 E3. rewrite E3 in Hc2. simpl in Hc2.
    unfold count_ok in *.
    match goal with
    | |- _ <= show_cursor_count (snd (?m ?w0)) <= _ =>
        assert (F : preserves show_cursor_count m) by frame; rewrite F
    end.
    exact Hc2.
  - (* turn off *)
    assert (F1 : preserves counters (SetOrRestoreCursor env false))
      by (unfold counters; frame).
    assert (F2 : preserves show_cursor_count (RestoreOldCursorPos env))
      by frame.
    assert (Hc1 : forall w1, counters w1 = counters w -> count_ok w1)
      by (intros w1 E; apply (counters_count_ok w); [exact E | exact Hc]).
    apply bind_snd_cases; [apply Hc1, F1 |].
    intros [] w1 E1. apply (preserves_eq _ _ _ _ _ F1), Hc1 in E1.
    assert (Hc2 : forall w2, show_cursor_count w2 = show_cursor_count w1 ->
                             count_ok w2)
      by (unfold count_ok in *; intros w2 ->; exact E1).
    apply bind_snd_cases; [apply Hc2, F2 |].
    intros [] w2 E2. apply (preserves_eq _ _ _ _ _ F2), Hc2 in E2.
    pose proof (HideCursor_count_ok w2 E2) as Hc3.
    apply bind_snd_cases; [exact Hc3 |].
    intros [] w3 E3. rewrite E3 in Hc3. simpl in Hc3.
    unfold count_ok in *.
    match goal with
    | |- _ <= show_cursor_count (snd (?m ?w0)) <= _ =>
        assert (F : preserves show_cursor_count m) by frame; rewrite F
    end.
    exact Hc3.
  - (* already hidden *)
    exact Hc.
Qed.

Lemma SetGuiVisible_count_ok env hid visible old_visible w :
  count_ok w -> count_has_room w ->
  count_ok (snd (SetGuiVisible env hid visible old_visible w)).
Proof.
  intros Hc Hr. rewrite SetGuiVisible_unfold.
  apply SetGuiVisibleForInput_count_ok; assumption.
Qed.

Lemma WindowProcCallback_count_ok env hid hwnd msg wparam lparam handled w :
  count_ok w -> count_has_room w ->
  count_ok
    (snd (WindowProcCallback env hid hwnd msg wparam lparam handled w)).
Proof.
  intros Hc Hr.
  destruct (is_toggle_hotkey msg wparam lparam (AsyncKeyState env VK_SHIFT))
    eqn:Ehot.
  - unfold WindowProcCallback, Win32.GetCurrentThreadId.
    unfold bind at 1. unfold ret at 1.
    assert (F1 : preserves counters
                   (WndProcInputMsg_ctor env hwnd msg wparam lparam
                      (CurrentThreadId env)))
      by (unfold counters; frame).
    apply bind_snd_cases.
    { apply (counters_count_ok w); [apply F1 | exact Hc]. }
    intros entry w1 E1. apply (preserves_eq _ _ _ _ _ F1) in E1.
    unfold queue_push at 1. unfold bind at 1. unfold modify at 1.
    unfold Win32.GetAsyncKeyState. unfold bind at 1. unfold ret at 1.
    rewrite Ehot. unfold ToggleGuiVisible, GetGuiVisible.
    unfold bind at 1. unfold bind at 1. unfold gets at 1.
    unfold bind at 1. unfold HADESMEM_DETAIL_TRACE, modify at 1.
    match goal with
    | |- count_ok (snd (match SetGuiVisible ?e ?h ?v ?o ?w0 with _ => _ end)) =>
        pose proof (SetGuiVisible_count_ok e h v o w0) as Hs;
        destruct (SetGuiVisible e h v o w0) as [[[] | err |] w2]
    end; simpl in *; apply Hs;
      solve [ apply (counters_count_ok w); [| exact Hc]; rewrite <- E1;
              reflexivity
            | apply (counters_count_has_room w); [| exact Hr]; rewrite <- E1;
              reflexivity ].
  - rewrite WindowProcCallback_not_hotkey by exact Ehot.
    unfold count_ok in *.
    match goal with
    | |- _ <= show_cursor_count (snd (?m ?w0)) <= _ =>
        assert (F : preserves show_cursor_count m) by frame; rewrite F
    end.
    exact Hc.
Qed.

Lemma step_count_ok e w :
  count_ok w -> count_has_room w -> hides_while_visible e w = false ->
  count_ok (step e w).
Proof.
  intros Hc Hr Hh.
  destruct e; simpl in *;
    try (unfold count_ok in *;
         match goal with
         | |- _ <= show_cursor_count (snd (?m ?w0)) <= _ =>
             assert (F : preserves show_cursor_count m) by frame; rewrite F
         end; exact Hc);
    try exact Hc.
  - apply SetGuiVisible_count_ok; assumption.
  - apply WindowProcCallback_count_ok; assumption.
  - unfold OnShowCursor, bind, GetGuiVisible, gets, modify, ret.
    unfold count_ok, count_has_room, FALSE in *.
    destruct (gui_visible w); simpl; [| exact Hc].
    rewrite andb_true_r in Hh. rewrite Hh. simpl.
    rewrite wrap_int_id by (unfold INT_MIN, INT_MAX in *; lia). lia.
Qed.

(** C4 (as amended).  From a count that is not negative, no sequence of
    events drives the stored show count below zero as long as the
    show-cursor hook is not asked to hide while the overlay is visible (and
    the count has room in [int]): the turn-on loop and the hook asked to show
    only count up, and the turn-off loop counts down only while the count is
    positive.  The hook asked to hide while the overlay is visible counts
    down by one whatever the count is, and returns the new count. *)
Theorem show_count_not_negative_without_hook_hides events : forall w,
  (count_ok w ->
   never_hides_nor_overflows events w ->
   0 <= show_cursor_count (run events w)) /\
  (gui_visible w = true ->
   OnShowCursor FALSE false 0 w =
   (Ret (true, wrap_int (show_cursor_count w - 1)),
    set_show_cursor_count (wrap_int (show_cursor_count w - 1)) w)).
Proof.
  intros w. split.
  - revert w. unfold run.
    induction events as [| e events IH]; intros w Hc Hn; simpl in *.
    + apply Hc.
    + destruct Hn as (Hh & Hr & Hn).
      apply IH; [| exact Hn]. apply step_count_ok; assumption.
  - intros Hv. unfold OnShowCursor, bind, GetGuiVisible, gets, modify, ret.
    rewrite Hv. reflexivity.
Qed.

Lemma show_count_not_negative_without_hook_hides_witness :
  0 <= show_cursor_count
         (run [Call_SetGuiVisible Sample.env Sample.hid true false;
               Hook_ShowCursor TRUE;
               Call_SetGuiVisible Sample.env Sample.hid false true]
            Sample.host) /\
  OnShowCursor FALSE false 0 Sample.overlay =
  (Ret (true, wrap_int (show_cursor_count Sample.overlay - 1)),
   set_show_cursor_count (wrap_int (show_cursor_count Sample.overlay - 1))
     Sample.overlay).
Proof.
  split.
  - apply (show_count_not_negative_without_hook_hides
             [Call_SetGuiVisible Sample.env Sample.hid true false;
              Hook_ShowCursor TRUE;
              Call_SetGuiVisible Sample.env Sample.hid false true]
             Sample.host).
    + vm_compute. split; discriminate.
    + vm_compute. repeat split; discriminate.
  - apply (show_count_not_negative_without_hook_hides [] Sample.overlay).
    reflexivity.
Defined.

(** C4 as stated fails: after the turn-on the count is 1, and two hide
    requests through the hook leave it at -1. *)
Lemma show_count_goes_negative_counterexample :
  show_cursor_count Sample.host = 0 /\
  show_cursor_count
    (run [Call_SetGuiVisible Sample.env Sample.hid true false;
          Hook_ShowCursor FALSE; Hook_ShowCursor FALSE] Sample.host) = -1 /\
  -1 < 0.
Proof. vm_compute. repeat split. Qed.

(** ** The raw-input snapshot *)

Lemma RestoreRawInputDevices_restores env hid w w' :
  RestoreRawInputDevices env hid w = (Ret tt, w') ->
  os_raw_input_devices w' =
  register_all
    (List.filter (is_recognised_device hid) (old_raw_input_devices w))
    (os_raw_input_devices w).
Proof.
  unfold RestoreRawInputDevices. intros H.
  apply bind_Ret_inv in H as ([] & w1 & H1 & H).
  apply bind_Ret_inv in H as (devices & w2 & H2 & H).
  unfold HADESMEM_DETAIL_TRACE, modify in H1. injection H1 as <-.
  unfold gets in H2. injection H2 as <- <-.
  apply RestoreRawInputDevices_loop_restores in H. exact H.
Qed.

Lemma turn_on_snapshot env hid w w' :
  SetGuiVisibleForInput env hid true false w = (Ret tt, w') ->
  os_raw_input_devices w <> [] ->
  old_raw_input_devices w' = os_raw_input_devices w.
Proof.
  unfold SetGuiVisibleForInput. simpl. intros H Hne.
  apply bind_Ret_inv in H as ([] & w1 & H1 & H).
  apply bind_Ret_inv in H as ([] & w2 & H2 & H).
  apply bind_Ret_inv in H as ([] & w3 & H3 & H).
  apply bind_Ret_inv in H as ([] & w4 & H4 & H).
  apply bind_Ret_inv in H as ([] & w5 & H5 & H).
  assert (E : os_raw_input_devices w5 = os_raw_input_devices w).
  { transitivity (os_raw_input_devices w4); [frame_from H5 |].
    transitivity (os_raw_input_devices w3); [frame_from H4 |].
    transitivity (os_raw_input_devices w2); [frame_from H3 |].
    transitivity (os_raw_input_devices w1); [frame_from H2 | frame_from H1]. }
  rewrite <- E. apply (SetRawInputDevices_snapshot env hid); [exact H |].
  rewrite E. exact Hne.
Qed.

Lemma turn_off_restores_devices env hid w w' :
  SetGuiVisibleForInput env hid false true w = (Ret tt, w') ->
  old_raw_input_devices w' = old_raw_input_devices w /\
  os_raw_input_devices w' =
  register_all
    (List.filter (is_recognised_device hid) (old_raw_input_devices w))
    (os_raw_input_devices w).
Proof.
  intros H. split.
  { assert (F : preserves old_raw_input_devices
                  (SetGuiVisibleForInput env hid false true))
      by (unfold SetGuiVisibleForInput; simpl; frame).
    exact (preserves_eq _ _ _ _ _ F H). }
  unfold SetGuiVisibleForInput in H. simpl in H.
  apply bind_Ret_inv in H as ([] & w1 & H1 & H).
  apply bind_Ret_inv in H as ([] & w2 & H2 & H).
  apply bind_Ret_inv in H as ([] & w3 & H3 & H).
  apply bind_Ret_inv in H as ([] & w4 & H4 & H).
  apply RestoreRawInputDevices_restores in H. rewrite H.
  f_equal; [f_equal |].
  - transitivity (old_raw_input_devices w3); [frame_from H4 |].
    transitivity (old_raw_input_devices w2); [frame_from H3 |].
    transitivity (old_raw_input_devices w1); [frame_from H2 | frame_from H1].
  - transitivity (os_raw_input_devices w3); [frame_from H4 |].
    transitivity (os_raw_input_devices w2); [frame_from H3 |].
    transitivity (os_raw_input_devices w1); [frame_from H2 | frame_from H1].
Qed.

(** C3 (as amended).  A turn-on that finds at least one registered
    raw-input device stores the registered devices as the snapshot, whatever
    snapshot was stored before.  A turn-off registers the mouse and keyboard
    devices of the snapshot again, in order, and keeps the snapshot as it
    is.  Both calls return when the Win32 calls succeed. *)
Theorem raw_input_snapshot_taken_and_kept env hid w :
  transition_succeeds env ->
  device_count_fits w ->
  exists w_on w_off,
    SetGuiVisible env hid true false w = (Ret tt, w_on) /\
    (os_raw_input_devices w <> [] ->
     old_raw_input_devices w_on = os_raw_input_devices w) /\
    SetGuiVisible env hid false true w = (Ret tt, w_off) /\
    old_raw_input_devices w_off = old_raw_input_devices w /\
    os_raw_input_devices w_off =
    register_all
      (List.filter (is_recognised_device hid) (old_raw_input_devices w))
      (os_raw_input_devices w).
Proof.
  intros Hok Hfit.
  destruct (turn_on_returns env hid (set_gui_visible true w) Hok Hfit)
    as [w_on Eon].
  destruct (turn_off_returns env hid (set_gui_visible false w) Hok)
    as [w_off Eoff].
  exists w_on, w_off.
  split; [exact Eon |]. split.
  { intros Hne. apply (turn_on_snapshot env hid _ _ Eon). exact Hne. }
  split; [exact Eoff |].
  apply (turn_off_restores_devices env hid _ _ Eoff).
Qed.

Lemma raw_input_snapshot_taken_and_kept_witness :
  exists w_on w_off,
    SetGuiVisible Sample.env Sample.hid true false Sample.host =
    (Ret tt, w_on) /\
    (os_raw_input_devices Sample.host <> [] ->
     old_raw_input_devices w_on = os_raw_input_devices Sample.host) /\
    SetGuiVisible Sample.env Sample.hid false true Sample.host =
    (Ret tt, w_off) /\
    old_raw_input_devices w_off = old_raw_input_devices Sample.host /\
    os_raw_input_devices w_off =
    register_all
      (List.filter (is_recognised_device Sample.hid)
         (old_raw_input_devices Sample.host))
      (os_raw_input_devices Sample.host).
Proof.
  apply (raw_input_snapshot_taken_and_kept Sample.env Sample.hid
           Sample.host).
  - constructor; simpl; intros; try reflexivity; discriminate.
  - unfold device_count_fits. simpl. lia.
Defined.

(** C3 as stated fails twice.  A turn-on that finds no registered device
    returns with the snapshot of the earlier cycle still stored; and after
    the turn-off the snapshot is still there (and its mouse has been
    registered for a host that had nothing registered). *)
Lemma raw_input_snapshot_stale_counterexample :
  os_raw_input_devices Sample.host_with_stale_snapshot = [] /\
  exists w_on w_off,
    SetGuiVisible Sample.env Sample.hid true false
      Sample.host_with_stale_snapshot = (Ret tt, w_on) /\
    old_raw_input_devices w_on = [Sample.mouse] /\
    SetGuiVisible Sample.env Sample.hid false true w_on = (Ret tt, w_off) /\
    old_raw_input_devices w_off = [Sample.mouse] /\
    old_raw_input_devices w_off <> [] /\
    os_raw_input_devices w_off = [Sample.mouse].
Proof.
  split; [reflexivity |].
  eexists. eexists.
  split; [vm_compute; reflexivity |].
  split; [reflexivity |].
  split; [vm_compute; reflexivity |].
  split; [reflexivity |].
  split; [discriminate | reflexivity].
Qed.

(** ** The raw-input hooks *)

Lemma OnRegisterRawInputDevices_loop_traces r indices : forall w,
  OnRegisterRawInputDevices_loop r indices w =
  (Ret tt,
   set_trace_log (trace_log w ++ flat_map (device_trace r) indices) w).
Proof.
  induction indices as [| i indices IH]; intros w; simpl.
  - rewrite app_nil_r. destruct w. reflexivity.
  - unfold bind at 1. unfold HADESMEM_DETAIL_TRACE at 1. unfold modify at 1.
    unfold device_trace at 1. cbv zeta.
    destruct (Z.land (dwFlags (nth i r RAWINPUTDEVICE_zero)) RIDEV_NOLEGACY
              =? RIDEV_NOLEGACY);
      destruct (Z.land (dwFlags (nth i r RAWINPUTDEVICE_zero)) RIDEV_REMOVE
                =? RIDEV_REMOVE);
      unfold when, bind, HADESMEM_DETAIL_TRACE, modify, ret;
      rewrite IH; simpl; repeat rewrite <- app_assoc; reflexivity.
Qed.

(** C6 (as amended).  While the overlay is visible: the
    get-raw-input-buffer hook reports (UINT)-1 and handled and touches no
    memory; the get-raw-input-data hook, given a data pointer and a size
    pointer that are not null, zeroes the [*size] bytes at [data] and
    reports (UINT)-1 and handled, and with either pointer null reports
    nothing; the register-raw-input-devices hook, given a device array,
    traces every device and reports handled with FALSE, and given a null
    array reports nothing. *)
Theorem raw_input_hooks_while_visible w data size size_header handled retval :
  gui_visible w = true ->
  OnGetRawInputBuffer data size size_header handled retval w =
  (Ret (true, 4294967295),
   set_trace_log (trace_log w ++ [mkTrace "Fix me." []]) w) /\
  (forall raw_input command n,
     data <> nullptr ->
     OnGetRawInputData raw_input command data (Some n) size_header handled
       retval w =
     (Ret (true, 4294967295),
      set_memory
        (fun a => if (data <=? a) && (a <? data + n) then 0 else memory w a)
        w)) /\
  (forall raw_input command,
     data = nullptr \/ size = None ->
     OnGetRawInputData raw_input command data size size_header handled
       retval w = (Ret (handled, retval), w)) /\
  (forall r num_devices bool_retval,
     OnRegisterRawInputDevices (Some r) num_devices size_header handled
       bool_retval w =
     (Ret (true, FALSE),
      set_trace_log
        (trace_log w ++
         flat_map (device_trace r) (seq 0 (Z.to_nat num_devices))) w)) /\
  (forall num_devices bool_retval,
     OnRegisterRawInputDevices None num_devices size_header handled
       bool_retval w = (Ret (handled, bool_retval), w)).
Proof.
  intros Hv. repeat split.
  - unfold OnGetRawInputBuffer, bind, GetGuiVisible, gets. rewrite Hv.
    reflexivity.
  - intros raw_input command n Hd. apply Z.eqb_neq in Hd.
    unfold OnGetRawInputData, bind, GetGuiVisible, gets. rewrite Hv, Hd.
    reflexivity.
  - intros raw_input command [Hd | Hs].
    + subst data. unfold OnGetRawInputData, bind, GetGuiVisible, gets.
      rewrite Hv. destruct size; reflexivity.
    + subst size. reflexivity.
  - intros r num_devices bool_retval.
    unfold OnRegisterRawInputDevices.
    rewrite (bind_Ret _ _ _ _ _ (OnRegisterRawInputDevices_loop_traces _ _ w)).
    unfold bind, GetGuiVisible, gets. simpl. rewrite Hv. reflexivity.
Qed.

Lemma raw_input_hooks_while_visible_witness :
  gui_visible Sample.overlay = true /\
  OnGetRawInputData 0 0 1000 (Some 16) 0 false 0 Sample.overlay =
  (Ret (true, 4294967295),
   set_memory
     (fun a => if (1000 <=? a) && (a <? 1000 + 16) then 0
               else memory Sample.overlay a)
     Sample.overlay) /\
  OnGetRawInputData 0 0 1000 None 0 false 0 Sample.overlay =
  (Ret (false, 0), Sample.overlay).
Proof.
  split; [reflexivity |]. split.
  - apply (raw_input_hooks_while_visible Sample.overlay 1000 (Some 16) 0
             false 0); [reflexivity | discriminate].
  - apply (raw_input_hooks_while_visible Sample.overlay 1000 None 0
             false 0); [reflexivity | right; reflexivity].
Defined.

(** C6 as stated fails: with the overlay visible, the get-raw-input-buffer
    hook leaves the byte at the caller's buffer as it was; the
    get-raw-input-data hook given a null size pointer, and the register hook
    given a null array, do not report the call handled. *)
Lemma raw_input_hooks_counterexample :
  gui_visible Sample.overlay = true /\
  memory Sample.overlay 1000 = 0xCC /\
  memory (snd (OnGetRawInputBuffer 1000 (Some 16) 0 false 0 Sample.overlay))
    1000 = 0xCC /\
  fst (OnGetRawInputData 0 0 1000 None 0 false 0 Sample.overlay) =
  Ret (false, 0) /\
  fst (OnRegisterRawInputDevices None 1 0 false 0 Sample.overlay) =
  Ret (false, 0).
Proof. vm_compute. repeat split. Qed.

(** ** Cross-thread input attachment *)

(** Reduces the fields read off a state built with the setters. *)
Ltac fields :=
  cbn [os_cursor os_cursor_pos os_show_count os_clip_cursor
       os_raw_input_devices os_attached os_open_handles os_next_handle
       memory gui_visible show_cursor_count old_cursor old_cursor_pos
       old_clip_cursor old_raw_input_devices wnd_proc_input_msg_queue
       on_input_queue_entry_callbacks last_attached trace_log
       delivered set_os_cursor set_os_cursor_pos set_os_show_count
       set_os_clip_cursor set_os_raw_input_devices set_os_attached
       set_os_open_handles set_os_next_handle set_memory
       set_gui_visible set_show_cursor_count set_old_cursor
       set_old_cursor_pos set_old_clip_cursor
       set_old_raw_input_devices set_wnd_proc_input_msg_queue
       set_on_input_queue_entry_callbacks set_last_attached
       set_trace_log set_delivered
       fst snd].

Lemma max_1_not_null z : (Z.max 1 z =? nullptr) = false.
Proof. apply Z.eqb_neq. unfold nullptr. lia. Qed.

Lemma thread_statics_insert env (v : Z * Z) w (m : gmap Z (Z * Z)) :
  last_attached w = <[CurrentThreadId env := v]> m ->
  thread_statics env w = v.
Proof.
  intros H. unfold thread_statics. rewrite H, lookup_insert_eq. reflexivity.
Qed.

Lemma LazyAttachThreadInput_reuse env tid w :
  tid = CurrentThreadId env \/ tid = fst (thread_statics env w) ->
  LazyAttachThreadInput env tid w = (Ret tt, w).
Proof.
  intros H.
  unfold LazyAttachThreadInput, bind, Win32.GetCurrentThreadId, ret, gets.
  replace (negb (CurrentThreadId env =? tid) &&
           negb (fst (thread_statics env w) =? tid)) with false;
    [reflexivity |].
  symmetry. apply andb_false_iff.
  destruct H as [-> | ->]; [left | right];
    rewrite Z.eqb_refl; reflexivity.
Qed.

Lemma LazyAttachThreadInput_other_threads env tid w t :
  t <> CurrentThreadId env ->
  last_attached (snd (LazyAttachThreadInput env tid w)) !! t =
  last_attached w !! t.
Proof.
  intros Ht.
  assert (H : preserves (fun w => last_attached w !! t)
                (LazyAttachThreadInput env tid)).
  { assert (Hs : forall v w0,
               <[CurrentThreadId env := v]> (last_attached w0) !! t =
               last_attached w0 !! t)
      by (intros; apply lookup_insert_ne; congruence).
    unfold LazyAttachThreadInput, set_last_attached_tid,
      set_last_attached_thread.
    repeat first
      [ apply preserves_bind; [| intro]
      | apply preserves_ret
      | apply preserves_gets
      | match goal with
        | |- preserves _ (if ?c then _ else _) => destruct c
        end
      | apply preserves_modify; intro; simpl; apply Hs
      | frame_leaf ]. }
  apply H.
Qed.

Lemma LazyAttachThreadInput_switch env tid w :
  tid <> CurrentThreadId env ->
  tid <> fst (thread_statics env w) ->
  attach_succeeds env ->
  exists w',
    LazyAttachThreadInput env tid w = (Ret tt, w') /\
    os_attached w' =
    (if fst (thread_statics env w) =? 0 then os_attached w
     else os_attached w ∖
          {[ (CurrentThreadId env, fst (thread_statics env w)) ]}) ∪
    {[ (CurrentThreadId env, tid) ]} /\
    os_open_handles w' =
    (if (fst (thread_statics env w) =? 0) ||
        (snd (thread_statics env w) =? nullptr)
     then os_open_handles w
     else os_open_handles w ∖ {[ snd (thread_statics env w) ]}) ∪
    {[ Z.max 1 (os_next_handle w) ]} /\
    thread_statics env w' = (tid, Z.max 1 (os_next_handle w)).
Proof.
  intros Hc Hl [Hat Hop].
  unfold LazyAttachThreadInput, bind, Win32.GetCurrentThreadId, ret, gets.
  replace (negb (CurrentThreadId env =? tid) &&
           negb (fst (thread_statics env w) =? tid)) with true
    by (symmetry; apply andb_true_iff; split; apply negb_true_iff,
        Z.eqb_neq; congruence).
  destruct (thread_statics env w) as [last_tid last_thread] eqn:Es.
  cbn [fst snd].
  unfold Win32.AttachThreadInput, Win32.OpenThread, Win32.CloseHandle,
    Win32.GetLastError, set_last_attached_tid, set_last_attached_thread,
    HADESMEM_DETAIL_TRACE, modify, ret.
  rewrite !Hat, !Hop.
  unfold thread_statics in *.
  assert (Hmax : forall z, (Z.max 1 z =? nullptr) = false)
    by apply max_1_not_null.
  destruct (last_tid =? 0) eqn:E0; cbn [negb orb andb];
    [| repeat progress
         (fields; rewrite ?lookup_insert_eq;
          cbn [default from_option id fst snd]; rewrite ?Es);
       destruct (last_thread =? nullptr) eqn:E1; cbn [negb orb andb] ];
    repeat progress
      (fields; rewrite ?lookup_insert_eq, ?Hmax;
       cbn [default from_option id fst snd]; rewrite ?Es);
    (eexists; split; [reflexivity |]);
    repeat progress
      (fields; rewrite ?lookup_insert_eq;
       cbn [default from_option id fst snd]; rewrite ?Es);
    repeat split.
Qed.

(** C9 (as amended).  Called for a target that is the calling thread itself
    or the thread it attached to last, the attacher does nothing: the
    attachment is kept and no new one is made.  Called for any other target,
    it detaches from the thread attached last, if there is one, and closes
    the handle to it, then attaches to the target and opens a handle to it.
    The record of what is attached belongs to the calling thread: the
    records of the other threads are left alone. *)
Theorem lazy_attach_reuses_or_switches env tid w :
  (tid = CurrentThreadId env \/ tid = fst (thread_statics env w) ->
   LazyAttachThreadInput env tid w = (Ret tt, w)) /\
  (tid <> CurrentThreadId env ->
   tid <> fst (thread_statics env w) ->
   attach_succeeds env ->
   exists w',
     LazyAttachThreadInput env tid w = (Ret tt, w') /\
     os_attached w' =
     (if fst (thread_statics env w) =? 0 then os_attached w
      else os_attached w ∖
           {[ (CurrentThreadId env, fst (thread_statics env w)) ]}) ∪
     {[ (CurrentThreadId env, tid) ]} /\
     os_open_handles w' =
     (if (fst (thread_statics env w) =? 0) ||
         (snd (thread_statics env w) =? nullptr)
      then os_open_handles w
      else os_open_handles w ∖ {[ snd (thread_statics env w) ]}) ∪
     {[ Z.max 1 (os_next_handle w) ]} /\
     thread_statics env w' = (tid, Z.max 1 (os_next_handle w))) /\
  (forall t,
     t <> CurrentThreadId env ->
     last_attached (snd (LazyAttachThreadInput env tid w)) !! t =
     last_attached w !! t).
Proof.
  split; [apply LazyAttachThreadInput_reuse |].
  split; [apply LazyAttachThreadInput_switch |].
  intros t. apply LazyAttachThreadInput_other_threads.
Qed.

Lemma lazy_attach_reuses_or_switches_witness :
  LazyAttachThreadInput Sample.env 2 Sample.attached =
  (Ret tt, Sample.attached) /\
  exists w',
    LazyAttachThreadInput Sample.env 3 Sample.attached = (Ret tt, w') /\
    os_attached w' =
    (if fst (thread_statics Sample.env Sample.attached) =? 0
     then os_attached Sample.attached
     else os_attached Sample.attached ∖
          {[ (CurrentThreadId Sample.env,
              fst (thread_statics Sample.env Sample.attached)) ]}) ∪
    {[ (CurrentThreadId Sample.env, 3) ]} /\
    os_open_handles w' =
    (if (fst (thread_statics Sample.env Sample.attached) =? 0) ||
        (snd (thread_statics Sample.env Sample.attached) =? nullptr)
     then os_open_handles Sample.attached
     else os_open_handles Sample.attached ∖
          {[ snd (thread_statics Sample.env Sample.attached) ]}) ∪
    {[ Z.max 1 (os_next_handle Sample.attached) ]} /\
    thread_statics Sample.env w' =
    (3, Z.max 1 (os_next_handle Sample.attached)).
Proof.
  split.
  - apply (lazy_attach_reuses_or_switches Sample.env 2 Sample.attached).
    right. reflexivity.
  - apply (lazy_attach_reuses_or_switches Sample.env 3 Sample.attached).
    + discriminate.
    + discriminate.
    + constructor; reflexivity.
Defined.

(** C9 as stated fails: thread 1 is attached to thread 2; asked for thread
    1, which is not the thread attached last, the attacher neither detaches
    from thread 2 nor attaches to thread 1. *)
Lemma lazy_attach_to_self_counterexample :
  CurrentThreadId Sample.env = 1 /\
  thread_statics Sample.env Sample.attached = (2, 1) /\
  1 <> 2 /\
  LazyAttachThreadInput Sample.env 1 Sample.attached =
  (Ret tt, Sample.attached) /\
  bool_decide ((1, 2) ∈ os_attached Sample.attached) = true /\
  bool_decide ((1, 1) ∈ os_attached Sample.attached) = false /\
  bool_decide (1 ∈ os_open_handles Sample.attached) = true.
Proof.
  split; [reflexivity |]. split; [reflexivity |]. split; [discriminate |].
  split; [apply LazyAttachThreadInput_reuse; left; reflexivity |].
  vm_compute. repeat split.
Qed.

(** ** The drain of the queue *)

Lemma LazyAttachThreadInput_returns env tid w :
  attach_succeeds env ->
  exists w', LazyAttachThreadInput env tid w = (Ret tt, w').
Proof.
  intros Hok.
  destruct (Z.eq_dec tid (CurrentThreadId env)) as [Hc | Hc].
  { exists w. apply LazyAttachThreadInput_reuse. left. exact Hc. }
  destruct (Z.eq_dec tid (fst (thread_statics env w))) as [Hl | Hl].
  { exists w. apply LazyAttachThreadInput_reuse. right. exact Hl. }
  destruct (LazyAttachThreadInput_switch env tid w Hc Hl Hok) as (w' & E & _).
  exists w'. exact E.
Qed.

Lemma LazyAttachThreadInput_queue_state env tid :
  preserves queue_state (LazyAttachThreadInput env tid).
Proof. unfold queue_state. frame. Qed.

(** One round of the loop, once the attachment has been made. *)
Lemma broadcast_and_pop e rest w :
  wnd_proc_input_msg_queue w = e :: rest ->
  exists w',
    (Callbacks_Run (hwnd_ e) (msg_ e) (wparam_ e) (lparam_ e) ;;
     queue_pop) w = (Ret tt, w') /\
    wnd_proc_input_msg_queue w' =
    rest ++ pushes_of (on_input_queue_entry_callbacks w) e /\
    delivered w' =
    delivered w ++ deliveries_of (on_input_queue_entry_callbacks w) e /\
    on_input_queue_entry_callbacks w' = on_input_queue_entry_callbacks w.
Proof.
  intros Hq.
  unfold bind, Callbacks_Run, queue_pop, modify, gets, Win32.CloseHandle.
  cbn [wnd_proc_input_msg_queue set_delivered set_wnd_proc_input_msg_queue
       set_os_open_handles].
  rewrite Hq. simpl. eexists. split; [reflexivity |]. repeat split.
Qed.

Lemma Drains_fifo c queue processed :
  Drains c queue processed ->
  processed = queue ++ flat_map (pushes_of c) processed.
Proof.
  induction 1 as [| e rest processed _ IH]; [reflexivity |].
  simpl. f_equal. rewrite IH at 1. rewrite <- app_assoc. reflexivity.
Qed.

Lemma Drains_no_pushes c queue :
  (forall e, In e queue -> pushes_of c e = []) -> Drains c queue queue.
Proof.
  induction queue as [| e rest IH]; intros H; constructor.
  rewrite (H e) by (left; reflexivity). rewrite app_nil_r.
  apply IH. intros e' He'. apply H. right. exact He'.
Qed.

Lemma HandleInputQueue_loop_completes env c queue processed :
  Drains c queue processed ->
  attach_succeeds env ->
  forall fuel w,
    wnd_proc_input_msg_queue w = queue ->
    on_input_queue_entry_callbacks w = c ->
    (length processed <= fuel)%nat ->
    exists w',
      HandleInputQueue_loop env fuel w = (Ret tt, w') /\
      wnd_proc_input_msg_queue w' = [] /\
      delivered w' = delivered w ++ flat_map (deliveries_of c) processed /\
      on_input_queue_entry_callbacks w' = c.
Proof.
  intros HD Hok.
  induction HD as [| e rest processed HD IH]; intros fuel w Hq Hc Hfuel.
  - exists w. destruct fuel; simpl; unfold bind, gets; rewrite Hq;
      (split; [reflexivity |]); rewrite app_nil_r; auto.
  - destruct fuel as [| fuel]; [simpl in Hfuel; lia |].
    simpl in Hfuel. simpl. unfold bind at 1. unfold gets at 1. rewrite Hq.
    destruct (LazyAttachThreadInput_returns env (tid_ e) w Hok) as [w1 E1].
    rewrite (bind_Ret _ _ _ _ _ E1).
    pose proof (preserves_eq _ _ _ _ _
                  (LazyAttachThreadInput_queue_state env (tid_ e)) E1) as F.
    unfold queue_state in F. injection F as Fq Fd Fc.
    rewrite Hq in Fq.
    destruct (broadcast_and_pop e rest w1 Fq) as (w2 & E2 & Hq2 & Hd2 & Hc2).
    unfold bind at 1 in E2.
    unfold bind at 1.
    destruct (Callbacks_Run (hwnd_ e) (msg_ e) (wparam_ e) (lparam_ e) w1)
      as [[[] | err |] w1'] eqn:ER; try discriminate.
    unfold bind at 1. rewrite E2.
    rewrite Fc, Hc in Hq2, Hd2, Hc2.
    destruct (IH fuel w2 Hq2 Hc2 ltac:(lia)) as (w' & E & Hq' & Hd' & Hc').
    exists w'. split; [exact E |]. split; [exact Hq' |].
    split; [| exact Hc'].
    rewrite Hd', Hd2, Fd. simpl. rewrite <- app_assoc. reflexivity.
Qed.

Lemma HandleInputQueue_loop_accounts env fuel : forall w r w',
  HandleInputQueue_loop env fuel w = (r, w') ->
  exists processed,
    processed ++ wnd_proc_input_msg_queue w' =
    wnd_proc_input_msg_queue w ++
    flat_map (pushes_of (on_input_queue_entry_callbacks w)) processed /\
    delivered w' =
    delivered w ++
    flat_map (deliveries_of (on_input_queue_entry_callbacks w)) processed /\
    on_input_queue_entry_callbacks w' = on_input_queue_entry_callbacks w.
Proof.
  assert (Hnil : forall w w' : World,
            queue_state w' = queue_state w ->
            exists processed,
              processed ++ wnd_proc_input_msg_queue w' =
              wnd_proc_input_msg_queue w ++
              flat_map (pushes_of (on_input_queue_entry_callbacks w))
                processed /\
              delivered w' =
              delivered w ++
              flat_map (deliveries_of (on_input_queue_entry_callbacks w))
                processed /\
              on_input_queue_entry_callbacks w' =
              on_input_queue_entry_callbacks w).
  { unfold queue_state. intros w w' E. injection E as -> -> ->.
    exists []. simpl. rewrite !app_nil_r. repeat split. }
  induction fuel as [| fuel IH]; intros w r w' H; simpl in H;
    unfold bind at 1 in H; unfold gets at 1 in H;
    destruct (wnd_proc_input_msg_queue w) as [| e rest] eqn:Hq;
    try (unfold ret, out_of_fuel in H; injection H as _ <-; rewrite <- Hq;
         apply Hnil; reflexivity).
  pose proof (LazyAttachThreadInput_queue_state env (tid_ e) w) as F.
  unfold bind at 1 in H.
  destruct (LazyAttachThreadInput env (tid_ e) w) as [[[] | err |] w1];
    simpl in F; try (injection H as _ <-; rewrite <- Hq; apply Hnil; exact F).
  unfold queue_state in F; injection F as Fq Fd Fc.
  rewrite Hq in Fq.
  destruct (broadcast_and_pop e rest w1 Fq) as (w2 & E2 & Hq2 & Hd2 & Hc2).
  unfold bind at 1 in E2. unfold bind at 1 in H.
  destruct (Callbacks_Run (hwnd_ e) (msg_ e) (wparam_ e) (lparam_ e) w1)
    as [[[] | err |] w1'] eqn:ER; try discriminate.
  unfold bind at 1 in H. rewrite E2 in H.
  destruct (IH w2 r w' H) as (processed & Hp & Hd & Hc).
  exists (e :: processed).
  rewrite Hc2, Fc in Hp, Hd, Hc. rewrite Fc in Hq2, Hd2.
  split; [| split; [| exact Hc]].
  - simpl. rewrite Hp, Hq2. rewrite <- app_assoc. reflexivity.
  - rewrite Hd, Hd2, Fd. simpl. rewrite <- app_assoc. reflexivity.
Qed.

(** C2.  The drain takes the entries from the front of the queue, in the
    order they arrived, and for each of them calls every subscriber, in
    registration order, with the tuple that was pushed, and then removes
    it.  However the drain ends, the entries gone through followed by the
    entries left in the queue are the entries the queue held followed by the
    entries pushed meanwhile: nothing is lost and nothing is delivered
    twice.  When attaching succeeds and the drain is finite, enough fuel
    makes the call return with the queue empty, the entries pushed during
    the drain included; a drain none of whose subscribers pushes is finite
    and goes through exactly the entries the queue held. *)
Theorem drain_is_fifo_and_complete env fuel w :
  (exists processed,
     processed ++ wnd_proc_input_msg_queue (snd (HandleInputQueue env fuel w)) =
     wnd_proc_input_msg_queue w ++
     flat_map (pushes_of (on_input_queue_entry_callbacks w)) processed /\
     delivered (snd (HandleInputQueue env fuel w)) =
     delivered w ++
     flat_map (deliveries_of (on_input_queue_entry_callbacks w)) processed) /\
  (forall processed,
     attach_succeeds env ->
     Drains (on_input_queue_entry_callbacks w) (wnd_proc_input_msg_queue w)
       processed ->
     (length processed <= fuel)%nat ->
     fst (HandleInputQueue env fuel w) = Ret tt /\
     wnd_proc_input_msg_queue (snd (HandleInputQueue env fuel w)) = [] /\
     delivered (snd (HandleInputQueue env fuel w)) =
     delivered w ++
     flat_map (deliveries_of (on_input_queue_entry_callbacks w)) processed /\
     processed =
     wnd_proc_input_msg_queue w ++
     flat_map (pushes_of (on_input_queue_entry_callbacks w)) processed) /\
  ((forall e, In e (wnd_proc_input_msg_queue w) ->
              pushes_of (on_input_queue_entry_callbacks w) e = []) ->
   Drains (on_input_queue_entry_callbacks w) (wnd_proc_input_msg_queue w)
     (wnd_proc_input_msg_queue w)).
Proof.
  unfold HandleInputQueue. split; [| split].
  - destruct (HandleInputQueue_loop env fuel w) as [r w'] eqn:E.
    destruct (HandleInputQueue_loop_accounts env fuel w r w' E)
      as (processed & Hp & Hd & _).
    exists processed. split; assumption.
  - intros processed Hok HD Hfuel.
    destruct (HandleInputQueue_loop_completes env _ _ _ HD Hok fuel w
                eq_refl eq_refl Hfuel) as (w' & E & Hq & Hd & _).
    rewrite E. simpl. repeat split; try assumption.
    apply Drains_fifo. exact HD.
  - apply Drains_no_pushes.
Qed.

Lemma drain_is_fifo_and_complete_witness :
  fst (HandleInputQueue Sample.env 5 Sample.busy) = Ret tt /\
  wnd_proc_input_msg_queue (snd (HandleInputQueue Sample.env 5 Sample.busy))
  = [] /\
  delivered (snd (HandleInputQueue Sample.env 5 Sample.busy)) =
  delivered Sample.busy ++
  flat_map (deliveries_of (on_input_queue_entry_callbacks Sample.busy))
    [Sample.key_down; Sample.mouse_move; Sample.key_up] /\
  [Sample.key_down; Sample.mouse_move; Sample.key_up] =
  wnd_proc_input_msg_queue Sample.busy ++
  flat_map (pushes_of (on_input_queue_entry_callbacks Sample.busy))
    [Sample.key_down; Sample.mouse_move; Sample.key_up].
Proof.
  apply (drain_is_fifo_and_complete Sample.env 5 Sample.busy).
  - constructor; reflexivity.
  - repeat constructor.
  - simpl. lia.
Defined.

(** The second subscriber hears of the key-up the first one pushed during
    the drain, in the same call, after the two entries that were queued. *)
Example drain_delivers_pushed_entry :
  delivered (snd (HandleInputQueue Sample.env 5 Sample.busy)) =
  [mkDelivery 0 100 WM_KEYDOWN 0x41 0; mkDelivery 1 100 WM_KEYDOWN 0x41 0;
   mkDelivery 0 100 WM_MOUSEFIRST 0 0; mkDelivery 1 100 WM_MOUSEFIRST 0 0;
   mkDelivery 0 100 0x0101 0x41 0; mkDelivery 1 100 0x0101 0x41 0].
Proof. vm_compute. reflexivity. Qed.

(** ** The toggle hotkey *)

Lemma is_toggle_hotkey_true lparam shift :
  Z.testbit lparam 30 = false ->
  Z.testbit shift 15 = true ->
  is_toggle_hotkey WM_KEYDOWN VK_F9 lparam shift = true.
Proof.
  intros Hrepeat Hshift. unfold is_toggle_hotkey.
  rewrite !Z.eqb_refl. cbn [andb]. rewrite andb_true_r.
  apply andb_true_iff. split.
  - apply Z.eqb_eq.
    change 1 with (Z.ones 1). rewrite Z.land_ones by lia.
    change (2 ^ 1) with 2. rewrite <- Z.bit0_mod.
    rewrite Z.shiftr_spec by lia. change (0 + 30) with 30.
    rewrite Hrepeat. reflexivity.
  - apply negb_true_iff, Z.eqb_neq. intros E.
    assert (H : Z.testbit (Z.land shift 32768) 15 = true)
      by (rewrite Z.land_spec, Hshift; reflexivity).
    rewrite E in H. discriminate H.
Qed.

Lemma WndProcInputMsg_ctor_ok env hwnd msg wparam lparam tid w :
  OpenThread_ok env tid = true ->
  WndProcInputMsg_ctor env hwnd msg wparam lparam tid w =
  (Ret (mkWndProcInputMsg hwnd msg wparam lparam tid
          (Z.max 1 (os_next_handle w))),
   set_os_next_handle (Z.max 1 (os_next_handle w) + 1)
     (set_os_open_handles
        (os_open_handles w ∪ {[ Z.max 1 (os_next_handle w) ]}) w)).
Proof.
  intros Hok. unfold WndProcInputMsg_ctor, bind, Win32.OpenThread.
  rewrite Hok, max_1_not_null. reflexivity.
Qed.

Lemma ToggleGuiVisible_returns env hid w :
  transition_succeeds env ->
  device_count_fits w ->
  exists w',
    ToggleGuiVisible env hid w = (Ret tt, w') /\
    gui_visible w' = negb (gui_visible w) /\
    queue_state w' = queue_state w.
Proof.
  intros Hok Hfit.
  unfold ToggleGuiVisible, bind, GetGuiVisible, gets, HADESMEM_DETAIL_TRACE,
    modify.
  rewrite SetGuiVisible_unfold, negb_involutive.
  match goal with
  | |- exists w', SetGuiVisibleForInput _ _ ?v ?o ?w0 = _ /\ _ =>
      assert (R : exists w', SetGuiVisibleForInput env hid v o w0 = (Ret tt, w'))
  end.
  { destruct (gui_visible w); cbn [negb].
    - apply turn_off_returns. exact Hok.
    - apply turn_on_returns; [exact Hok | exact Hfit]. }
  destruct R as [w' E]. exists w'. split; [exact E |]. split.
  - transitivity (negb (gui_visible w)); [| reflexivity].
    match type of E with
    | ?m ?w0 = _ =>
        assert (F : preserves gui_visible m) by frame;
        rewrite (preserves_eq _ _ _ _ _ F E)
    end.
    reflexivity.
  - match type of E with
    | ?m ?w0 = _ =>
        assert (F : preserves queue_state m) by (unfold queue_state; frame);
        rewrite (preserves_eq _ _ _ _ _ F E)
    end.
    reflexivity.
Qed.

Lemma WindowProcCallback_hotkey env hid hwnd lparam handled w :
  Z.testbit lparam 30 = false ->
  Z.testbit (AsyncKeyState env VK_SHIFT) 15 = true ->
  OpenThread_ok env (CurrentThreadId env) = true ->
  transition_succeeds env ->
  device_count_fits w ->
  exists w',
    WindowProcCallback env hid hwnd WM_KEYDOWN VK_F9 lparam handled w =
    (Ret true, w') /\
    gui_visible w' = negb (gui_visible w) /\
    wnd_proc_input_msg_queue w' =
    wnd_proc_input_msg_queue w ++
    [mkWndProcInputMsg hwnd WM_KEYDOWN VK_F9 lparam (CurrentThreadId env)
       (Z.max 1 (os_next_handle w))] /\
    delivered w' = delivered w /\
    on_input_queue_entry_callbacks w' = on_input_queue_entry_callbacks w.
Proof.
  intros Hrepeat Hshift Hopen Hok Hfit.
  unfold WindowProcCallback, Win32.GetCurrentThreadId.
  unfold bind at 1. unfold ret at 1.
  rewrite (bind_Ret _ _ _ _ _
             (WndProcInputMsg_ctor_ok env hwnd WM_KEYDOWN VK_F9 lparam _ w
                Hopen)).
  unfold queue_push at 1. unfold bind at 1. unfold modify at 1.
  unfold Win32.GetAsyncKeyState. unfold bind at 1. unfold ret at 1.
  rewrite (is_toggle_hotkey_true _ _ Hrepeat Hshift).
  match goal with
  | |- exists w', (ToggleGuiVisible _ _ ;; _) ?w0 = _ /\ _ =>
      destruct (ToggleGuiVisible_returns env hid w0 Hok Hfit)
        as (w' & E & Hv & Hq)
  end.
  rewrite (bind_Ret _ _ _ _ _ E). exists w'. split; [reflexivity |].
  unfold queue_state in Hq. injection Hq as Hq Hd Hc.
  repeat split; assumption.
Qed.

(** C5.  A key-down of the designated key that is not an auto-repeat,
    arriving while the modifier is held, toggles the overlay whatever the
    visibility is: the message is one the block-all-input policy would
    block, but the hotkey is looked for first.  The message is queued
    before either test, behind everything that was pending; and the next
    drain calls every subscriber with every entry that was pending when
    the hotkey arrived. *)
Theorem hotkey_toggles_before_blocking env hid hwnd lparam handled w :
  Z.testbit lparam 30 = false ->
  Z.testbit (AsyncKeyState env VK_SHIFT) 15 = true ->
  OpenThread_ok env (CurrentThreadId env) = true ->
  transition_succeeds env ->
  device_count_fits w ->
  is_blocked_msg WM_KEYDOWN = true /\
  exists w',
    WindowProcCallback env hid hwnd WM_KEYDOWN VK_F9 lparam handled w =
    (Ret true, w') /\
    gui_visible w' = negb (gui_visible w) /\
    wnd_proc_input_msg_queue w' =
    wnd_proc_input_msg_queue w ++
    [mkWndProcInputMsg hwnd WM_KEYDOWN VK_F9 lparam (CurrentThreadId env)
       (Z.max 1 (os_next_handle w))] /\
    forall env' fuel processed,
      attach_succeeds env' ->
      Drains (on_input_queue_entry_callbacks w')
        (wnd_proc_input_msg_queue w') processed ->
      (length processed <= fuel)%nat ->
      fst (HandleInputQueue env' fuel w') = Ret tt /\
      forall e d,
        In e (wnd_proc_input_msg_queue w) ->
        In d (deliveries_of (on_input_queue_entry_callbacks w) e) ->
        In d (delivered (snd (HandleInputQueue env' fuel w'))).
Proof.
  intros Hrepeat Hshift Hopen Hok Hfit.
  split; [reflexivity |].
  destruct (WindowProcCallback_hotkey env hid hwnd lparam handled w
              Hrepeat Hshift Hopen Hok Hfit)
    as (w' & E & Hv & Hq & Hd & Hc).
  exists w'. split; [exact E |]. split; [exact Hv |]. split; [exact Hq |].
  intros env' fuel processed Hattach HD Hfuel.
  unfold HandleInputQueue.
  destruct (HandleInputQueue_loop_completes env' _ _ _ HD Hattach fuel w'
              eq_refl eq_refl Hfuel) as (w'' & E' & _ & Hd' & _).
  rewrite E'. split; [reflexivity |].
  intros e d He Hde. simpl. rewrite Hd'.
  apply in_or_app. right. apply in_flat_map. exists e.
  rewrite Hc. split; [| exact Hde].
  rewrite (Drains_fifo _ _ _ HD), Hq.
  apply in_or_app. left. apply in_or_app. left. exact He.
Qed.

Lemma hotkey_toggles_before_blocking_witness :
  is_blocked_msg WM_KEYDOWN = true /\
  exists w',
    WindowProcCallback Sample.env Sample.hid 100 WM_KEYDOWN VK_F9 0 false
      (set_gui_visible true Sample.busy) = (Ret true, w') /\
    gui_visible w' = negb (gui_visible (set_gui_visible true Sample.busy)) /\
    wnd_proc_input_msg_queue w' =
    wnd_proc_input_msg_queue (set_gui_visible true Sample.busy) ++
    [mkWndProcInputMsg 100 WM_KEYDOWN VK_F9 0
       (CurrentThreadId Sample.env)
       (Z.max 1 (os_next_handle (set_gui_visible true Sample.busy)))] /\
    forall env' fuel processed,
      attach_succeeds env' ->
      Drains (on_input_queue_entry_callbacks w')
        (wnd_proc_input_msg_queue w') processed ->
      (length processed <= fuel)%nat ->
      fst (HandleInputQueue env' fuel w') = Ret tt /\
      forall e d,
        In e (wnd_proc_input_msg_queue (set_gui_visible true Sample.busy)) ->
        In d (deliveries_of
                (on_input_queue_entry_callbacks
                   (set_gui_visible true Sample.busy)) e) ->
        In d (delivered (snd (HandleInputQueue env' fuel w'))).
Proof.
  apply (hotkey_toggles_before_blocking Sample.env Sample.hid 100 0 false
           (set_gui_visible true Sample.busy)).
  - reflexivity.
  - reflexivity.
  - reflexivity.
  - constructor; simpl; intros; try reflexivity; discriminate.
  - unfold device_count_fits. simpl. lia.
Defined.

(** The overlay is visible and a key-down is pending when the hotkey
    arrives: the overlay is hidden, and the drain that follows delivers the
    pending key-down (and the hotkey message after it) to both
    subscribers. *)
Example hotkey_then_drain :
  let w := set_gui_visible true Sample.busy in
  let w' := snd (WindowProcCallback Sample.env Sample.hid 100 WM_KEYDOWN
                   VK_F9 0 false w) in
  gui_visible w' = false /\
  firstn 2 (delivered (snd (HandleInputQueue Sample.env 8 w'))) =
  [mkDelivery 0 100 WM_KEYDOWN 0x41 0; mkDelivery 1 100 WM_KEYDOWN 0x41 0] /\
  wnd_proc_input_msg_queue (snd (HandleInputQueue Sample.env 8 w')) = [].
Proof. vm_compute. repeat split. Qed.

(** * Further properties of input.cpp *)

(** ** The cursor loops, exactly *)

Lemma wrap_int_add_l a b : wrap_int (wrap_int a + b) = wrap_int (a + b).
Proof.
  unfold wrap_int. f_equal.
  replace ((a + 2 ^ 31) mod 2 ^ 32 - 2 ^ 31 + b + 2 ^ 31)
    with ((a + 2 ^ 31) mod 2 ^ 32 + b) by lia.
  rewrite Zplus_mod_idemp_l. f_equal. lia.
Qed.

Lemma ShowCursor_loop_exact fuel : forall w,
  - os_show_count w <= Z.of_nat fuel ->
  exists w',
    ShowCursor_loop fuel w = (Ret tt, w') /\
    os_show_count w' = Z.max (os_show_count w + 1) 0 /\
    show_cursor_count w' =
    wrap_int (show_cursor_count w + (os_show_count w' - os_show_count w)).
Proof.
  induction fuel as [| fuel IH]; intros w Hc; simpl;
    unfold bind, HADESMEM_DETAIL_TRACE, modify, Win32.ShowCursor, ret,
      out_of_fuel; simpl;
    destruct (os_show_count w + 1 <? 0) eqn:E; try lia.
  - eexists. split; [reflexivity |]. simpl.
    split; [lia |]. f_equal. lia.
  - destruct (IH (set_os_show_count (os_show_count w + 1)
                    (set_show_cursor_count
                       (wrap_int (show_cursor_count w + 1))
                       (set_trace_log
                          (trace_log w ++ [mkTrace "Showing cursor." []])
                          w)))) as (w' & E' & Ho & Hs).
    { simpl. lia. }
    exists w'. split; [exact E' |]. simpl in Ho, Hs.
    split; [lia |]. rewrite Hs, wrap_int_add_l. f_equal. lia.
  - eexists. split; [reflexivity |]. simpl.
    split; [lia |]. f_equal. lia.
Qed.

Lemma HideCursor_loop_exact fuel : forall w,
  count_ok w ->
  show_cursor_count w <= Z.of_nat fuel ->
  exists w',
    HideCursor_loop fuel w = (Ret tt, w') /\
    show_cursor_count w' = 0 /\
    os_show_count w' = os_show_count w - show_cursor_count w.
Proof.
  unfold count_ok.
  induction fuel as [| fuel IH]; intros w H0 Hc; simpl;
    unfold bind, gets, HADESMEM_DETAIL_TRACE, modify, Win32.ShowCursor, ret,
      out_of_fuel; simpl;
    destruct (show_cursor_count w >? 0) eqn:E; try lia.
  - exists w. repeat split; lia.
  - assert (Hw : wrap_int (show_cursor_count w - 1) = show_cursor_count w - 1)
      by (apply wrap_int_id; unfold INT_MIN, INT_MAX in *; lia).
    destruct (IH (set_os_show_count (os_show_count w - 1)
                    (set_show_cursor_count
                       (wrap_int (show_cursor_count w - 1))
                       (set_trace_log
                          (trace_log w ++ [mkTrace "Hiding cursor." []])
                          w)))) as (w' & E' & Hs & Ho).
    { simpl. rewrite Hw. lia. }
    { simpl. rewrite Hw. lia. }
    exists w'. split; [exact E' |]. simpl in Ho. rewrite Hw in Ho.
    split; [exact Hs | lia].
  - exists w. repeat split; lia.
Qed.

(** X1.  ShowCursor ends with the display counter at zero or above: it calls
    ::ShowCursor(TRUE) once if the cursor was showing and otherwise as often
    as it takes to bring the counter up to zero, and it adds the number of
    calls it made to the stored show count. *)
Theorem ShowCursor_brings_counter_up w :
  exists w',
    ShowCursor w = (Ret tt, w') /\
    os_show_count w' = Z.max (os_show_count w + 1) 0 /\
    0 <= os_show_count w' /\
    show_cursor_count w' =
    wrap_int (show_cursor_count w + (os_show_count w' - os_show_count w)).
Proof.
  unfold ShowCursor, bind, gets.
  destruct (ShowCursor_loop_exact (Z.to_nat (- os_show_count w)) w)
    as (w' & E & Ho & Hs); [lia |].
  exists w'. repeat split; try assumption. lia.
Qed.

(** X2.  HideCursor undoes exactly what the stored show count records: from a
    count that is not negative it calls ::ShowCursor(FALSE) that many times
    and leaves the count at zero; with the count at zero or below it does
    nothing at all, whatever the display counter is. *)
Theorem HideCursor_undoes_the_count w :
  (count_ok w ->
   exists w',
     HideCursor w = (Ret tt, w') /\
     show_cursor_count w' = 0 /\
     os_show_count w' = os_show_count w - show_cursor_count w) /\
  (show_cursor_count w <= 0 -> HideCursor w = (Ret tt, w)).
Proof.
  split.
  - intros Hc. unfold HideCursor, bind, gets.
    apply HideCursor_loop_exact; [exact Hc | unfold count_ok in Hc; lia].
  - intros Hc. unfold HideCursor, bind, gets.
    destruct (Z.to_nat (show_cursor_count w)); simpl;
      unfold bind, gets;
      (replace (show_cursor_count w >? 0) with false
         by (symmetry; rewrite Z.gtb_ltb; apply Z.ltb_ge; lia));
      reflexivity.
Qed.

Lemma HideCursor_undoes_the_count_witness :
  (exists w',
     HideCursor Sample.overlay = (Ret tt, w') /\
     show_cursor_count w' = 0 /\
     os_show_count w' =
     os_show_count Sample.overlay - show_cursor_count Sample.overlay) /\
  HideCursor Sample.host = (Ret tt, Sample.host).
Proof.
  split.
  - apply (HideCursor_undoes_the_count Sample.overlay).
    unfold count_ok, INT_MAX. simpl. lia.
  - apply (HideCursor_undoes_the_count Sample.host). simpl. lia.
Defined.

(** ** What a turn-on and the turn-off after it give back *)

Lemma run_preserved {B : Type} (f : World -> B) (allowed : Event -> bool) :
  (forall e w, allowed e = true -> f (step e w) = f w) ->
  forall events w,
    forallb allowed events = true -> f (run events w) = f w.
Proof.
  intros Hstep. unfold run.
  induction events as [| e events IH]; intros w H; simpl in *.
  - reflexivity.
  - apply andb_true_iff in H as [He H].
    rewrite (IH (step e w) H). apply Hstep. exact He.
Qed.


Lemma leaves_saved_cursor_step e w :
  leaves_saved_cursor e = true -> old_cursor (step e w) = old_cursor w.
Proof.
  destruct e; simpl; intros H; try discriminate;
    try by_frame; try reflexivity.
  - apply eqb_prop in H. subst old_visible.
    unfold SetGuiVisible, SetGuiVisibleForInput. rewrite eqb_reflx. simpl.
    by_frame.
  - apply negb_true_iff in H.
    rewrite WindowProcCallback_not_hotkey by exact H. by_frame.
Qed.







Lemma SetOrRestoreCursor_true_saves env w w' :
  SetOrRestoreCursor env true w = (Ret tt, w') ->
  old_cursor w' = (true, os_cursor w) /\ os_cursor w' = ArrowCursor env.
Proof.
  destruct (Z.eq_dec (ArrowCursor env) nullptr) as [E | E].
  - unfold SetOrRestoreCursor, bind, Win32.LoadCursorW_IDC_ARROW, ret.
    rewrite E. simpl. discriminate.
  - rewrite SetOrRestoreCursor_true by exact E. intros H.
    injection H as <-. split; reflexivity.
Qed.

Lemma turn_on_saved_cursor env hid w w' :
  SetGuiVisibleForInput env hid true false w = (Ret tt, w') ->
  old_cursor w' = (true, os_cursor w) /\ os_cursor w' = ArrowCursor env.
Proof.
  unfold SetGuiVisibleForInput. simpl. intros H.
  apply bind_Ret_inv in H as ([] & w1 & H1 & H).
  apply SetOrRestoreCursor_true_saves in H1 as [Ho Hc].
  split.
  - rewrite <- Ho. frame_from H.
  - rewrite <- Hc. frame_from H.
Qed.

Lemma turn_off_restored_cursor env hid w :
  fst (old_cursor w) = true ->
  os_cursor (snd (SetGuiVisibleForInput env hid false true w)) =
  snd (old_cursor w).
Proof.
  intros H. unfold SetGuiVisibleForInput. simpl.
  erewrite bind_snd;
    [| apply SetOrRestoreCursor_false_saved; exact H | frame].
  reflexivity.
Qed.

(** X4.  A turn-on replaces the host's cursor by the arrow cursor and the
    turn-off after it puts the host's cursor back, whatever cursor is
    current by then.  In between anything may happen that neither switches
    the overlay nor calls the set-cursor hook. *)
Theorem cursor_handle_round_trip env1 env2 hid1 hid2 w0 events :
  transition_succeeds env1 ->
  transition_succeeds env2 ->
  device_count_fits w0 ->
  forallb leaves_saved_cursor events = true ->
  exists w1 w2,
    SetGuiVisible env1 hid1 true false w0 = (Ret tt, w1) /\
    os_cursor w1 = ArrowCursor env1 /\
    SetGuiVisible env2 hid2 false true (run events w1) = (Ret tt, w2) /\
    os_cursor w2 = os_cursor w0.
Proof.
  intros Hok1 Hok2 Hfit Hev.
  destruct (turn_on_returns env1 hid1 (set_gui_visible true w0) Hok1 Hfit)
    as [w1 E1].
  destruct (turn_off_returns env2 hid2
              (set_gui_visible false (run events w1)) Hok2) as [w2 E2].
  exists w1, w2.
  pose proof (turn_on_saved_cursor _ _ _ _ E1) as [Hsaved Harrow].
  simpl in Hsaved.
  split; [exact E1 |]. split; [exact Harrow |]. split; [exact E2 |].
  pose proof (run_preserved old_cursor leaves_saved_cursor
                leaves_saved_cursor_step events w1 Hev) as Hrun.
  pose proof (turn_off_restored_cursor env2 hid2
                (set_gui_visible false (run events w1))) as Hoff.
  rewrite E2 in Hoff. simpl in Hoff.
  rewrite Hoff; rewrite Hrun, Hsaved; reflexivity.
Qed.

Lemma cursor_handle_round_trip_witness :
  exists w1 w2,
    SetGuiVisible Sample.env Sample.hid true false Sample.host =
    (Ret tt, w1) /\
    os_cursor w1 = ArrowCursor Sample.env /\
    SetGuiVisible Sample.env Sample.hid false true
      (run [Os_CursorChanged 55; Hook_SetCursorPos 1 2] w1) = (Ret tt, w2) /\
    os_cursor w2 = os_cursor Sample.host.
Proof.
  apply (cursor_handle_round_trip Sample.env Sample.env Sample.hid
           Sample.hid Sample.host).
  - constructor; simpl; intros; try reflexivity; discriminate.
  - constructor; simpl; intros; try reflexivity; discriminate.
  - unfold device_count_fits. simpl. lia.
  - reflexivity.
Defined.

(** X5.  The turn-off puts the real cursor back where it was at the turn-on,
    wherever it has been moved since.  In between anything may happen that
    is neither a call of the set-cursor-position hook nor another call of
    SetGuiVisible. *)
Theorem cursor_position_round_trip env1 env2 hid1 hid2 w0 events :
  transition_succeeds env1 ->
  transition_succeeds env2 ->
  device_count_fits w0 ->
  forallb leaves_saved_position events = true ->
  exists w1 w2,
    SetGuiVisible env1 hid1 true false w0 = (Ret tt, w1) /\
    SetGuiVisible env2 hid2 false true (run events w1) = (Ret tt, w2) /\
    os_cursor_pos w2 = os_cursor_pos w0 /\
    old_cursor_pos w2 = (false, POINT.zero).
Proof.
  intros Hok1 Hok2 Hfit Hev.
  destruct (turn_on_returns env1 hid1 (set_gui_visible true w0) Hok1 Hfit)
    as [w1 E1].
  destruct (turn_off_returns env2 hid2
              (set_gui_visible false (run events w1)) Hok2) as [w2 E2].
  exists w1, w2. split; [exact E1 |]. split; [exact E2 |].
  apply turn_on_saved_position in E1. simpl in E1.
  destruct (leaves_saved_position_run events w1 Hev) as [Hpos _].
  destruct (turn_off_position_saved env2 hid2
              (set_gui_visible false (run events w1))) as [Hp Hf].
  { simpl. rewrite Hpos, E1. reflexivity. }
  { apply (ok_set_cursor_pos _ Hok2). }
  rewrite E2 in Hp, Hf. simpl in Hp, Hf.
  split; [| exact Hf]. rewrite Hp, Hpos, E1. reflexivity.
Qed.

Lemma cursor_position_round_trip_witness :
  exists w1 w2,
    SetGuiVisible Sample.env Sample.hid true false Sample.host =
    (Ret tt, w1) /\
    SetGuiVisible Sample.env Sample.hid false true
      (run [Os_CursorMoved (POINT.mk 30 30); Hook_ShowCursor TRUE] w1) =
    (Ret tt, w2) /\
    os_cursor_pos w2 = os_cursor_pos Sample.host /\
    old_cursor_pos w2 = (false, POINT.zero).
Proof.
  apply (cursor_position_round_trip Sample.env Sample.env Sample.hid
           Sample.hid Sample.host).
  - constructor; simpl; intros; try reflexivity; discriminate.
  - constructor; simpl; intros; try reflexivity; discriminate.
  - unfold device_count_fits. simpl. lia.
  - reflexivity.
Defined.

(** ** The host's calls while the overlay is visible *)

Lemma leaves_visibility_and_clip_step e w :
  leaves_visibility_and_clip e = true ->
  (old_clip_cursor (step e w), gui_visible (step e w)) =
  (old_clip_cursor w, gui_visible w).
Proof.
  destruct e; simpl; intros H; try discriminate;
    try (f_equal; by_frame); try reflexivity.
  apply negb_true_iff in H.
  rewrite WindowProcCallback_not_hotkey by exact H. f_equal; by_frame.
Qed.

(** X6.  While the overlay is visible, a position the host sets through the
    set-cursor-position hook is recorded without the real cursor moving; the
    get-cursor-position hook serves it from then on; and the turn-off moves
    the real cursor there. *)
Theorem set_cursor_pos_is_virtual_until_turn_off env hid x y handled w
    events :
  gui_visible w = true ->
  forallb leaves_saved_position events = true ->
  OnSetCursorPos x y handled w =
  (Ret true, set_old_cursor_pos (true, POINT.mk x y) w) /\
  (forall point h,
     OnGetCursorPos (Some point) h
       (run events (set_old_cursor_pos (true, POINT.mk x y) w)) =
     (Ret (Some (POINT.mk x y), true),
      run events (set_old_cursor_pos (true, POINT.mk x y) w))) /\
  (SetCursorPos_ok env = true ->
   os_cursor_pos
     (snd (SetGuiVisible env hid false true
             (run events (set_old_cursor_pos (true, POINT.mk x y) w)))) =
   POINT.mk x y).
Proof.
  intros Hv Hev.
  destruct (leaves_saved_position_run events
              (set_old_cursor_pos (true, POINT.mk x y) w) Hev) as [Hpos Hvis].
  simpl in Hpos, Hvis.
  split; [| split].
  - unfold OnSetCursorPos, bind, GetGuiVisible, gets, modify, ret.
    rewrite Hv. reflexivity.
  - intros point h.
    unfold OnGetCursorPos, bind, GetGuiVisible, gets, ret.
    rewrite Hvis, Hv, Hpos. reflexivity.
  - intros Hok. rewrite SetGuiVisible_unfold.
    destruct (turn_off_position_saved env hid
                (set_gui_visible false
                   (run events (set_old_cursor_pos (true, POINT.mk x y) w))))
      as [Hp _].
    + simpl. rewrite Hpos. reflexivity.
    + exact Hok.
    + rewrite Hp. simpl. rewrite Hpos. reflexivity.
Qed.

Lemma set_cursor_pos_is_virtual_until_turn_off_witness :
  OnSetCursorPos 100 200 false Sample.overlay =
  (Ret true, set_old_cursor_pos (true, POINT.mk 100 200) Sample.overlay) /\
  os_cursor_pos
    (snd (SetGuiVisible Sample.env Sample.hid false true
            (run [Os_CursorMoved (POINT.mk 30 30)]
               (set_old_cursor_pos (true, POINT.mk 100 200)
                  Sample.overlay)))) =
  POINT.mk 100 200.
Proof.
  split.
  - apply (set_cursor_pos_is_virtual_until_turn_off Sample.env Sample.hid
             100 200 false Sample.overlay []); reflexivity.
  - apply (set_cursor_pos_is_virtual_until_turn_off Sample.env Sample.hid
             100 200 false Sample.overlay [Os_CursorMoved (POINT.mk 30 30)]);
      reflexivity.
Defined.

(** X7.  While the overlay is visible, a rectangle the host passes to the
    clip-cursor hook is recorded without the real clip rectangle changing;
    the get-clip-cursor hook serves it from then on; and the turn-off makes
    it the real clip rectangle. *)
Theorem clip_cursor_is_virtual_until_turn_off env hid r handled retval w
    events :
  gui_visible w = true ->
  forallb leaves_visibility_and_clip events = true ->
  transition_succeeds env ->
  OnClipCursor (Some r) handled retval w =
  (Ret (true, TRUE), set_old_clip_cursor r w) /\
  (forall rect h rv,
     OnGetClipCursor (Some rect) h rv
       (run events (set_old_clip_cursor r w)) =
     (Ret (Some r, true, TRUE), run events (set_old_clip_cursor r w))) /\
  exists w2,
    SetGuiVisible env hid false true (run events (set_old_clip_cursor r w)) =
    (Ret tt, w2) /\
    os_clip_cursor w2 = r.
Proof.
  intros Hv Hev Hok.
  pose proof (run_preserved
                (fun w => (old_clip_cursor w, gui_visible w))
                leaves_visibility_and_clip leaves_visibility_and_clip_step
                events (set_old_clip_cursor r w) Hev) as Hrun.
  simpl in Hrun. injection Hrun as Hclip Hvis.
  split; [| split].
  - unfold OnClipCursor, bind, GetGuiVisible, gets, modify, ret.
    rewrite Hv. reflexivity.
  - intros rect h rv.
    unfold OnGetClipCursor, bind, GetGuiVisible, gets, ret.
    rewrite Hvis, Hv, Hclip. reflexivity.
  - destruct (turn_off_returns env hid
                (set_gui_visible false
                   (run events (set_old_clip_cursor r w))) Hok) as [w2 E2].
    exists w2. split; [exact E2 |].
    apply turn_off_restored_clip in E2. rewrite E2. simpl. exact Hclip.
Qed.

Lemma clip_cursor_is_virtual_until_turn_off_witness :
  OnClipCursor (Some (RECT.mk 1 2 3 4)) false 0 Sample.overlay =
  (Ret (true, TRUE), set_old_clip_cursor (RECT.mk 1 2 3 4) Sample.overlay) /\
  exists w2,
    SetGuiVisible Sample.env Sample.hid false true
      (run [Os_ClipChanged RECT.zero; Hook_GetClipCursor (Some RECT.zero)]
         (set_old_clip_cursor (RECT.mk 1 2 3 4) Sample.overlay)) =
    (Ret tt, w2) /\
    os_clip_cursor w2 = RECT.mk 1 2 3 4.
Proof.
  assert (Hok : transition_succeeds Sample.env)
    by (constructor; simpl; intros; try reflexivity; discriminate).
  split.
  - apply (clip_cursor_is_virtual_until_turn_off Sample.env Sample.hid
             (RECT.mk 1 2 3 4) false 0 Sample.overlay []);
      [reflexivity | reflexivity | exact Hok].
  - apply (clip_cursor_is_virtual_until_turn_off Sample.env Sample.hid
             (RECT.mk 1 2 3 4) false 0 Sample.overlay
             [Os_ClipChanged RECT.zero; Hook_GetClipCursor (Some RECT.zero)]);
      [reflexivity | reflexivity | exact Hok].
Defined.

(** ** The clip rectangle while the overlay is visible *)

Lemma union_rect_within a b :
  rect_within a (union_rect a b) /\ rect_within b (union_rect a b).
Proof. unfold rect_within, union_rect. simpl. lia. Qed.

Lemma turn_on_clip env hid w w' :
  SetGuiVisibleForInput env hid true false w = (Ret tt, w') ->
  ClipCursor_ok env = true ->
  os_clip_cursor w' =
  (if IsWindow env (CurrentWindow env) then
     match WindowRect env (CurrentWindow env) with
     | Some window_rect => union_rect (os_clip_cursor w) window_rect
     | None => os_clip_cursor w
     end
   else os_clip_cursor w).
Proof.
  intros H Hok. pose proof (turn_on_saved_clip _ _ _ _ H) as Hsaved.
  unfold SetGuiVisibleForInput in H. simpl in H.
  apply bind_Ret_inv in H as ([] & w1 & H1 & H).
  apply bind_Ret_inv in H as ([] & w2 & H2 & H).
  apply bind_Ret_inv in H as ([] & w3 & H3 & H).
  apply bind_Ret_inv in H as ([] & w4 & H4 & H).
  apply bind_Ret_inv in H as ([] & w5 & H5 & H).
  assert (E5 : os_clip_cursor w' = os_clip_cursor w5) by frame_from H.
  assert (E4 : old_clip_cursor w4 = os_clip_cursor w).
  { rewrite <- Hsaved. symmetry.
    transitivity (old_clip_cursor w5); [frame_from H | frame_from H5]. }
  assert (E4' : os_clip_cursor w4 = os_clip_cursor w).
  { transitivity (os_clip_cursor w3); [frame_from H4 |].
    transitivity (os_clip_cursor w2); [frame_from H3 |].
    transitivity (os_clip_cursor w1); [frame_from H2 | frame_from H1]. }
  rewrite E5.
  destruct (IsWindow env (CurrentWindow env)) eqn:Ew.
  - destruct (WindowRect env (CurrentWindow env)) as [wr |] eqn:Er.
    + destruct (SetNewClipCursor_valid env w4 wr Ew Er Hok) as (w5' & E & Hc).
      rewrite E in H5. injection H5 as <-. rewrite Hc, E4. reflexivity.
    + unfold SetNewClipCursor, bind, Win32.GetWindowRect, ret in H5.
      rewrite Ew, Er in H5. simpl in H5. discriminate.
  - rewrite SetNewClipCursor_invalid in H5 by exact Ew.
    injection H5 as <-. exact E4'.
Qed.

(** X8.  After a turn-on with a valid current window the real clip rectangle
    is the smallest rectangle holding both the rectangle that was in force
    and the window, so the cursor can reach all of both; with no valid
    window the clip rectangle is left as it was. *)
Theorem turn_on_widens_clip_to_window env hid w0 :
  transition_succeeds env ->
  device_count_fits w0 ->
  exists w1,
    SetGuiVisible env hid true false w0 = (Ret tt, w1) /\
    (forall window_rect,
       IsWindow env (CurrentWindow env) = true ->
       WindowRect env (CurrentWindow env) = Some window_rect ->
       os_clip_cursor w1 = union_rect (os_clip_cursor w0) window_rect /\
       rect_within (os_clip_cursor w0) (os_clip_cursor w1) /\
       rect_within window_rect (os_clip_cursor w1)) /\
    (IsWindow env (CurrentWindow env) = false ->
     os_clip_cursor w1 = os_clip_cursor w0).
Proof.
  intros Hok Hfit.
  destruct (turn_on_returns env hid (set_gui_visible true w0) Hok Hfit)
    as [w1 E1].
  exists w1. split; [exact E1 |].
  apply turn_on_clip in E1; [| apply (ok_clip_cursor _ Hok)].
  simpl in E1. split.
  - intros wr Ew Er. rewrite Ew, Er in E1. rewrite E1.
    split; [reflexivity |]. apply union_rect_within.
  - intros Ew. rewrite Ew in E1. exact E1.
Qed.

Lemma turn_on_widens_clip_to_window_witness :
  exists w1,
    SetGuiVisible Sample.env Sample.hid true false Sample.host =
    (Ret tt, w1) /\
    (forall window_rect,
       IsWindow Sample.env (CurrentWindow Sample.env) = true ->
       WindowRect Sample.env (CurrentWindow Sample.env) = Some window_rect ->
       os_clip_cursor w1 =
       union_rect (os_clip_cursor Sample.host) window_rect /\
       rect_within (os_clip_cursor Sample.host) (os_clip_cursor w1) /\
       rect_within window_rect (os_clip_cursor w1)) /\
    (IsWindow Sample.env (CurrentWindow Sample.env) = false ->
     os_clip_cursor w1 = os_clip_cursor Sample.host).
Proof.
  apply (turn_on_widens_clip_to_window Sample.env Sample.hid Sample.host).
  - constructor; simpl; intros; try reflexivity; discriminate.
  - unfold device_count_fits. simpl. lia.
Defined.

(** ** When a Win32 call fails *)

(** X9.  A turn-on is abandoned at the first Win32 call that fails, and
    nothing done before is undone.  Without an arrow cursor it throws
    before it has changed anything; when the cursor position cannot be read
    it throws with the arrow cursor already in place of the host's. *)
Theorem failed_turn_on_is_not_rolled_back env hid w :
  (ArrowCursor env = nullptr ->
   SetGuiVisibleForInput env hid true false w =
   (Throw (mkError "LoadCursorW failed." (LastError env)), w)) /\
  (ArrowCursor env <> nullptr ->
   GetCursorPos_ok env = false ->
   SetGuiVisibleForInput env hid true false w =
   (Throw (mkError "GetCursorPos failed." (LastError env)),
    set_old_cursor (true, os_cursor w)
      (set_os_cursor (ArrowCursor env)
         (set_trace_log (trace_log w ++ [mkTrace "Setting arrow cursor." []])
            w)))).
Proof.
  split.
  - intros H. unfold SetGuiVisibleForInput. simpl.
    unfold SetOrRestoreCursor, bind, Win32.LoadCursorW_IDC_ARROW, ret.
    rewrite H. reflexivity.
  - intros Ha Hp. unfold SetGuiVisibleForInput. simpl.
    rewrite (bind_Ret _ _ _ _ _ (SetOrRestoreCursor_true env w Ha)).
    unfold SaveCurrentCursorPos, bind, Win32.GetCursorPos.
    rewrite Hp. reflexivity.
Qed.

Lemma failed_turn_on_is_not_rolled_back_witness :
  SetGuiVisibleForInput (Failing.env_with false true true true true)
    Sample.hid true false Sample.host =
  (Throw (mkError "LoadCursorW failed."
            (LastError (Failing.env_with false true true true true))),
   Sample.host) /\
  os_cursor
    (snd (SetGuiVisibleForInput (Failing.env_with true false true true true)
            Sample.hid true false Sample.host)) = 77.
Proof.
  split.
  - apply (failed_turn_on_is_not_rolled_back
             (Failing.env_with false true true true true) Sample.hid
             Sample.host).
    reflexivity.
  - rewrite (proj2 (failed_turn_on_is_not_rolled_back
                      (Failing.env_with true false true true true)
                      Sample.hid Sample.host));
      [reflexivity | discriminate | reflexivity].
Defined.

(** X10.  When the saved cursor position cannot be put back, the turn-off
    throws right after the cursor handle step: the saved position stays
    flagged, the show count is not counted down and the cursor not hidden,
    the clip rectangle stays widened and the raw-input registrations stay
    with the overlay. *)
Theorem failed_turn_off_keeps_overlay_state env hid w :
  fst (old_cursor_pos w) = true ->
  SetCursorPos_ok env = false ->
  exists w1,
    SetOrRestoreCursor env false w = (Ret tt, w1) /\
    SetGuiVisibleForInput env hid false true w =
    (Throw (mkError "SetCursorPos failed." (LastError env)), w1) /\
    old_cursor_pos w1 = old_cursor_pos w /\
    os_cursor_pos w1 = os_cursor_pos w /\
    counters w1 = counters w /\
    os_clip_cursor w1 = os_clip_cursor w /\
    os_raw_input_devices w1 = os_raw_input_devices w.
Proof.
  intros Hf Hok.
  destruct (SetOrRestoreCursor_false_position env w) as (w1 & E & Hp & Ho).
  exists w1. split; [exact E |]. split.
  - unfold SetGuiVisibleForInput. simpl. rewrite (bind_Ret _ _ _ _ _ E).
    unfold RestoreOldCursorPos, bind, gets, Win32.SetCursorPos.
    rewrite Hp, Hf, Hok. reflexivity.
  - split; [exact Hp |]. split; [exact Ho |].
    split; [frame_from E |]. split; frame_from E.
Qed.

Lemma failed_turn_off_keeps_overlay_state_witness :
  exists w1,
    SetOrRestoreCursor (Failing.env_with true true false true true) false
      Sample.overlay = (Ret tt, w1) /\
    SetGuiVisibleForInput (Failing.env_with true true false true true)
      Sample.hid false true Sample.overlay =
    (Throw (mkError "SetCursorPos failed."
              (LastError (Failing.env_with true true false true true))),
     w1) /\
    old_cursor_pos w1 = old_cursor_pos Sample.overlay /\
    os_cursor_pos w1 = os_cursor_pos Sample.overlay /\
    counters w1 = counters Sample.overlay /\
    os_clip_cursor w1 = os_clip_cursor Sample.overlay /\
    os_raw_input_devices w1 = os_raw_input_devices Sample.overlay.
Proof.
  apply (failed_turn_off_keeps_overlay_state
           (Failing.env_with true true false true true) Sample.hid
           Sample.overlay); reflexivity.
Defined.

(** X11.  The window procedure hook cannot queue a message without a handle
    to the calling thread: when OpenThread fails it throws before the push,
    so nothing is queued and the overlay is not toggled, even for the
    hotkey. *)
Theorem window_proc_throws_without_thread_handle env hid hwnd msg wparam
    lparam handled w :
  OpenThread_ok env (CurrentThreadId env) = false ->
  WindowProcCallback env hid hwnd msg wparam lparam handled w =
  (Throw (mkError "OpenThread failed." (LastError env)), w).
Proof.
  intros H.
  unfold WindowProcCallback, bind, Win32.GetCurrentThreadId, ret,
    WndProcInputMsg_ctor, Win32.OpenThread.
  rewrite H. reflexivity.
Qed.

Lemma window_proc_throws_without_thread_handle_witness :
  WindowProcCallback (Failing.env_with true true true true false) Sample.hid
    100 WM_KEYDOWN VK_F9 0 false Sample.overlay =
  (Throw (mkError "OpenThread failed."
            (LastError (Failing.env_with true true true true false))),
   Sample.overlay).
Proof.
  apply (window_proc_throws_without_thread_handle
           (Failing.env_with true true true true false) Sample.hid 100
           WM_KEYDOWN VK_F9 0 false Sample.overlay).
  reflexivity.
Defined.

(** ** The window procedure hook on ordinary messages *)

(** X12.  A message that is not the hotkey is queued behind what is pending
    and changes nothing else; it is reported handled exactly when the
    overlay is visible and the message is raw input, a keyboard message or
    a mouse message, and otherwise [handled] is left as it came. *)
Theorem window_proc_blocks_input_while_visible env hid hwnd msg wparam lparam
    handled w :
  is_toggle_hotkey msg wparam lparam (AsyncKeyState env VK_SHIFT) = false ->
  OpenThread_ok env (CurrentThreadId env) = true ->
  WindowProcCallback env hid hwnd msg wparam lparam handled w =
  (Ret (if gui_visible w && is_blocked_msg msg then true else handled),
   set_wnd_proc_input_msg_queue
     (wnd_proc_input_msg_queue w ++
      [mkWndProcInputMsg hwnd msg wparam lparam (CurrentThreadId env)
         (Z.max 1 (os_next_handle w))])
     (set_os_next_handle (Z.max 1 (os_next_handle w) + 1)
        (set_os_open_handles
           (os_open_handles w ∪ {[ Z.max 1 (os_next_handle w) ]}) w))).
Proof.
  intros Hhot Hopen.
  rewrite WindowProcCallback_not_hotkey by exact Hhot.
  rewrite (bind_Ret _ _ _ _ _
             (WndProcInputMsg_ctor_ok env hwnd msg wparam lparam _ w Hopen)).
  unfold bind, queue_push, modify, GetGuiVisible, gets, ret. simpl.
  destruct (gui_visible w && is_blocked_msg msg); reflexivity.
Qed.

Lemma window_proc_blocks_input_while_visible_witness :
  fst (WindowProcCallback Sample.env Sample.hid 100 WM_MOUSEFIRST 0 0 false
         Sample.overlay) = Ret true /\
  fst (WindowProcCallback Sample.env Sample.hid 100 WM_MOUSEFIRST 0 0 false
         Sample.host) = Ret false.
Proof.
  split.
  - rewrite (window_proc_blocks_input_while_visible Sample.env Sample.hid 100
               WM_MOUSEFIRST 0 0 false Sample.overlay); reflexivity.
  - rewrite (window_proc_blocks_input_while_visible Sample.env Sample.hid 100
               WM_MOUSEFIRST 0 0 false Sample.host); reflexivity.
Defined.

Lemma land_bit15 shift :
  (Z.land shift 32768 =? 0) = negb (Z.testbit shift 15).
Proof.
  destruct (Z.testbit shift 15) eqn:E; simpl.
  - apply Z.eqb_neq. intros H.
    assert (Hb : Z.testbit (Z.land shift 32768) 15 = true)
      by (rewrite Z.land_spec, E; reflexivity).
    rewrite H in Hb. discriminate Hb.
  - apply Z.eqb_eq. apply Z.bits_inj'. intros n Hn.
    rewrite Z.land_spec, Z.bits_0.
    change 32768 with (2 ^ 15). rewrite Z.pow2_bits_eqb by lia.
    destruct (Z.eqb_spec 15 n) as [<- | Hne].
    + rewrite E. reflexivity.
    + apply andb_false_r.
Qed.

Lemma land_shiftr_bit30 lparam :
  (Z.land (Z.shiftr lparam 30) 1 =? 0) = negb (Z.testbit lparam 30).
Proof.
  change 1 with (Z.ones 1). rewrite Z.land_ones by lia.
  change (2 ^ 1) with 2. rewrite <- Z.bit0_mod.
  rewrite Z.shiftr_spec by lia. change (0 + 30) with 30.
  destruct (Z.testbit lparam 30); reflexivity.
Qed.

(** X13.  The hotkey is recognised exactly for a WM_KEYDOWN of VK_F9 whose
    previous-key-state bit (bit 30 of lparam) is clear, arriving while bit
    15 of the shift key state is set: a key held down toggles the overlay
    once, not once per repeat. *)
Theorem toggle_hotkey_is_first_key_down msg wparam lparam shift :
  is_toggle_hotkey msg wparam lparam shift = true <->
  msg = WM_KEYDOWN /\ wparam = VK_F9 /\
  Z.testbit lparam 30 = false /\ Z.testbit shift 15 = true.
Proof.
  unfold is_toggle_hotkey.
  change 0x8000 with 32768.
  rewrite land_bit15, land_shiftr_bit30, negb_involutive.
  rewrite !andb_true_iff, !Z.eqb_eq, negb_true_iff. tauto.
Qed.

(** ** Attachment that fails *)

(** X14.  When the attacher cannot detach from the thread attached last, it
    throws with nothing changed.  When, for a thread that has nothing
    attached, attaching to the target fails, it throws with nothing but the
    trace changed.  When attaching works but the target cannot be opened, it
    throws with the target recorded as attached and the handle record as it
    was, so that the next call for the same target finds it attached and
    does nothing. *)
Theorem lazy_attach_failures env tid w :
  tid <> CurrentThreadId env ->
  tid <> fst (thread_statics env w) ->
  (fst (thread_statics env w) <> 0 ->
   AttachThreadInput_ok env (CurrentThreadId env)
     (fst (thread_statics env w)) false = false ->
   LazyAttachThreadInput env tid w =
   (Throw (mkError "AttachThreadInput failed." (LastError env)), w)) /\
  (fst (thread_statics env w) = 0 ->
   AttachThreadInput_ok env (CurrentThreadId env) tid true = false ->
   LazyAttachThreadInput env tid w =
   (Throw (mkError "AttachThreadInput failed." (LastError env)),
    set_trace_log
      (trace_log w ++ [mkTrace "Attaching thread input. TID: [%u]." [tid]])
      w)) /\
  (fst (thread_statics env w) = 0 ->
   AttachThreadInput_ok env (CurrentThreadId env) tid true = true ->
   OpenThread_ok env tid = false ->
   exists w',
     LazyAttachThreadInput env tid w =
     (Throw (mkError "OpenThread failed." (LastError env)), w') /\
     thread_statics env w' = (tid, snd (thread_statics env w)) /\
     os_attached w' = os_attached w ∪ {[ (CurrentThreadId env, tid) ]} /\
     LazyAttachThreadInput env tid w' = (Ret tt, w')).
Proof.
  intros Hc Hl.
  assert (Hgo : negb (CurrentThreadId env =? tid) &&
                negb (fst (thread_statics env w) =? tid) = true)
    by (apply andb_true_iff; split; apply negb_true_iff, Z.eqb_neq;
        congruence).
  split; [| split].
  - intros H0 Hfail. apply Z.eqb_neq in H0.
    unfold LazyAttachThreadInput, bind, Win32.GetCurrentThreadId, ret, gets.
    rewrite Hgo, H0. cbn [negb].
    unfold Win32.AttachThreadInput. rewrite Hfail. reflexivity.
  - intros H0 Hfail.
    unfold LazyAttachThreadInput, bind, Win32.GetCurrentThreadId, ret, gets.
    rewrite Hgo, H0. cbn [negb Z.eqb].
    unfold HADESMEM_DETAIL_TRACE, modify, Win32.AttachThreadInput.
    rewrite Hfail. reflexivity.
  - intros H0 Hattach Hopen.
    assert (E : exists w',
               LazyAttachThreadInput env tid w =
               (Throw (mkError "OpenThread failed." (LastError env)), w') /\
               thread_statics env w' = (tid, snd (thread_statics env w)) /\
               os_attached w' =
               os_attached w ∪ {[ (CurrentThreadId env, tid) ]}).
    { unfold LazyAttachThreadInput, bind, Win32.GetCurrentThreadId, ret, gets.
      rewrite Hgo, H0. cbn [negb Z.eqb].
      unfold HADESMEM_DETAIL_TRACE, modify, Win32.AttachThreadInput,
        set_last_attached_tid, Win32.OpenThread, modify.
      rewrite Hattach, Hopen. cbn [Z.eqb nullptr].
      eexists. split; [reflexivity |]. split; [| reflexivity].
      unfold thread_statics. fields. rewrite lookup_insert_eq.
      reflexivity. }
    destruct E as (w' & E & Hs & Ha). exists w'.
    split; [exact E |]. split; [exact Hs |]. split; [exact Ha |].
    apply LazyAttachThreadInput_reuse. right. rewrite Hs. reflexivity.
Qed.

Lemma lazy_attach_failures_witness :
  LazyAttachThreadInput (Failing.env_with true true true false true) 3
    Sample.attached =
  (Throw (mkError "AttachThreadInput failed."
            (LastError (Failing.env_with true true true false true))),
   Sample.attached) /\
  fst (LazyAttachThreadInput (Failing.env_with true true true false true) 3
         Sample.host) =
  Throw (mkError "AttachThreadInput failed."
           (LastError (Failing.env_with true true true false true))) /\
  exists w',
    LazyAttachThreadInput (Failing.env_with true true true true false) 3
      Sample.host =
    (Throw (mkError "OpenThread failed."
              (LastError (Failing.env_with true true true true false))), w') /\
    thread_statics (Failing.env_with true true true true false) w' =
    (3, snd (thread_statics (Failing.env_with true true true true false)
               Sample.host)) /\
    os_attached w' =
    os_attached Sample.host ∪
    {[ (CurrentThreadId (Failing.env_with true true true true false), 3) ]} /\
    LazyAttachThreadInput (Failing.env_with true true true true false) 3 w' =
    (Ret tt, w').
Proof.
  split; [| split].
  - apply (lazy_attach_failures (Failing.env_with true true true false true)
             3 Sample.attached); try discriminate; reflexivity.
  - rewrite (proj1 (proj2 (lazy_attach_failures
                             (Failing.env_with true true true false true)
                             3 Sample.host ltac:(discriminate)
                             ltac:(discriminate))));
      reflexivity.
  - apply (lazy_attach_failures (Failing.env_with true true true true false)
             3 Sample.host); try discriminate; reflexivity.
Defined.

(** X15.  When attaching to the thread of the front entry throws, the drain
    throws the same error at once: no subscriber is called for that entry
    and the queue still holds it and every entry behind it. *)
Theorem drain_stops_at_failed_attach env fuel e rest w err w1 :
  wnd_proc_input_msg_queue w = e :: rest ->
  LazyAttachThreadInput env (tid_ e) w = (Throw err, w1) ->
  HandleInputQueue env (S fuel) w = (Throw err, w1) /\
  wnd_proc_input_msg_queue w1 = e :: rest /\
  delivered w1 = delivered w.
Proof.
  intros Hq Hfail.
  pose proof (preserves_eq _ _ _ _ _
                (LazyAttachThreadInput_queue_state env (tid_ e)) Hfail) as F.
  unfold queue_state in F. injection F as Fq Fd _.
  split; [| split; [congruence | exact Fd]].
  unfold HandleInputQueue. simpl. unfold bind at 1. unfold gets at 1.
  rewrite Hq. unfold bind at 1. rewrite Hfail. reflexivity.
Qed.

Lemma drain_stops_at_failed_attach_witness :
  HandleInputQueue (Failing.env_with true true true false true) 3
    Sample.busy =
  (Throw (mkError "AttachThreadInput failed."
            (LastError (Failing.env_with true true true false true))),
   set_trace_log [mkTrace "Attaching thread input. TID: [%u]." [2]]
     Sample.busy) /\
  wnd_proc_input_msg_queue
    (set_trace_log [mkTrace "Attaching thread input. TID: [%u]." [2]]
       Sample.busy) = [Sample.key_down; Sample.mouse_move] /\
  delivered
    (set_trace_log [mkTrace "Attaching thread input. TID: [%u]." [2]]
       Sample.busy) = delivered Sample.busy.
Proof.
  apply (drain_stops_at_failed_attach
           (Failing.env_with true true true false true) 2 Sample.key_down
           [Sample.mouse_move] Sample.busy).
  - reflexivity.
  - vm_compute. reflexivity.
Defined.

(** ** Raw input, redirected and restored *)

Lemma SetRawInputDevices_registers env hid w w' :
  SetRawInputDevices env hid w = (Ret tt, w') ->
  os_raw_input_devices w' = redirected env hid (os_raw_input_devices w).
Proof.
  destruct (os_raw_input_devices w) as [| d0 l0] eqn:El.
  { rewrite SetRawInputDevices_none by exact El. intros H.
    injection H as <-. simpl. rewrite El. reflexivity. }
  rewrite <- El.
  unfold SetRawInputDevices. intros H.
  apply bind_Ret_inv in H as ([] & w1 & H1 & H).
  apply bind_Ret_inv in H as (n & w2 & H2 & H).
  unfold HADESMEM_DETAIL_TRACE, modify in H1. injection H1 as <-.
  unfold Win32.GetRegisteredRawInputDevices_count, gets in H2. simpl in H2.
  injection H2 as <- <-.
  destruct (Z.of_nat (length (os_raw_input_devices w)) =? 0) eqn:E.
  { apply Z.eqb_eq in E. rewrite El in E. simpl in E. lia. }
  cbv zeta in H.
  apply bind_Ret_inv in H as (r & w3 & H3 & H).
  unfold Win32.GetRegisteredRawInputDevices in H3. simpl in H3.
  destruct (GetRegisteredRawInputDevices_ok env).
  2:{ injection H3 as <- <-. simpl in H. discriminate. }
  injection H3 as <- <-. cbn [fst snd] in H.
  destruct (Z.of_nat (length (os_raw_input_devices w)) =? to_UINT (-1));
    [apply bind_Ret_inv in H as (? & ? & _ & H); discriminate |].
  rewrite snapshot_buffer in H.
  apply bind_Ret_inv in H as ([] & w4 & H4 & H).
  unfold modify in H4. injection H4 as <-.
  unfold redirected.
  destruct (DoesRawInputDeviceHaveMouseOrKeyboardDevice hid
              (os_raw_input_devices w)) as [hm hk].
  cbn [fst snd] in *. unfold overlay_mouse, overlay_keyboard.
  destruct hm, hk; cbn [negb andb when] in H.
  - apply bind_Ret_inv in H as ([] & w5 & H5 & H).
    apply bind_Ret_inv in H5 as ([] & w6 & H6 & H5).
    apply bind_Ret_inv in H as ([] & w7 & H7 & H).
    unfold HADESMEM_DETAIL_TRACE, modify in H6, H7.
    injection H6 as <-. injection H7 as <-.
    apply RegisterRawInputDevicesWrapper_registers in H5 as [H5 _].
    apply RegisterRawInputDevicesWrapper_registers in H as [H _].
    rewrite H. simpl. rewrite H5. reflexivity.
  - apply bind_Ret_inv in H as ([] & w5 & H5 & H).
    apply bind_Ret_inv in H5 as ([] & w6 & H6 & H5).
    unfold HADESMEM_DETAIL_TRACE, modify in H6. injection H6 as <-.
    apply RegisterRawInputDevicesWrapper_registers in H5 as [H5 _].
    unfold ret in H. injection H as <-. rewrite H5. reflexivity.
  - apply bind_Ret_inv in H as ([] & w5 & H5 & H).
    unfold ret in H5. injection H5 as <-.
    apply bind_Ret_inv in H as ([] & w7 & H7 & H).
    unfold HADESMEM_DETAIL_TRACE, modify in H7. injection H7 as <-.
    apply RegisterRawInputDevicesWrapper_registers in H as [H _].
    rewrite H. reflexivity.
  - unfold HADESMEM_DETAIL_TRACE, modify in H. injection H as <-.
    reflexivity.
Qed.

Lemma In_register d x registered :
  Z.land (dwFlags d) RIDEV_REMOVE <> RIDEV_REMOVE ->
  In x (Win32.register d registered) <->
  (In x registered /\ Win32.same_usage x d = false) \/ x = d.
Proof.
  intros Hf. apply Z.eqb_neq in Hf. unfold Win32.register. rewrite Hf.
  rewrite in_app_iff, filter_In, negb_true_iff. simpl.
  split; intros [H | H]; auto.
  - destruct H as [H | []]. right. symmetry. exact H.
Qed.

Lemma found_find_false {A : Type} (p : A -> bool) l x :
  found (find p l) = false -> In x l -> p x = false.
Proof.
  intros H Hin. destruct (find p l) eqn:E; [discriminate |].
  apply (find_none p l E x Hin).
Qed.

(** X16.  When SetRawInputDevices returns, every mouse or keyboard
    registration there is names the overlay's window, with no flags: a
    registered mouse has been replaced by the overlay's mouse and a
    registered keyboard by the overlay's keyboard.  Devices of other kinds
    stay registered as they were, and nothing else is registered. *)
Theorem raw_input_redirected_to_overlay env hid w :
  transition_succeeds env ->
  device_count_fits w ->
  exists w',
    SetRawInputDevices env hid w = (Ret tt, w') /\
    (forall d, In d (os_raw_input_devices w') ->
               is_recognised_device hid d = true ->
               d = overlay_mouse env hid \/ d = overlay_keyboard env hid) /\
    (forall d, is_recognised_device hid d = false ->
               In d (os_raw_input_devices w') <->
               In d (os_raw_input_devices w)) /\
    (found (find (is_mouse_device hid) (os_raw_input_devices w)) = true ->
     In (overlay_mouse env hid) (os_raw_input_devices w')) /\
    (found (find (is_keyboard_device hid) (os_raw_input_devices w)) = true ->
     In (overlay_keyboard env hid) (os_raw_input_devices w')).
Proof.
  intros Hok Hfit.
  destruct (SetRawInputDevices_returns env hid w Hok Hfit) as [w' E].
  exists w'. split; [exact E |].
  rewrite (SetRawInputDevices_registers _ _ _ _ E).
  set (l := os_raw_input_devices w).
  assert (Hm : forall x registered,
             In x (Win32.register (overlay_mouse env hid) registered) <->
             (In x registered /\ is_mouse_device hid x = false) \/
             x = overlay_mouse env hid)
    by (intros; apply In_register; discriminate).
  assert (Hk : forall x registered,
             In x (Win32.register (overlay_keyboard env hid) registered) <->
             (In x registered /\ is_keyboard_device hid x = false) \/
             x = overlay_keyboard env hid)
    by (intros; apply In_register; discriminate).
  assert (Hsame : is_keyboard_device hid (overlay_mouse env hid) = true ->
                  overlay_mouse env hid = overlay_keyboard env hid).
  { unfold is_keyboard_device, overlay_mouse, overlay_keyboard. simpl.
    rewrite andb_true_iff, !Z.eqb_eq. intros [_ ->]. reflexivity. }
  assert (Hom : is_mouse_device hid (overlay_mouse env hid) = true)
    by (unfold is_mouse_device, overlay_mouse; simpl;
        rewrite !Z.eqb_refl; reflexivity).
  assert (Hokb : is_keyboard_device hid (overlay_keyboard env hid) = true)
    by (unfold is_keyboard_device, overlay_keyboard; simpl;
        rewrite !Z.eqb_refl; reflexivity).
  unfold redirected, DoesRawInputDeviceHaveMouseOrKeyboardDevice,
    is_recognised_device.
  cbn [fst snd].
  destruct (found (find (is_mouse_device hid) l)) eqn:Em;
    destruct (found (find (is_keyboard_device hid) l)) eqn:Ek;
    (split; [| split; [| split]]).
  all: try (intros d Hin Hrec; apply orb_true_iff in Hrec).
  all: try (intros d Hrec; apply orb_false_iff in Hrec as [Hrm Hrk]).
  all: try (intros Hf; try discriminate Hf).
  all: rewrite ?Hk, ?Hm in *.
  all: try pose proof (found_find_false _ _ d Em) as Hnm.
  all: try pose proof (found_find_false _ _ d Ek) as Hnk.
  all: try solve
         [destruct (is_keyboard_device hid (overlay_mouse env hid)) eqn:Ex;
          [right; apply Hsame; reflexivity
          | left; split; [right; reflexivity | reflexivity]]].
  all: try solve [right; reflexivity].
  all: try solve [split; intros; intuition (subst; congruence)].
  all: intuition (subst; congruence).
Qed.

Lemma raw_input_redirected_to_overlay_witness :
  exists w',
    SetRawInputDevices Sample.env Sample.hid Sample.host = (Ret tt, w') /\
    (forall d, In d (os_raw_input_devices w') ->
               is_recognised_device Sample.hid d = true ->
               d = overlay_mouse Sample.env Sample.hid \/
               d = overlay_keyboard Sample.env Sample.hid) /\
    (forall d, is_recognised_device Sample.hid d = false ->
               In d (os_raw_input_devices w') <->
               In d (os_raw_input_devices Sample.host)) /\
    (found (find (is_mouse_device Sample.hid)
              (os_raw_input_devices Sample.host)) = true ->
     In (overlay_mouse Sample.env Sample.hid) (os_raw_input_devices w')) /\
    (found (find (is_keyboard_device Sample.hid)
              (os_raw_input_devices Sample.host)) = true ->
     In (overlay_keyboard Sample.env Sample.hid) (os_raw_input_devices w')).
Proof.
  apply (raw_input_redirected_to_overlay Sample.env Sample.hid Sample.host).
  - constructor; simpl; intros; try reflexivity; discriminate.
  - unfold device_count_fits. simpl. lia.
Defined.

(** ** Restoring the raw-input registrations *)

Lemma RestoreRawInputDevices_loop_step env hid x rest w :
  (is_recognised_device hid x = true ->
   RegisterRawInputDevices_ok env x = true) ->
  exists w1,
    RestoreRawInputDevices_loop env hid (x :: rest) w =
    RestoreRawInputDevices_loop env hid rest w1 /\
    os_raw_input_devices w1 =
    register_all (List.filter (is_recognised_device hid) [x])
      (os_raw_input_devices w) /\
    old_raw_input_devices w1 = old_raw_input_devices w.
Proof.
  unfold is_recognised_device, register_all. intros Hok. simpl.
  unfold bind at 1. unfold LogRawInputDevice, HADESMEM_DETAIL_TRACE, modify.
  unfold bind at 1.
  destruct (is_mouse_device hid x);
    [| destruct (is_keyboard_device hid x)]; simpl in *;
    unfold bind, HADESMEM_DETAIL_TRACE, modify;
    rewrite ?RegisterRawInputDevicesWrapper_ok by (apply Hok; reflexivity);
    eexists; (split; [reflexivity |]); split; reflexivity.
Qed.

Lemma register_all_app ds1 ds2 registered :
  register_all (ds1 ++ ds2) registered =
  register_all ds2 (register_all ds1 registered).
Proof. unfold register_all. apply fold_left_app. Qed.

Lemma RestoreRawInputDevices_loop_fails env hid d after before : forall w,
  (forall x, In x before -> is_recognised_device hid x = true ->
             RegisterRawInputDevices_ok env x = true) ->
  is_recognised_device hid d = true ->
  RegisterRawInputDevices_ok env d = false ->
  exists w',
    RestoreRawInputDevices_loop env hid (before ++ d :: after) w =
    (Throw (mkError "RegisterRawInputDevices failed." (LastError env)), w') /\
    os_raw_input_devices w' =
    register_all (List.filter (is_recognised_device hid) before)
      (os_raw_input_devices w) /\
    old_raw_input_devices w' = old_raw_input_devices w.
Proof.
  induction before as [| x before IH]; intros w Hbefore Hrec Hfail.
  - simpl. unfold bind at 1.
    unfold LogRawInputDevice, HADESMEM_DETAIL_TRACE, modify.
    unfold bind at 1. unfold is_recognised_device in Hrec.
    destruct (is_mouse_device hid d);
      [| destruct (is_keyboard_device hid d); [| discriminate]];
      unfold bind, HADESMEM_DETAIL_TRACE, modify,
        RegisterRawInputDevicesWrapper, Win32.RegisterRawInputDevices, bind,
        Win32.GetLastError, ret, HADESMEM_DETAIL_THROW_EXCEPTION, throw;
      rewrite Hfail; simpl; eexists; (split; [reflexivity |]);
      split; reflexivity.
  - destruct (RestoreRawInputDevices_loop_step env hid x
                (before ++ d :: after) w) as (w1 & E & Ho & Hold).
    { apply Hbefore. left. reflexivity. }
    change ((x :: before) ++ d :: after) with (x :: before ++ d :: after).
    rewrite E.
    destruct (IH w1) as (w' & E' & Ho' & Hold'); try assumption.
    { intros y Hy. apply Hbefore. right. exact Hy. }
    exists w'. split; [exact E' |]. split; [| congruence].
    rewrite Ho', Ho.
    change (x :: before) with ([x] ++ before).
    rewrite List.filter_app, register_all_app. reflexivity.
Qed.

Lemma RestoreRawInputDevices_loop_succeeds env hid devices : forall w,
  (forall x, In x devices -> is_recognised_device hid x = true ->
             RegisterRawInputDevices_ok env x = true) ->
  exists w',
    RestoreRawInputDevices_loop env hid devices w = (Ret tt, w') /\
    os_raw_input_devices w' =
    register_all (List.filter (is_recognised_device hid) devices)
      (os_raw_input_devices w).
Proof.
  induction devices as [| x devices IH]; intros w Hok.
  - exists w. split; reflexivity.
  - destruct (RestoreRawInputDevices_loop_step env hid x devices w)
      as (w1 & E & Ho & _).
    { apply Hok. left. reflexivity. }
    rewrite E.
    destruct (IH w1) as (w' & E' & Ho').
    { intros y Hy. apply Hok. right. exact Hy. }
    exists w'. split; [exact E' |].
    rewrite Ho', Ho.
    change (x :: devices) with ([x] ++ devices).
    rewrite List.filter_app, register_all_app. reflexivity.
Qed.

(** X17.  RestoreRawInputDevices registers the mouse and keyboard devices of
    the snapshot in order and never tries the others, so a device of another
    kind cannot make it fail.  At the first mouse or keyboard device whose
    registration fails it throws, with the devices before that one
    registered and the ones after it not. *)
Theorem restore_registers_until_one_fails env hid w :
  ((forall x, In x (old_raw_input_devices w) ->
              is_recognised_device hid x = true ->
              RegisterRawInputDevices_ok env x = true) ->
   exists w',
     RestoreRawInputDevices env hid w = (Ret tt, w') /\
     os_raw_input_devices w' =
     register_all
       (List.filter (is_recognised_device hid) (old_raw_input_devices w))
       (os_raw_input_devices w)) /\
  (forall before d after,
     old_raw_input_devices w = before ++ d :: after ->
     (forall x, In x before -> is_recognised_device hid x = true ->
                RegisterRawInputDevices_ok env x = true) ->
     is_recognised_device hid d = true ->
     RegisterRawInputDevices_ok env d = false ->
     exists w',
       RestoreRawInputDevices env hid w =
       (Throw (mkError "RegisterRawInputDevices failed." (LastError env)),
        w') /\
       os_raw_input_devices w' =
       register_all (List.filter (is_recognised_device hid) before)
         (os_raw_input_devices w)).
Proof.
  split.
  - intros Hok.
    unfold RestoreRawInputDevices, bind, HADESMEM_DETAIL_TRACE, modify, gets.
    simpl.
    match goal with
    | |- exists w', RestoreRawInputDevices_loop _ _ _ ?w0 = _ /\ _ =>
        destruct (RestoreRawInputDevices_loop_succeeds env hid
                    (old_raw_input_devices w) w0 Hok) as (w' & E & Ho)
    end.
    exists w'. split; [exact E | exact Ho].
  - intros before d after Hold Hbefore Hrec Hfail.
    unfold RestoreRawInputDevices, bind, HADESMEM_DETAIL_TRACE, modify, gets.
    simpl. rewrite Hold.
    match goal with
    | |- exists w', RestoreRawInputDevices_loop _ _ _ ?w0 = _ /\ _ =>
        destruct (RestoreRawInputDevices_loop_fails env hid d after before
                    w0 Hbefore Hrec Hfail) as (w' & E & Ho & _)
    end.
    exists w'. split; [exact E | exact Ho].
Qed.

Lemma restore_registers_until_one_fails_witness :
  exists w',
    RestoreRawInputDevices
      (Failing.env_rejecting
         (fun d => negb (is_mouse_device Sample.hid d)))
      Sample.hid Failing.three_saved =
    (Throw (mkError "RegisterRawInputDevices failed." 5), w') /\
    os_raw_input_devices w' =
    register_all [Sample.mouse] (os_raw_input_devices Failing.three_saved).
Proof.
  apply (proj2 (restore_registers_until_one_fails
                  (Failing.env_rejecting
                     (fun d => negb (is_mouse_device Sample.hid d)))
                  Sample.hid Failing.three_saved)
           [Sample.joystick; Sample.mouse] Sample.keyboard []).
  - reflexivity.
  - simpl. intros x [<- | [<- | []]] H; [discriminate H | reflexivity].
  - reflexivity.
  - reflexivity.
Defined.

(** ** The raw-input registrations after a turn-on and a turn-off *)

Lemma same_usage_kinds hid x d :
  Win32.same_usage x d = true ->
  is_mouse_device hid x = is_mouse_device hid d /\
  is_keyboard_device hid x = is_keyboard_device hid d.
Proof.
  unfold Win32.same_usage, is_mouse_device, is_keyboard_device.
  rewrite andb_true_iff, !Z.eqb_eq. intros [-> ->]. split; reflexivity.
Qed.

Lemma In_register_all ds : forall registered x,
  (forall d, In d ds -> Z.land (dwFlags d) RIDEV_REMOVE <> RIDEV_REMOVE) ->
  (forall a b, In a ds -> In b ds -> Win32.same_usage a b = true -> a = b) ->
  In x (register_all ds registered) <->
  In x ds \/
  (In x registered /\ forall d, In d ds -> Win32.same_usage x d = false).
Proof.
  induction ds as [| d ds IH]; intros registered x Hflags Huniq.
  - simpl. split; [intros H; right; split; [exact H | intros ? []] |].
    intros [[] | [H _]]. exact H.
  - change (register_all (d :: ds) registered)
      with (register_all ds (Win32.register d registered)).
    rewrite IH.
    2:{ intros d' Hd'. apply Hflags. right. exact Hd'. }
    2:{ intros a b Ha Hb. apply Huniq; right; assumption. }
    rewrite In_register by (apply Hflags; left; reflexivity).
    split.
    + intros [H | [[[H Hs] | ->] Hall]].
      * left. right. exact H.
      * right. split; [exact H |]. intros d' [<- | Hd']; auto.
      * left. left. reflexivity.
    + intros [[<- | H] | [H Hall]].
      * destruct (existsb (Win32.same_usage d) ds) eqn:Ex.
        -- apply existsb_exists in Ex as (d' & Hd' & Hs).
           left. rewrite (Huniq d d'); auto; [left; reflexivity | right; auto].
        -- right. split; [right; reflexivity |].
           intros d' Hd'.
           destruct (Win32.same_usage d d') eqn:Hs; [| reflexivity].
           rewrite <- Ex. symmetry. apply existsb_exists. eauto.
      * left. exact H.
      * right. split.
        -- left. split; [exact H |]. apply Hall. left. reflexivity.
        -- intros d' Hd'. apply Hall. right. exact Hd'.
Qed.

Lemma found_find_true {A : Type} (p : A -> bool) l :
  found (find p l) = true -> exists x, In x l /\ p x = true.
Proof.
  destruct (find p l) as [x |] eqn:E; [| discriminate].
  intros _. exists x. apply (find_some p l E).
Qed.

Lemma In_redirected env hid l x :
  In x (redirected env hid l) ->
  In x l \/
  (found (find (is_mouse_device hid) l) = true /\ x = overlay_mouse env hid) \/
  (found (find (is_keyboard_device hid) l) = true /\
   x = overlay_keyboard env hid).
Proof.
  unfold redirected, DoesRawInputDeviceHaveMouseOrKeyboardDevice.
  cbn [fst snd].
  destruct (found (find (is_mouse_device hid) l));
    destruct (found (find (is_keyboard_device hid) l));
    rewrite ?In_register by discriminate; intuition.
Qed.

Lemma In_redirected_unrecognised env hid l x :
  is_recognised_device hid x = false ->
  In x l -> In x (redirected env hid l).
Proof.
  unfold is_recognised_device. intros Hrec Hin.
  apply orb_false_iff in Hrec as [Hm Hk].
  assert (Sm : Win32.same_usage x (overlay_mouse env hid) = false)
    by exact Hm.
  assert (Sk : Win32.same_usage x (overlay_keyboard env hid) = false)
    by exact Hk.
  unfold redirected, DoesRawInputDeviceHaveMouseOrKeyboardDevice.
  cbn [fst snd].
  destruct (found (find (is_mouse_device hid) l));
    destruct (found (find (is_keyboard_device hid) l));
    rewrite ?In_register by discriminate; intuition.
Qed.

Lemma turn_on_registers env hid w w' :
  SetGuiVisibleForInput env hid true false w = (Ret tt, w') ->
  os_raw_input_devices w' = redirected env hid (os_raw_input_devices w) /\
  (os_raw_input_devices w = [] ->
   old_raw_input_devices w' = old_raw_input_devices w).
Proof.
  unfold SetGuiVisibleForInput. simpl. intros H.
  apply bind_Ret_inv in H as ([] & w1 & H1 & H).
  apply bind_Ret_inv in H as ([] & w2 & H2 & H).
  apply bind_Ret_inv in H as ([] & w3 & H3 & H).
  apply bind_Ret_inv in H as ([] & w4 & H4 & H).
  apply bind_Ret_inv in H as ([] & w5 & H5 & H).
  assert (E : os_raw_input_devices w5 = os_raw_input_devices w).
  { transitivity (os_raw_input_devices w4); [frame_from H5 |].
    transitivity (os_raw_input_devices w3); [frame_from H4 |].
    transitivity (os_raw_input_devices w2); [frame_from H3 |].
    transitivity (os_raw_input_devices w1); [frame_from H2 | frame_from H1]. }
  assert (E' : old_raw_input_devices w5 = old_raw_input_devices w).
  { transitivity (old_raw_input_devices w4); [frame_from H5 |].
    transitivity (old_raw_input_devices w3); [frame_from H4 |].
    transitivity (old_raw_input_devices w2); [frame_from H3 |].
    transitivity (old_raw_input_devices w1); [frame_from H2 | frame_from H1]. }
  split.
  - rewrite <- E. apply (SetRawInputDevices_registers env hid). exact H.
  - intros Hnil. rewrite <- E in Hnil.
    rewrite SetRawInputDevices_none in H by exact Hnil.
    injection H as <-. exact E'.
Qed.

(** X18.  After a turn-on and the turn-off that follows it, the raw-input
    registrations are the ones there were before: redirected mouse and
    keyboard registrations are back with the host's target and flags, and
    devices of other kinds were never touched.  This needs the turn-on to
    have taken a snapshot (at least one device registered) or no older
    snapshot to be stored. *)
Theorem raw_input_registrations_round_trip env1 env2 hid w0 :
  transition_succeeds env1 ->
  transition_succeeds env2 ->
  device_count_fits w0 ->
  well_registered (os_raw_input_devices w0) ->
  os_raw_input_devices w0 <> [] \/ old_raw_input_devices w0 = [] ->
  exists w1 w2,
    SetGuiVisible env1 hid true false w0 = (Ret tt, w1) /\
    SetGuiVisible env2 hid false true w1 = (Ret tt, w2) /\
    forall d,
      In d (os_raw_input_devices w2) <-> In d (os_raw_input_devices w0).
Proof.
  intros Hok1 Hok2 Hfit [Huniq Hflags] Hsnap.
  destruct (turn_on_returns env1 hid (set_gui_visible true w0) Hok1 Hfit)
    as [w1 E1].
  destruct (turn_off_returns env2 hid (set_gui_visible false w1) Hok2)
    as [w2 E2].
  exists w1, w2. split; [exact E1 |]. split; [exact E2 |].
  apply turn_off_restores_devices in E2 as [_ E2]. simpl in E2.
  pose proof (turn_on_registers _ _ _ _ E1) as [Hred Hkeep].
  simpl in Hred, Hkeep.
  set (l := os_raw_input_devices w0) in *.
  assert (Hold : old_raw_input_devices w1 = l).
  { destruct l as [| d0 l0] eqn:El.
    - destruct Hsnap as [Hne | Hnil]; [congruence |].
      rewrite Hkeep by reflexivity. exact Hnil.
    - rewrite <- El. apply (turn_on_snapshot env1 hid _ _ E1).
      simpl. fold l. rewrite El. discriminate. }
  rewrite E2, Hold, Hred. intros x.
  rewrite In_register_all.
  2:{ intros d Hd. apply filter_In in Hd as [Hd _]. apply Hflags. exact Hd. }
  2:{ intros a b Ha Hb. apply filter_In in Ha as [Ha _].
      apply filter_In in Hb as [Hb _]. apply Huniq; assumption. }
  rewrite filter_In.
  assert (Hkinds : forall d, In d l -> is_recognised_device hid d = true ->
                             Win32.same_usage x d = true ->
                             is_recognised_device hid x = true).
  { intros d _ Hrec Hs. unfold is_recognised_device in *.
    destruct (same_usage_kinds hid x d Hs) as [-> ->]. exact Hrec. }
  split.
  - intros [[H _] | [H Hall]]; [exact H |].
    apply In_redirected in H as [H | [[Hf ->] | [Hf ->]]]; [exact H | |];
      exfalso; apply found_find_true in Hf as (d & Hd & Hp).
    + assert (Hs : Win32.same_usage (overlay_mouse env1 hid) d = true).
      { unfold is_mouse_device in Hp. apply andb_true_iff in Hp as [Hp1 Hp2].
        apply Z.eqb_eq in Hp1, Hp2.
        unfold Win32.same_usage, overlay_mouse. simpl.
        rewrite Hp1, Hp2, !Z.eqb_refl. reflexivity. }
      rewrite Hall in Hs; [discriminate |].
      apply filter_In. split; [exact Hd |].
      unfold is_recognised_device. rewrite Hp. reflexivity.
    + assert (Hs : Win32.same_usage (overlay_keyboard env1 hid) d = true).
      { unfold is_keyboard_device in Hp.
        apply andb_true_iff in Hp as [Hp1 Hp2].
        apply Z.eqb_eq in Hp1, Hp2.
        unfold Win32.same_usage, overlay_keyboard. simpl.
        rewrite Hp1, Hp2, !Z.eqb_refl. reflexivity. }
      rewrite Hall in Hs; [discriminate |].
      apply filter_In. split; [exact Hd |].
      unfold is_recognised_device. rewrite Hp. apply orb_true_r.
  - intros Hx.
    destruct (is_recognised_device hid x) eqn:Hrec.
    + left. split; [exact Hx | reflexivity].
    + right. split; [apply In_redirected_unrecognised; assumption |].
      intros d Hd. apply filter_In in Hd as [Hd Hdrec].
      destruct (Win32.same_usage x d) eqn:Hs; [| reflexivity].
      discriminate (Hkinds d Hd Hdrec Hs).
Qed.

Lemma raw_input_registrations_round_trip_witness :
  exists w1 w2,
    SetGuiVisible Sample.env Sample.hid true false Sample.host =
    (Ret tt, w1) /\
    SetGuiVisible Sample.env Sample.hid false true w1 = (Ret tt, w2) /\
    forall d,
      In d (os_raw_input_devices w2) <->
      In d (os_raw_input_devices Sample.host).
Proof.
  apply (raw_input_registrations_round_trip Sample.env Sample.env Sample.hid
           Sample.host).
  - constructor; simpl; intros; try reflexivity; discriminate.
  - constructor; simpl; intros; try reflexivity; discriminate.
  - unfold device_count_fits. simpl. lia.
  - split.
    + simpl. intros a b [<- | [<- | []]] [<- | [<- | []]] H;
        try reflexivity; discriminate H.
    + simpl. intros d [<- | [<- | []]]; discriminate.
  - left. discriminate.
Defined.

(** ** Counting the show-cursor calls of the host *)

Lemma OnShowCursor_visible show w :
  gui_visible w = true ->
  step (Hook_ShowCursor show) w =
  set_show_cursor_count
    (wrap_int (show_cursor_count w + (if show =? FALSE then -1 else 1))) w.
Proof.
  intros Hv. unfold step, OnShowCursor, GetGuiVisible, bind, gets, modify, ret.
  simpl. rewrite Hv. unfold FALSE.
  destruct (show =? 0); simpl; [| reflexivity].
  replace (show_cursor_count w + -1) with (show_cursor_count w - 1) by lia.
  reflexivity.
Qed.

Lemma OnShowCursor_hidden show w :
  gui_visible w = false -> step (Hook_ShowCursor show) w = w.
Proof.
  intros Hv. unfold step, OnShowCursor, GetGuiVisible, bind, gets, ret.
  simpl. rewrite Hv. reflexivity.
Qed.

(** X19.  While the overlay is visible, any sequence of ShowCursor calls of
    the host moves only the overlay's own counter, by the number of shows
    less the number of hides (wrapping as an int does); the display counter
    of the system is not touched.  While the overlay is hidden the hook
    leaves the state as it is. *)
Theorem show_cursor_hook_counts_calls shows w :
  INT_MIN <= show_cursor_count w <= INT_MAX ->
  (gui_visible w = true ->
   run (show_cursor_calls shows) w =
   set_show_cursor_count
     (wrap_int (show_cursor_count w + net_shows shows)) w) /\
  (gui_visible w = false ->
   run (show_cursor_calls shows) w = w).
Proof.
  intros Hrange. split; intros Hv.
  - revert w Hrange Hv.
    induction shows as [| show shows IH]; intros w Hrange Hv.
    + simpl. rewrite Z.add_0_r, wrap_int_id by exact Hrange.
      destruct w; reflexivity.
    + change (run (show_cursor_calls (show :: shows)) w)
        with (run (show_cursor_calls shows)
                (step (Hook_ShowCursor show) w)).
      rewrite OnShowCursor_visible by exact Hv.
      rewrite IH; [| simpl; apply wrap_int_range | exact Hv].
      simpl. rewrite wrap_int_add_l.
      replace (show_cursor_count w + (if show =? FALSE then -1 else 1) +
               net_shows shows)
        with (show_cursor_count w +
              ((if show =? FALSE then -1 else 1) + net_shows shows)) by lia.
      reflexivity.
  - revert w Hrange Hv.
    induction shows as [| show shows IH]; intros w Hrange Hv;
      [reflexivity |].
    change (run (show_cursor_calls (show :: shows)) w)
      with (run (show_cursor_calls shows)
              (step (Hook_ShowCursor show) w)).
    rewrite OnShowCursor_hidden by exact Hv. apply IH; assumption.
Qed.

Lemma show_cursor_hook_counts_calls_witness :
  show_cursor_count
    (run
       (show_cursor_calls [TRUE; FALSE; FALSE; TRUE; TRUE]) Sample.overlay) =
  show_cursor_count Sample.overlay + 1.
Proof.
  destruct (show_cursor_hook_counts_calls
              [TRUE; FALSE; FALSE; TRUE; TRUE] Sample.overlay) as [H _].
  - vm_compute. split; discriminate.
  - rewrite H by reflexivity. reflexivity.
Defined.

